(** * Evaluation pipeline of the framework-method study (RQ1)

    A shallow embedding of [evaluation/RQ1]: the response parser, the
    per-request retry loop and the two backend clients of
    [llm_interface.py], the similarity scorer of [utils.py] and the
    orchestration loop of [evaluator.py], with the constants of
    [config.py].

    Python values are embedded as the JSON-shaped universe [pyval]; text
    is a sequence of Unicode code points.  Exceptions are values of type
    [exn] carried by the [res] type; code that performs effects (network,
    sleeping, clock, files, logging) runs in the monad [M], which threads
    the outside world, the list of performed effects and [self.results]. *)

From Stdlib Require Import String Ascii.
From Stdlib Require Import List ZArith NArith Lia Bool.
Import ListNotations.

Set Implicit Arguments.

(* ================================================================== *)
(** ** Text *)

(** A Python [str]: its code points, in order. *)
Definition pystr := list N.

(** The text of an ASCII literal. *)
Definition str (s : string) : pystr :=
  map N_of_ascii (list_ascii_of_string s).

(** Same, with every apostrophe of the literal standing for a double
    quote (code point 34); used to write JSON documents readably. *)
Definition txt (s : string) : pystr :=
  map (fun c => if N.eqb c 39 then 34%N else c) (str s).

Fixpoint str_eqb (a b : pystr) : bool :=
  match a, b with
  | [], [] => true
  | x :: a', y :: b' => N.eqb x y && str_eqb a' b'
  | _, _ => false
  end.

(** [s.startswith(p)] *)
Fixpoint startswith (p s : pystr) : bool :=
  match p, s with
  | [], _ => true
  | x :: p', y :: s' => N.eqb x y && startswith p' s'
  | _ :: _, [] => false
  end.

(** [needle in hay] on two strings: substring test. *)
Fixpoint str_contains (needle hay : pystr) : bool :=
  startswith needle hay ||
  match hay with
  | [] => false
  | _ :: hay' => str_contains needle hay'
  end.

(** [str.isspace] for one code point (the Unicode white-space set that
    [str.strip()] removes). *)
Definition is_space (c : N) : bool :=
  ((9 <=? c) && (c <=? 13) || (28 <=? c) && (c <=? 32) ||
   (c =? 133) || (c =? 160) || (c =? 5760) ||
   (8192 <=? c) && (c <=? 8202) || (c =? 8232) || (c =? 8233) ||
   (c =? 8239) || (c =? 8287) || (c =? 12288))%N.

Fixpoint lstrip (s : pystr) : pystr :=
  match s with
  | c :: s' => if is_space c then lstrip s' else s
  | [] => []
  end.

(** [s.strip()] *)
Definition strip (s : pystr) : pystr := rev (lstrip (rev (lstrip s))).

(** [s[a:-b]] for non-negative literals [a] and [b > 0]: the stop index
    is [len(s) - b], clamped at 0; an empty range yields the empty text. *)
Definition slice_from_to_end (a b : nat) (s : pystr) : pystr :=
  skipn a (firstn (length s - b) s).

(** Decimal rendering of an integer, as [str(n)] and f-strings give it. *)
Fixpoint digits_of_pos (fuel : nat) (n : N) (acc : pystr) : pystr :=
  match fuel with
  | O => acc
  | S fuel' =>
      let acc' := (48 + n mod 10)%N :: acc in
      if (n <? 10)%N then acc' else digits_of_pos fuel' (n / 10)%N acc'
  end.

Definition str_of_int (z : Z) : pystr :=
  let n := Z.to_N (Z.abs z) in
  let ds := digits_of_pos (S (N.to_nat (N.log2 n))) n [] in
  if (z <? 0)%Z then 45%N :: ds else ds.

(* ================================================================== *)
(** ** Values and exceptions *)

(** The Python values the pipeline handles.  A [float] is kept as a
    decimal numeral that denotes it (["0.5"], ["nan"], ["inf"]): the
    pipeline stores and forwards floats and computes with none of them.
    A [dict] keeps its entries in insertion order; its keys are text. *)
#[warnings="-register-all"]
Inductive pyval :=
| VNone
| VBool (b : bool)
| VInt (z : Z)
| VFloat (numeral : pystr)
| VStr (s : pystr)
| VList (items : list pyval)
| VDict (entries : list (pystr * pyval)).

Definition dict := list (pystr * pyval).

Fixpoint dict_get (d : dict) (k : pystr) : option pyval :=
  match d with
  | [] => None
  | (k', v) :: d' => if str_eqb k' k then Some v else dict_get d' k
  end.

Definition dict_has (d : dict) (k : pystr) : bool :=
  match dict_get d k with Some _ => true | None => false end.

(** [d[k] = v]: an existing key keeps its position, a new one goes last. *)
Fixpoint dict_set (d : dict) (k : pystr) (v : pyval) : dict :=
  match d with
  | [] => [(k, v)]
  | (k', v') :: d' =>
      if str_eqb k' k then (k', v) :: d' else (k', v') :: dict_set d' k v
  end.

Definition dict_keys (d : dict) : list pystr := map fst d.
Definition dict_values (d : dict) : list pyval := map snd d.

(** The classes of exceptions that occur; all derive from [Exception].
    [JSONDecodeError] derives from [ValueError]; [ConnectionError] is
    the one of [requests.exceptions]; [OverflowError] is what [time.sleep]
    raises on a length beyond its clock; [OtherError] stands for any class
    unrelated to the ones a handler of this program names. *)
Inductive exn_kind :=
| PlainException
| ValueError
| JSONDecodeError
| TypeError
| KeyError
| IndexError
| AttributeError
| NameError
| ZeroDivisionError
| FileNotFoundError
| ConnectionError
| OverflowError
| OtherError.

(** [issubclass(k, base)] *)
Definition is_a (k base : exn_kind) : bool :=
  match base, k with
  | PlainException, _ => true
  | ValueError, (ValueError | JSONDecodeError) => true
  | JSONDecodeError, JSONDecodeError => true
  | TypeError, TypeError => true
  | KeyError, KeyError => true
  | IndexError, IndexError => true
  | AttributeError, AttributeError => true
  | NameError, NameError => true
  | ZeroDivisionError, ZeroDivisionError => true
  | FileNotFoundError, FileNotFoundError => true
  | ConnectionError, ConnectionError => true
  | OverflowError, OverflowError => true
  | OtherError, OtherError => true
  | _, _ => false
  end.

(** An exception: its class and [str(e)]. *)
Record exn := Raised { exn_kind_of : exn_kind; exn_text : pystr }.

(** The outcome of an expression: a value, or a raised exception. *)
Inductive res (A : Type) :=
| Ok (a : A)
| Err (e : exn).
Arguments Ok {A} a.
Arguments Err {A} e.

Definition res_bind {A B} (r : res A) (k : A -> res B) : res B :=
  match r with
  | Ok a => k a
  | Err e => Err e
  end.

Declare Scope res_scope.
Delimit Scope res_scope with res.
Declare Scope m_scope.
Delimit Scope m_scope with M.
Notation "x <- r ;; k" :=
  (res_bind r (fun x => k))
  (at level 61, r at next level, right associativity) : res_scope.
Notation "r ;; k" :=
  (res_bind r (fun _ => k))
  (at level 61, right associativity) : res_scope.

Definition is_ok {A} (r : res A) : bool :=
  match r with Ok _ => true | Err _ => false end.

(* ================================================================== *)
(** ** [json.loads]

    The decoder of the Python standard library, as the pipeline uses it
    (default options): white space is space, tab, line feed and carriage
    return; besides the JSON grammar it reads [NaN], [Infinity] and
    [-Infinity]; a repeated key of an object keeps its first position and
    its last value; text after the document is an error.  A text that
    is no document is a [JSONDecodeError], here [None].

    This is the grammar alone.  Two limits of the interpreter are outside
    it, as they vary with its version and settings: the depth of nesting
    it follows before it raises [RecursionError], and the number of digits
    of an integer it converts before it raises a plain [ValueError].
    [json_loads s = Some v] and [json_loads s = None] describe the decoder
    on the texts it reads within these limits. *)

Definition is_json_ws (c : N) : bool :=
  ((c =? 32) || (c =? 9) || (c =? 10) || (c =? 13))%N.

Fixpoint skip_ws (s : pystr) : pystr :=
  match s with
  | c :: s' => if is_json_ws c then skip_ws s' else s
  | [] => []
  end.

Definition is_digit (c : N) : bool := ((48 <=? c) && (c <=? 57))%N.

(** The longest prefix of decimal digits, and what follows it. *)
Fixpoint span_digits (s : pystr) : pystr * pystr :=
  match s with
  | c :: s' =>
      if is_digit c
      then let (ds, r) := span_digits s' in (c :: ds, r)
      else ([], s)
  | [] => ([], [])
  end.

Definition int_of_digits (ds : pystr) : Z :=
  fold_left (fun acc c => (10 * acc + Z.of_N (c - 48))%Z) ds 0%Z.

(** The number pattern of the scanner: an optional minus sign, then
    either a single 0 or a digit 1-9 followed by digits; then, optionally,
    a point followed by one digit or more; then, optionally, e or E, an
    optional sign and one digit or more.  The optional parts are taken
    only when complete.  A numeral with a fraction or an exponent is a
    float, any other an int. *)
Definition match_number (s : pystr) : option (pyval * pystr) :=
  let (neg, s1) :=
    match s with
    | 45%N :: r => (true, r)
    | _ => (false, s)
    end in
  let int_part :=
    match s1 with
    | 48%N :: r => Some ([48%N], r)
    | c :: _ => if is_digit c then Some (span_digits s1) else None
    | [] => None
    end in
  match int_part with
  | None => None
  | Some (ds, r1) =>
      let (frac, r2) :=
        match r1 with
        | 46%N :: r =>
            match span_digits r with
            | ([], _) => ([], r1)
            | (fs, r') => (46%N :: fs, r')
            end
        | _ => ([], r1)
        end in
      let (expo, r3) :=
        match r2 with
        | e :: r =>
            if ((e =? 101) || (e =? 69))%N then
              let (sg, r') :=
                match r with
                | c :: r'' =>
                    if ((c =? 43) || (c =? 45))%N then ([c], r'') else ([], r)
                | [] => ([], r)
                end in
              match span_digits r' with
              | ([], _) => ([], r2)
              | (es, r'') => (e :: sg ++ es, r'')
              end
            else ([], r2)
        | [] => ([], r2)
        end in
      let sign := if neg then [45%N] else [] in
      match frac, expo with
      | [], [] =>
          Some (VInt (if neg then - int_of_digits ds else int_of_digits ds),
                r3)
      | _, _ => Some (VFloat (sign ++ ds ++ frac ++ expo), r3)
      end
  end.

Definition hex_value (c : N) : option N :=
  if is_digit c then Some (c - 48)%N
  else if ((97 <=? c) && (c <=? 102))%N then Some (c - 87)%N
  else if ((65 <=? c) && (c <=? 70))%N then Some (c - 55)%N
  else None.

Definition hex4 (a b c d : N) : option N :=
  match hex_value a, hex_value b, hex_value c, hex_value d with
  | Some x, Some y, Some z, Some w =>
      Some (((x * 16 + y) * 16 + z) * 16 + w)%N
  | _, _, _, _ => None
  end.

(** The character a one-letter escape stands for. *)
Definition unescape (c : N) : option N :=
  match c with
  | 34%N => Some 34%N
  | 92%N => Some 92%N
  | 47%N => Some 47%N
  | 98%N => Some 8%N
  | 102%N => Some 12%N
  | 110%N => Some 10%N
  | 114%N => Some 13%N
  | 116%N => Some 9%N
  | _ => None
  end.

(** The low half that completes the high surrogate [hi], when the text
    continues with its escape; the pair is then one code point. *)
Definition low_surrogate (hi : N) (s : pystr) : option (N * pystr) :=
  if ((55296 <=? hi) && (hi <=? 56319))%N then
    match s with
    | 92%N :: 117%N :: a :: b :: c :: d :: r =>
        match hex4 a b c d with
        | Some lo =>
            if ((56320 <=? lo) && (lo <=? 57343))%N
            then Some ((65536 + (hi - 55296) * 1024 + (lo - 56320))%N, r)
            else None
        | None => None
        end
    | _ => None
    end
  else None.

(** The body of a string literal, after its opening quote: the decoded
    text and what follows the closing quote.  Control characters must be
    escaped. *)
Fixpoint scanstring (fuel : nat) (s : pystr) (acc : pystr)
  : option (pystr * pystr) :=
  match fuel with
  | O => None
  | S fuel' =>
      match s with
      | [] => None
      | 34%N :: r => Some (rev acc, r)
      | 92%N :: 117%N :: a :: b :: c :: d :: r =>
          match hex4 a b c d with
          | Some u =>
              match low_surrogate u r with
              | Some (cp, r') => scanstring fuel' r' (cp :: acc)
              | None => scanstring fuel' r (u :: acc)
              end
          | None => None
          end
      | 92%N :: e :: r =>
          match unescape e with
          | Some c => scanstring fuel' r (c :: acc)
          | None => None
          end
      | 92%N :: [] => None
      | c :: r => if (c <? 32)%N then None else scanstring fuel' r (c :: acc)
      end
  end.

Section Containers.
(** The scanner for one value, one nesting level down. *)
Variable value : pystr -> option (pyval * pystr).

(** The items of an array, from the first character of an item. *)
Fixpoint array_items (fuel : nat) (s : pystr) (acc : list pyval)
  : option (pyval * pystr) :=
  match fuel with
  | O => None
  | S fuel' =>
      match value s with
      | None => None
      | Some (v, r) =>
          match skip_ws r with
          | 93%N :: r' => Some (VList (rev (v :: acc)), r')
          | 44%N :: r' => array_items fuel' (skip_ws r') (v :: acc)
          | _ => None
          end
      end
  end.

(** The members of an object, from the opening quote of a key. *)
Fixpoint object_members (fuel : nat) (s : pystr) (acc : dict)
  : option (pyval * pystr) :=
  match fuel with
  | O => None
  | S fuel' =>
      match s with
      | 34%N :: r =>
          match scanstring (S (length r)) r [] with
          | None => None
          | Some (k, r1) =>
              match skip_ws r1 with
              | 58%N :: r2 =>
                  match value (skip_ws r2) with
                  | None => None
                  | Some (v, r3) =>
                      match skip_ws r3 with
                      | 125%N :: r4 => Some (VDict (dict_set acc k v), r4)
                      | 44%N :: r4 =>
                          object_members fuel' (skip_ws r4)
                                         (dict_set acc k v)
                      | _ => None
                      end
                  end
              | _ => None
              end
          end
      | _ => None
      end
  end.
End Containers.

(** One value at the head of [s] (the scanner's [scan_once]). *)
Fixpoint scan_once (fuel : nat) (s : pystr) : option (pyval * pystr) :=
  match fuel with
  | O => None
  | S fuel' =>
      match s with
      | [] => None
      | 34%N :: r =>
          match scanstring (S (length r)) r [] with
          | Some (t, r') => Some (VStr t, r')
          | None => None
          end
      | 123%N :: r =>
          match skip_ws r with
          | 125%N :: r' => Some (VDict [], r')
          | r' => object_members (scan_once fuel') (S (length r')) r' []
          end
      | 91%N :: r =>
          match skip_ws r with
          | 93%N :: r' => Some (VList [], r')
          | r' => array_items (scan_once fuel') (S (length r')) r' []
          end
      | _ =>
          if startswith (str "null") s then Some (VNone, skipn 4 s)
          else if startswith (str "true") s then Some (VBool true, skipn 4 s)
          else if startswith (str "false") s
          then Some (VBool false, skipn 5 s)
          else
            match match_number s with
            | Some r => Some r
            | None =>
                if startswith (str "NaN") s
                then Some (VFloat (str "nan"), skipn 3 s)
                else if startswith (str "Infinity") s
                then Some (VFloat (str "inf"), skipn 8 s)
                else if startswith (str "-Infinity") s
                then Some (VFloat (str "-inf"), skipn 9 s)
                else None
            end
      end
  end.

(** [json.loads(s)] for a [str] argument. *)
Definition json_loads (s : pystr) : option pyval :=
  if startswith [65279%N] s then None
  else
    match scan_once (S (length s)) (skip_ws s) with
    | Some (v, r) =>
        match skip_ws r with
        | [] => Some v
        | _ :: _ => None
        end
    | None => None
    end.

(* ================================================================== *)
(** ** Float numerals *)

(** The digits of the mantissa of a numeral and its decimal exponent: an
    optional sign, digits with an optional point among them, then,
    optionally, e or E, an optional sign and digits.  The numeral denotes
    the mantissa, read as an integer, times ten to the exponent.  [None]
    for any other text ([nan], [inf]). *)
Definition numeral_parts (f : pystr) : option (pystr * Z) :=
  let unsigned :=
    match f with
    | c :: r => if ((c =? 45) || (c =? 43))%N then r else f
    | [] => f
    end in
  let (ds, r1) := span_digits unsigned in
  let (fs, r2) :=
    match r1 with
    | 46%N :: r => span_digits r
    | _ => ([], r1)
    end in
  let point := Z.of_nat (length fs) in
  match ds ++ fs, r2 with
  | [], _ => None
  | mantissa, [] => Some (mantissa, (- point)%Z)
  | mantissa, e :: r =>
      if ((e =? 101) || (e =? 69))%N then
        let (neg, r') :=
          match r with
          | c :: r'' =>
              if (c =? 45)%N then (true, r'')
              else if (c =? 43)%N then (false, r'')
              else (false, r)
          | [] => (false, r)
          end in
        match span_digits r' with
        | ([], _) => None
        | (es, []) =>
            Some (mantissa,
                  ((if neg then - int_of_digits es else int_of_digits es)
                   - point)%Z)
        | (_, _ :: _) => None
        end
      else None
  end.

(** [float(numeral) == 0.0]: the numeral denotes zero, or a number that
    rounds to zero, which is one of magnitude at most 2^-1075, half the
    least positive float. *)
Definition float_is_zero (f : pystr) : bool :=
  match numeral_parts f with
  | Some (mantissa, exponent) =>
      let m := int_of_digits mantissa in
      ((m =? 0) ||
       ((exponent <? 0) && (m * 2 ^ 1075 <=? 10 ^ (- exponent))))%Z
  | None => false
  end.

(* ================================================================== *)
(** ** What lies outside the program *)

(** An HTTP request as [requests.post] receives it, and its response. *)
Record request := Request {
  req_url : pystr;
  req_headers : list (pystr * pystr);
  req_json : pyval;
  req_timeout : Z
}.

Record response := Response {
  status_code : Z;
  text : pystr
}.

Inductive log_level := INFO | WARNING | ERROR.

(** What the program does to the outside world. *)
Inductive event :=
| EvSleep (seconds : pyval)
| EvPost (r : request)
| EvRead (path : pystr)
| EvWrite (path : pystr) (data : pyval)
| EvLog (level : log_level)
| EvExcel (path : pystr)
| EvPrint.

(** The interpreter, its libraries and the outside world.
    - [fault_text]: the text the interpreter puts in an exception it
      raises itself, from the class and the offending operand; the
      wording differs between Python versions.
    - [W] is the state of the world; [requests_post], [time_time],
      [now_isoformat], [read_text] (open a file and read it whole) and
      [write_json] (create the directory and dump a document) are its
      answers, [sleep_world] is what a wait does to it.
    - [sleep_float]: what [time.sleep] makes of a length that is a float:
      [None] when it waits, else the class of what it raises
      ([ValueError] on NaN and on a negative length, [OverflowError] on a
      length beyond its clock); where the last line falls depends on the
      float arithmetic of the interpreter.
    - [calculate_similarity] is
      [SimilarityCalculator.calculate_similarity], the cosine of two
      sentence embeddings as a float; it handles its own failures (its
      result is then 0.0), so it answers on any two values.
    - [str_lower] is [str.lower], the Unicode lower-case mapping.
    - [generate_summary_stats] is [_generate_summary_stats()]: success
      rates and mean similarities of [self.results], floating-point
      arithmetic throughout; it can raise (a division by zero on an empty
      result set, a malformed entry). *)
Class Runtime := {
  W : Type;
  fault_text : exn_kind -> pyval -> pystr;
  requests_post : request -> W -> res response * W;
  sleep_world : pyval -> W -> W;
  sleep_float : pystr -> option exn_kind;
  time_time : W -> pystr * W;
  now_isoformat : W -> pystr * W;
  read_text : pystr -> W -> res pystr * W;
  write_json : pystr -> pyval -> W -> res unit * W;
  calculate_similarity : pyval -> pyval -> pystr;
  str_lower : pystr -> pystr;
  generate_summary_stats : pyval -> res pyval
}.

(** The constants of [config.py] that the pipeline reads. *)
Class Settings := {
  LLM_CONFIGS : dict;
  MAX_RETRIES : Z;
  PROGRESS_SAVE_INTERVAL : Z
}.

(** An [LLMInterface] object. *)
Record LLMInterface := {
  openai_api_key : option pystr;
  ollama_base_url : pystr
}.

(* ================================================================== *)
(** ** The Python operators the pipeline applies to values *)

Section Pipeline.

Context {rt : Runtime} {cfg : Settings} (self : LLMInterface).

Definition fault (k : exn_kind) (culprit : pyval) : exn :=
  Raised k (fault_text k culprit).

Definition raise_fault {A} (k : exn_kind) (culprit : pyval) : res A :=
  Err (fault k culprit).

Definition is_VStr (s : pystr) (v : pyval) : bool :=
  match v with
  | VStr t => str_eqb t s
  | _ => false
  end.

(** [needle in container] for a text [needle]: key of a dict, element of
    a list, substring of a text; any other container is not iterable. *)
Definition py_contains (container : pyval) (needle : pystr) : res bool :=
  match container with
  | VDict d => Ok (dict_has d needle)
  | VList l => Ok (existsb (is_VStr needle) l)
  | VStr t => Ok (str_contains needle t)
  | _ => raise_fault TypeError container
  end.

(** The element at position [i] of a sequence; negative positions count
    from the end. *)
Definition seq_index {A} (l : list A) (i : Z) : option A :=
  let n := Z.of_nat (length l) in
  let j := if (i <? 0)%Z then (n + i)%Z else i in
  if ((0 <=? j) && (j <? n))%Z then nth_error l (Z.to_nat j) else None.

(** [container[index]] *)
Definition py_getitem (container index : pyval) : res pyval :=
  match container with
  | VDict d =>
      match index with
      | VStr k =>
          match dict_get d k with
          | Some v => Ok v
          | None => raise_fault KeyError index
          end
      | VList _ | VDict _ => raise_fault TypeError index
      | _ => raise_fault KeyError index
      end
  | VList l =>
      match index with
      | VInt i =>
          match seq_index l i with
          | Some v => Ok v
          | None => raise_fault IndexError index
          end
      | VBool b =>
          match seq_index l (if b then 1 else 0)%Z with
          | Some v => Ok v
          | None => raise_fault IndexError index
          end
      | _ => raise_fault TypeError index
      end
  | VStr t =>
      match index with
      | VInt i =>
          match seq_index t i with
          | Some c => Ok (VStr [c])
          | None => raise_fault IndexError index
          end
      | VBool b =>
          match seq_index t (if b then 1 else 0)%Z with
          | Some c => Ok (VStr [c])
          | None => raise_fault IndexError index
          end
      | _ => raise_fault TypeError index
      end
  | _ => raise_fault TypeError container
  end.

(** [container[key]] for a text key. *)
Definition py_get (container : pyval) (key : string) : res pyval :=
  py_getitem container (VStr (str key)).

(** [container[key] = v] for a text key: only a dict takes it. *)
Definition py_setitem (container : pyval) (key : pystr) (v : pyval)
  : res pyval :=
  match container with
  | VDict d => Ok (VDict (dict_set d key v))
  | _ => raise_fault TypeError container
  end.

(** [d.get(key, default)]: a method of dicts only. *)
Definition py_dict_get (d : pyval) (key : string) (default : pyval)
  : res pyval :=
  match d with
  | VDict d =>
      match dict_get d (str key) with
      | Some v => Ok v
      | None => Ok default
      end
  | _ => raise_fault AttributeError d
  end.

(** [a + b] where one operand is known to be text: the other must be. *)
Definition py_concat (a b : pyval) : res pyval :=
  match a, b with
  | VStr x, VStr y => Ok (VStr (x ++ y))
  | VStr _, _ => raise_fault TypeError b
  | _, _ => raise_fault TypeError a
  end.

(** Truth value of a Python value. *)
Definition py_truthy (v : pyval) : bool :=
  match v with
  | VNone => false
  | VBool b => b
  | VInt z => negb (z =? 0)%Z
  | VFloat f => negb (float_is_zero f)
  | VStr s => negb (str_eqb s [])
  | VList l => match l with [] => false | _ => true end
  | VDict d => match d with [] => false | _ => true end
  end.

(* ================================================================== *)
(** ** The response parser ([LLMInterface.parse_llm_response]) *)

(** The [try] block: clean the text, decode it, check the four fields.
    The cleaned text is returned along, since the handler of a decoding
    failure quotes it. *)
Definition clean_response (raw_response : pystr) : pystr :=
  let raw_response := strip raw_response in
  if startswith (str "```json") raw_response
  then strip (slice_from_to_end 7 3 raw_response)
  else if startswith (str "```") raw_response
  then strip (slice_from_to_end 3 3 raw_response)
  else raw_response.

Definition json_loads_res (doc : pystr) : res pyval :=
  match json_loads doc with
  | Some v => Ok v
  | None => raise_fault JSONDecodeError (VStr doc)
  end.

Definition validate_fields (parsed : pyval) : res pyval :=
  (has_purpose <- py_contains parsed (str "purpose_behavior") ;;
   if negb has_purpose
   then Err (Raised ValueError (str "Missing 'purpose_behavior' field"))
   else
   has_return <- py_contains parsed (str "return_values") ;;
   if negb has_return
   then Err (Raised ValueError (str "Missing 'return_values' field"))
   else
   return_values <- py_get parsed "return_values" ;;
   has_type <- py_contains return_values (str "type") ;;
   if negb has_type
   then Err (Raised ValueError (str "Missing 'type' in return_values"))
   else
   return_values <- py_get parsed "return_values" ;;
   has_description <- py_contains return_values (str "description") ;;
   if negb has_description
   then Err (Raised ValueError
               (str "Missing 'description' in return_values"))
   else Ok parsed)%res.

Definition parse_error_record (cleaned : pystr) (e : exn) : pyval :=
  VDict
    [ (str "purpose_behavior",
       VStr (str "PARSE_ERROR: " ++ firstn 200 cleaned));
      (str "return_values",
       VDict [ (str "type", VStr (str "PARSE_ERROR"));
               (str "description",
                VStr (str "Failed to parse JSON response")) ]);
      (str "parse_error", VStr (exn_text e)) ].

Definition validation_error_record (e : exn) : pyval :=
  VDict
    [ (str "purpose_behavior",
       VStr (str "VALIDATION_ERROR: " ++ exn_text e));
      (str "return_values",
       VDict [ (str "type", VStr (str "VALIDATION_ERROR"));
               (str "description",
                VStr (str "Response missing required fields")) ]);
      (str "validation_error", VStr (exn_text e)) ].

(** [parse_llm_response(raw_response)].  An argument that is not text
    has no [strip] method.  The first handler takes a [JSONDecodeError],
    the second any other [ValueError]; an exception of another class
    leaves the function. *)
Definition parse_llm_response (raw_response : pyval) : res pyval :=
  match raw_response with
  | VStr raw =>
      let cleaned := clean_response raw in
      match (parsed <- json_loads_res cleaned ;;
             validate_fields parsed)%res with
      | Ok parsed => Ok parsed
      | Err e =>
          if is_a (exn_kind_of e) JSONDecodeError
          then Ok (parse_error_record cleaned e)
          else if is_a (exn_kind_of e) ValueError
          then Ok (validation_error_record e)
          else Err e
      end
  | _ => raise_fault AttributeError raw_response
  end.

(* ================================================================== *)
(** ** Effects *)

(** The state a run threads: the world, the effects performed so far
    (latest first) and the evaluator's [self.results]. *)
Record state := State {
  world : W;
  effects : list event;
  results : pyval
}.

Definition M (A : Type) : Type := state -> res A * state.

Definition ret {A} (a : A) : M A := fun st => (Ok a, st).

Definition bind {A B} (c : M A) (k : A -> M B) : M B :=
  fun st =>
    match c st with
    | (Ok a, st') => k a st'
    | (Err e, st') => (Err e, st')
    end.

Definition raise {A} (e : exn) : M A := fun st => (Err e, st).

(** [try: c  except Exception as e: h e] *)
Definition catch {A} (c : M A) (h : exn -> M A) : M A :=
  fun st =>
    match c st with
    | (Ok a, st') => (Ok a, st')
    | (Err e, st') => h e st'
    end.

Definition lift {A} (r : res A) : M A := fun st => (r, st).

Notation "x <- c ;; k" :=
  (bind c (fun x => k))
  (at level 61, c at next level, right associativity) : m_scope.
Notation "c ;; k" :=
  (bind c (fun _ => k))
  (at level 61, right associativity) : m_scope.
Local Open Scope m_scope.

Definition emit (e : event) : M unit :=
  fun st => (Ok tt, State (world st) (e :: effects st) (results st)).

Definition with_world {A} (f : W -> A * W) : M A :=
  fun st =>
    let (a, w) := f (world st) in
    (Ok a, State w (effects st) (results st)).

Definition with_world_res {A} (f : W -> res A * W) : M A :=
  fun st =>
    let (r, w) := f (world st) in
    (r, State w (effects st) (results st)).

Definition get_results : M pyval := fun st => (Ok (results st), st).

Definition set_results (r : pyval) : M unit :=
  fun st => (Ok tt, State (world st) (effects st) r).

Definition log (level : log_level) : M unit := emit (EvLog level).

(** The longest wait of [time.sleep], in whole seconds: its clock counts
    nanoseconds in 64 bits, so that 2^33 seconds are taken and 2^34 are
    not. *)
Definition sleep_limit : Z := 9223372036.

Definition wait (seconds : pyval) : M unit :=
  emit (EvSleep seconds) ;;
  with_world (fun w => (tt, sleep_world seconds w)).

(** [time.sleep(seconds)]: a number, within the range of the clock and
    not negative.  The range is checked first. *)
Definition time_sleep (seconds : pyval) : M unit :=
  match seconds with
  | VInt z =>
      if (sleep_limit <? Z.abs z)%Z
      then raise (fault OverflowError seconds)
      else if (z <? 0)%Z
      then raise (fault ValueError seconds)
      else wait seconds
  | VBool _ => wait seconds
  | VFloat f =>
      match sleep_float f with
      | Some k => raise (fault k seconds)
      | None => wait seconds
      end
  | _ => raise (fault TypeError seconds)
  end.

Definition post (r : request) : M response :=
  emit (EvPost r) ;; with_world_res (requests_post r).

(* ================================================================== *)
(** ** Configuration ([config.py]) *)

Definition OLLAMA_BASE_URL : pystr := str "http://localhost:11434".

(** [PROMPT_TEMPLATE], split at its one substitution point; the doubled
    braces of the template are the single braces that [format] prints. *)
Definition PROMPT_BEFORE : pystr :=
  str "Given this Android framework method signature:
".

Definition PROMPT_AFTER : pystr :=
  txt "

Analyze this method and provide:
1. Purpose and behavior: Detailed description of what this method does
2. Return value type: The exact type this method returns
3. Return value description: What the return value represents

Format your response as JSON:
{
  'purpose_behavior': 'detailed description here',
  'return_values': {
    'type': 'exact_type_here',
    'description': 'return value meaning here'
  }
}

Respond ONLY with the JSON, no additional text.".

(* ================================================================== *)
(** ** The backend clients and the retry loop ([LLMInterface]) *)

(** [create_prompt(method_signature)] *)
Definition create_prompt (method_signature : pystr) : pystr :=
  PROMPT_BEFORE ++ method_signature ++ PROMPT_AFTER.

(** [response.json()] *)
Definition response_json (r : response) : res pyval :=
  json_loads_res (text r).

(** [response.json()["choices"][0]["message"]["content"]] *)
Definition first_message_content (r : response) : res pyval :=
  (body <- response_json r ;;
   choices <- py_get body "choices" ;;
   first <- py_getitem choices (VInt 0) ;;
   message <- py_get first "message" ;;
   py_get message "content")%res.

(** The request [query_openai] builds: the headers with the key, and
    the [data] document. *)
Definition openai_request (prompt : pystr)
    (model temperature max_tokens : pyval) : request :=
  let headers :=
    [ (str "Authorization",
       str "Bearer " ++ match openai_api_key self with
                        | Some k => k
                        | None => str "None"
                        end);
      (str "Content-Type", str "application/json") ] in
  let data :=
    VDict [ (str "model", model);
            (str "messages",
             VList [ VDict [ (str "role", VStr (str "user"));
                             (str "content", VStr prompt) ] ]);
            (str "temperature", temperature);
            (str "max_tokens", max_tokens) ] in
  Request (str "https://api.openai.com/v1/chat/completions")
          headers data 60.

(** [query_openai(prompt, config)] *)
Definition query_openai (prompt : pystr) (config : pyval) : M pyval :=
  model <- lift (py_get config "model") ;;
  temperature <- lift (py_get config "temperature") ;;
  max_tokens <- lift (py_get config "max_tokens") ;;
  response <- post (openai_request prompt model temperature max_tokens) ;;
  if (status_code response =? 200)%Z then
    lift (first_message_content response)
  else if (status_code response =? 429)%Z then
    raise (Raised PlainException (str "Rate limit exceeded"))
  else
    raise (Raised PlainException
             (str "OpenAI API error: " ++ str_of_int (status_code response)
                ++ str " - " ++ text response)).

(** [query_ollama(prompt, config)] *)
Definition query_ollama (prompt : pystr) (config : pyval) : M pyval :=
  model <- lift (py_get config "model") ;;
  temperature <- lift (py_get config "temperature") ;;
  let data :=
    VDict [ (str "model", model);
            (str "prompt", VStr prompt);
            (str "stream", VBool false);
            (str "options", VDict [ (str "temperature", temperature) ]) ] in
  catch
    (response <- post (Request
                         (ollama_base_url self ++ str "/api/generate")
                         [] data 120) ;;
     if (status_code response =? 200)%Z then
       lift (body <- response_json response ;;
             py_get body "response")%res
     else
       raise (Raised PlainException
                (str "Ollama API error: "
                   ++ str_of_int (status_code response)
                   ++ str " - " ++ text response)))
    (fun e =>
       if is_a (exn_kind_of e) ConnectionError
       then raise (Raised PlainException
                     (str "Cannot connect to Ollama. Make sure Ollama is running locally."))
       else raise e).

(** [range(n)] *)
Definition range (n : Z) : list Z :=
  map Z.of_nat (seq 0 (Z.to_nat n)).

Definition success_result (llm_name method_signature : pystr)
    (raw_response parsed_response : pyval) (attempt : Z) (now : pystr)
  : pyval :=
  VDict [ (str "llm", VStr llm_name);
          (str "method_signature", VStr method_signature);
          (str "raw_response", raw_response);
          (str "parsed_response", parsed_response);
          (str "success", VBool true);
          (str "attempt", VInt (attempt + 1));
          (str "timestamp", VFloat now) ].

Definition failure_result (llm_name method_signature : pystr)
    (e : exn) (attempt : Z) (now : pystr) : pyval :=
  VDict [ (str "llm", VStr llm_name);
          (str "method_signature", VStr method_signature);
          (str "error", VStr (exn_text e));
          (str "success", VBool false);
          (str "attempt", VInt (attempt + 1));
          (str "timestamp", VFloat now) ].

(** The body of the [try] block of one attempt. *)
Definition attempt_body (llm_name method_signature prompt : pystr)
    (config : pyval) (attempt : Z) : M pyval :=
  (if (attempt >? 0)%Z then time_sleep (VInt (2 ^ attempt)) else ret tt) ;;
  type <- lift (py_get config "type") ;;
  raw_response <- (if is_VStr (str "openai") type
                   then query_openai prompt config
                   else query_ollama prompt config) ;;
  parsed_response <- lift (parse_llm_response raw_response) ;;
  now <- with_world time_time ;;
  ret (success_result llm_name method_signature raw_response
                      parsed_response attempt now).

(** The [for attempt in range(MAX_RETRIES)] loop over the attempts still
    to make: [Some r] when the loop body returned [r] from the function,
    [None] when the loop ran out. *)
Fixpoint attempt_loop (llm_name method_signature prompt : pystr)
    (config : pyval) (attempts : list Z) : M (option pyval) :=
  match attempts with
  | [] => ret None
  | attempt :: rest =>
      catch
        (r <- attempt_body llm_name method_signature prompt config attempt ;;
         ret (Some r))
        (fun e =>
           log WARNING ;;
           if (attempt <? MAX_RETRIES - 1)%Z
           then attempt_loop llm_name method_signature prompt config rest
           else
             now <- with_world time_time ;;
             ret (Some (failure_result llm_name method_signature
                                       e attempt now)))
  end.

(** [evaluate_method(method_signature, llm_name)].  The statements after
    the loop are reached only when the loop makes no attempt; the name
    [result] is bound nowhere. *)
Definition evaluate_method (method_signature llm_name : pystr) : M pyval :=
  if negb (dict_has LLM_CONFIGS llm_name)
  then raise (Raised ValueError (str "Unknown LLM: " ++ llm_name))
  else
    config <- lift (py_getitem (VDict LLM_CONFIGS) (VStr llm_name)) ;;
    let prompt := create_prompt method_signature in
    log INFO ;;
    returned <- attempt_loop llm_name method_signature prompt config
                             (range MAX_RETRIES) ;;
    match returned with
    | Some r => ret r
    | None =>
        delay <- lift (py_dict_get config "rate_limit_delay" (VInt 1)) ;;
        time_sleep delay ;;
        raise (fault NameError (VStr (str "result")))
    end.

(* ================================================================== *)
(** ** The similarity scorer ([utils.calculate_method_similarity]) *)

(** [v.lower().strip()]: methods of text only. *)
Definition lower_strip (v : pyval) : res pystr :=
  match v with
  | VStr s => Ok (strip (str_lower s))
  | _ => raise_fault AttributeError v
  end.

(** [record["purpose_behavior"] + " Returns " + record["return_values"]["type"]
    + ": " + record["return_values"]["description"]] *)
Definition combined_text (record : pyval) : res pyval :=
  (purpose <- py_get record "purpose_behavior" ;;
   t1 <- py_concat purpose (VStr (str " Returns ")) ;;
   return_values <- py_get record "return_values" ;;
   type <- py_get return_values "type" ;;
   t2 <- py_concat t1 type ;;
   t3 <- py_concat t2 (VStr (str ": ")) ;;
   return_values <- py_get record "return_values" ;;
   description <- py_get return_values "description" ;;
   py_concat t3 description)%res.

(** The [try] block of the scorer. *)
Definition similarity_body (ground_truth llm_response : pyval) : res pyval :=
  (gt_purpose <- py_get ground_truth "purpose_behavior" ;;
   llm_purpose <- py_get llm_response "purpose_behavior" ;;
   let purpose_sim := calculate_similarity gt_purpose llm_purpose in
   gt_rv <- py_get ground_truth "return_values" ;;
   gt_type_raw <- py_get gt_rv "type" ;;
   gt_type <- lower_strip gt_type_raw ;;
   llm_rv <- py_get llm_response "return_values" ;;
   llm_type_raw <- py_get llm_rv "type" ;;
   llm_type <- lower_strip llm_type_raw ;;
   let type_match := str_eqb gt_type llm_type in
   gt_rv <- py_get ground_truth "return_values" ;;
   gt_desc <- py_get gt_rv "description" ;;
   llm_rv <- py_get llm_response "return_values" ;;
   llm_desc <- py_get llm_rv "description" ;;
   let return_desc_sim := calculate_similarity gt_desc llm_desc in
   gt_combined <- combined_text ground_truth ;;
   llm_combined <- combined_text llm_response ;;
   let overall_sim := calculate_similarity gt_combined llm_combined in
   Ok (VDict [ (str "purpose_similarity", VFloat purpose_sim);
               (str "return_type_match", VBool type_match);
               (str "return_desc_similarity", VFloat return_desc_sim);
               (str "overall_similarity", VFloat overall_sim);
               (str "success", VBool true) ]))%res.

Definition failed_similarity (e : exn) : pyval :=
  VDict [ (str "purpose_similarity", VFloat (str "0.0"));
          (str "return_type_match", VBool false);
          (str "return_desc_similarity", VFloat (str "0.0"));
          (str "overall_similarity", VFloat (str "0.0"));
          (str "success", VBool false);
          (str "error", VStr (exn_text e)) ].

(** [calculate_method_similarity(ground_truth, llm_response, similarity_calc)] *)
Definition calculate_method_similarity (ground_truth llm_response : pyval)
  : M pyval :=
  match similarity_body ground_truth llm_response with
  | Ok scores => ret scores
  | Err e => log ERROR ;; ret (failed_similarity e)
  end.

(* ================================================================== *)
(** ** Files ([utils.load_ground_truth], [utils.save_json]) *)

(** [load_ground_truth(file_path)]: read the file and decode it; the two
    named handlers log and raise again. *)
Definition load_ground_truth (file_path : pystr) : M pyval :=
  catch
    (emit (EvRead file_path) ;;
     content <- with_world_res (read_text file_path) ;;
     data <- lift (json_loads_res content) ;;
     log INFO ;;
     ret data)
    (fun e =>
       if is_a (exn_kind_of e) FileNotFoundError then log ERROR ;; raise e
       else if is_a (exn_kind_of e) JSONDecodeError
       then log ERROR ;; raise e
       else raise e).

(** [save_json(data, file_path)]: create the directory, write the
    document; a failure is logged and raised again. *)
Definition save_json (data : pyval) (file_path : pystr) : M unit :=
  catch
    (emit (EvWrite file_path data) ;;
     with_world_res (write_json file_path data) ;;
     log INFO)
    (fun e => log ERROR ;; raise e).

(* ================================================================== *)
(** ** The ground truth and its flat method list *)

(** One record of the ground-truth document: its [signature] field, a
    text, and the record itself. *)
Record method_entry := {
  entry_signature : pystr;
  entry_data : pyval
}.

(** [ground_truth["framework_methods"].items()]: the categories in
    document order, each with its list of records. *)
Definition ground_truth_doc := list (pystr * list method_entry).

Record method_info := {
  signature : pystr;
  category : pystr;
  data : pyval
}.

(** [get_method_list(ground_truth)] *)
Definition get_method_list (ground_truth : ground_truth_doc)
  : list method_info :=
  flat_map
    (fun item : pystr * list method_entry =>
       let (category, method_list) := item in
       map (fun method_data =>
              {| signature := entry_signature method_data;
                 category := category;
                 data := entry_data method_data |})
           method_list)
    ground_truth.

(** Sequential composition over a list: the body of a [for] loop with no
    [break]. *)
Fixpoint for_each {A} (l : list A) (body : A -> M unit) : M unit :=
  match l with
  | [] => ret tt
  | x :: l' => body x ;; for_each l' body
  end.

(** Same, on values without effects. *)
Fixpoint res_for_each {A S} (l : list A) (body : S -> A -> res S) (acc : S)
  : res S :=
  match l with
  | [] => Ok acc
  | x :: l' => (acc' <- body acc x ;; res_for_each l' body acc')%res
  end.

(** [d.values()]: a method of dicts only. *)
Definition py_values (d : pyval) : res (list pyval) :=
  match d with
  | VDict d => Ok (dict_values d)
  | _ => raise_fault AttributeError d
  end.

(** [create_progress_summary(results, total_methods)]: the number of
    completed methods and of successful and failed evaluations (the
    percentage, a float, is left out). *)
Definition create_progress_summary (results : pyval) : res (Z * Z * Z) :=
  (method_results <- py_values results ;;
   counts <-
     res_for_each method_results
       (fun counts method_result =>
          responses <- py_dict_get method_result "llm_responses" (VDict []) ;;
          llm_results <- py_values responses ;;
          res_for_each llm_results
            (fun (counts : Z * Z) llm_result =>
               success <- py_dict_get llm_result "success" (VBool false) ;;
               Ok (if py_truthy success
                   then (fst counts + 1, snd counts)
                   else (fst counts, snd counts + 1))%Z)
            counts)
       (0, 0)%Z ;;
   Ok (Z.of_nat (length method_results), fst counts, snd counts))%res.

(* ================================================================== *)
(** ** The orchestrator ([FrameworkMethodEvaluator]) *)

(** [_save_progress(output_dir, current_idx, total_methods)] *)
Definition save_progress (output_dir : pystr) : M unit :=
  results <- get_results ;;
  save_json results (output_dir ++ str "/progress_backup.json") ;;
  results <- get_results ;;
  lift (create_progress_summary results) ;;
  log INFO.

(** [_save_final_results(output_dir)] *)
Definition save_final_results (output_dir : pystr) : M unit :=
  results <- get_results ;;
  save_json results (output_dir ++ str "/full_results.json") ;;
  results <- get_results ;;
  summary <- lift (generate_summary_stats results) ;;
  save_json summary (output_dir ++ str "/summary_statistics.json") ;;
  log INFO.

(** [_generate_excel_report(output_file)]: the whole body is guarded, a
    failure is logged; nothing leaves the function. *)
Definition generate_excel_report (output_file : pystr) : M unit :=
  emit (EvExcel output_file).

(** [_print_evaluation_summary()] *)
Definition print_evaluation_summary : M unit :=
  results <- get_results ;;
  lift (generate_summary_stats results) ;;
  emit EvPrint.

(** [self.results[signature][field][llm_name] = v] *)
Definition record_under (signature : pystr) (field : string)
    (llm_name : pystr) (v : pyval) : M unit :=
  results <- get_results ;;
  updated <- lift (entry <- py_getitem results (VStr signature) ;;
                   inner <- py_get entry field ;;
                   inner' <- py_setitem inner llm_name v ;;
                   entry' <- py_setitem entry (str field) inner' ;;
                   py_setitem results signature entry')%res ;;
  set_results updated.

(** The body of [for llm_name in LLM_CONFIGS.keys()]. *)
Definition evaluate_with (method : method_info) (llm_name : pystr) : M unit :=
  log INFO ;;
  catch
    (llm_result <- evaluate_method (signature method) llm_name ;;
     record_under (signature method) "llm_responses" llm_name llm_result ;;
     success <- lift (py_get llm_result "success") ;;
     if py_truthy success then
       parsed <- lift (py_get llm_result "parsed_response") ;;
       similarity_scores <- calculate_method_similarity (data method) parsed ;;
       record_under (signature method) "similarities" llm_name
                    similarity_scores ;;
       lift (py_dict_get similarity_scores "overall_similarity"
                         (VFloat (str "0.0"))) ;;
       log INFO
     else
       lift (py_dict_get llm_result "error" (VStr (str "Unknown error"))) ;;
       log WARNING)
    (fun e =>
       log ERROR ;;
       record_under (signature method) "llm_responses" llm_name
         (VDict [ (str "success", VBool false);
                  (str "error", VStr (exn_text e));
                  (str "llm", VStr llm_name) ])).

(** [a % b] *)
Definition py_mod (a b : Z) : res Z :=
  if (b =? 0)%Z then raise_fault ZeroDivisionError (VInt b)
  else Ok (a mod b)%Z.

(** The entry a method starts with. *)
Definition new_entry (method : method_info) (now : pystr) : pyval :=
  VDict [ (str "category", VStr (category method));
          (str "ground_truth", data method);
          (str "llm_responses", VDict []);
          (str "similarities", VDict []);
          (str "evaluation_timestamp", VStr now) ].

(** [if (idx + 1) % PROGRESS_SAVE_INTERVAL == 0: self._save_progress(...)] *)
Definition checkpoint_if_due (output_dir : pystr) (idx : Z) : M unit :=
  r <- lift (py_mod (idx + 1) PROGRESS_SAVE_INTERVAL) ;;
  if (r =? 0)%Z then save_progress output_dir else ret tt.

(** The body of [for idx, method_info in enumerate(methods_list)]; a
    method whose signature is present is skipped by [continue], past
    the check-point. *)
Definition process_method (output_dir : pystr) (idx : Z)
    (method : method_info) : M unit :=
  results <- get_results ;;
  already <- lift (py_contains results (signature method)) ;;
  if already then log INFO
  else
    log INFO ;;
    now <- with_world now_isoformat ;;
    results <- get_results ;;
    updated <- lift (py_setitem results (signature method)
                                (new_entry method now)) ;;
    set_results updated ;;
    for_each (dict_keys LLM_CONFIGS) (evaluate_with method) ;;
    checkpoint_if_due output_dir idx.

(** The main loop, from position [idx] on. *)
Fixpoint evaluation_loop (output_dir : pystr) (idx : Z)
    (methods_list : list method_info) : M unit :=
  match methods_list with
  | [] => ret tt
  | method :: rest =>
      process_method output_dir idx method ;;
      evaluation_loop output_dir (idx + 1) rest
  end.

(** The first step of [run_full_evaluation]: load the result set to
    resume from; a failure is logged and otherwise ignored. *)
Definition resume (resume_from : option pystr) : M unit :=
  match resume_from with
  | Some path =>
      if py_truthy (VStr path) then
        catch
          (loaded <- load_ground_truth path ;;
           set_results loaded ;;
           log INFO)
          (fun e => log WARNING)
      else ret tt
  | None => ret tt
  end.

(** Its last steps: the final files, the report, the summary. *)
Definition finish_run (output_dir : pystr) : M unit :=
  save_final_results output_dir ;;
  generate_excel_report (output_dir ++ str "/evaluation_results.xlsx") ;;
  print_evaluation_summary ;;
  log INFO.

(** What lies between: the main loop over the flat method list. *)
Definition evaluate_all (ground_truth : ground_truth_doc)
    (output_dir : pystr) : M unit :=
  let methods_list := get_method_list ground_truth in
  log INFO ;;
  evaluation_loop output_dir 0 methods_list ;;
  finish_run output_dir.

(** [run_full_evaluation(output_dir, resume_from)] *)
Definition run_full_evaluation (ground_truth : ground_truth_doc)
    (output_dir : pystr) (resume_from : option pystr) : M unit :=
  with_world time_time ;;
  resume resume_from ;;
  evaluate_all ground_truth output_dir.

(* ================================================================== *)
(** ** Observations on a run *)

Definition is_post (e : event) : bool :=
  match e with
  | EvPost _ => true
  | _ => false
  end.

(** The number of requests among some effects. *)
Definition posts (evs : list event) : nat := length (filter is_post evs).

(** The waits among some effects, in the order they were made (the
    effects of a state are kept latest first). *)
Definition sleeps (evs : list event) : list pyval :=
  flat_map (fun e => match e with
                     | EvSleep v => [v]
                     | _ => []
                     end)
           (rev evs).

(** The back-off waits of a request that makes [n] attempts: one before
    each attempt but the first. *)
Definition backoffs (n : Z) : list Z :=
  map (fun attempt => 2 ^ attempt)%Z (tl (range n)).

Definition total (l : list Z) : Z := fold_right Z.add 0%Z l.

(** The state right after a message is logged. *)
Definition logged (level : log_level) (st : state) : state :=
  State (world st) (EvLog level :: effects st) (results st).

(** [all_raise body attempts st st']: run one after the other from
    [st], as the retry loop runs them, the given attempts all raise, and
    the loop is in [st'] after the warning that follows the last. *)
Inductive all_raise (body : Z -> M pyval)
  : list Z -> state -> state -> Prop :=
| all_raise_nil st : all_raise body [] st st
| all_raise_cons attempt rest st e st1 st' :
    body attempt st = (Err e, st1) ->
    all_raise body rest (logged WARNING st1) st' ->
    all_raise body (attempt :: rest) st st'.

(** The wait that precedes attempt number [attempt] (counted from 0). *)
Definition backoff_of (attempt : Z) : list pyval :=
  if (attempt >? 0)%Z then [VInt (2 ^ attempt)] else [].

(** The attempts [i], [i+1], ... [i+n-1]. *)
Definition from (i n : nat) : list Z := map Z.of_nat (seq i n).

(** A computation that leaves [self.results] alone and performs at most
    one request and no wait. *)
Definition one_request {A} (c : M A) : Prop :=
  forall st r st',
    c st = (r, st') ->
    results st' = results st /\
    exists new, effects st' = new ++ effects st /\
                (posts new <= 1)%nat /\ sleeps new = [].

(** A status of the successful class of HTTP. *)
Definition is_2xx (status : Z) : bool :=
  ((200 <=? status) && (status <? 300))%Z.

(** The body of the response decodes to an object whose [choices] is a
    list, the first element of which is an object whose [message] is an
    object that holds [content]. *)
Definition has_first_message (r : response) (content : pyval) : Prop :=
  exists body choices first message,
    json_loads (text r) = Some (VDict body) /\
    dict_get body (str "choices") = Some (VList (VDict first :: choices)) /\
    dict_get first (str "message") = Some (VDict message) /\
    dict_get message (str "content") = Some content.

(** A record whose three fields are text: [purpose_behavior] is [p],
    [return_values.type] is [t], [return_values.description] is [d]. *)
Definition text_record (v : pyval) (p t d : pystr) : Prop :=
  exists fields return_values,
    v = VDict fields /\
    dict_get fields (str "purpose_behavior") = Some (VStr p) /\
    dict_get fields (str "return_values") = Some (VDict return_values) /\
    dict_get return_values (str "type") = Some (VStr t) /\
    dict_get return_values (str "description") = Some (VStr d).

(** An effect on the network, the clock or the log: neither a read nor
    a write of a file, nor a report. *)
Definition is_net_event (e : event) : bool :=
  match e with
  | EvSleep _ | EvPost _ | EvLog _ => true
  | _ => false
  end.

(** A computation that leaves [self.results] alone and touches no file. *)
Definition frame {A} (c : M A) : Prop :=
  forall st r st',
    c st = (r, st') ->
    results st' = results st /\
    exists new, effects st' = new ++ effects st /\
                forallb is_net_event new = true.

(** The shape of what [evaluate_method] returns. *)
Definition is_attempt_result (v : pyval) : Prop :=
  (exists l s raw parsed a now, v = success_result l s raw parsed a now) \/
  (exists l s e a now, v = failure_result l s e a now).


Definition is_dict (v : pyval) : bool :=
  match v with
  | VDict _ => true
  | _ => false
  end.

(** An entry of the result set that the progress summary can read: a
    dict whose [llm_responses], when present, is a dict of dicts. *)
Definition entry_ok (v : pyval) : bool :=
  match v with
  | VDict e =>
      match dict_get e (str "llm_responses") with
      | Some (VDict rs) => forallb (fun kv => is_dict (snd kv)) rs
      | Some _ => false
      | None => true
      end
  | _ => false
  end.

(** A result set all of whose entries are such. *)
Definition results_ok (r : pyval) : bool :=
  match r with
  | VDict d => forallb (fun kv => entry_ok (snd kv)) d
  | _ => false
  end.

(** The signatures of a result set, in order, and one of its entries. *)
Definition top_keys (r : pyval) : list pystr :=
  match r with
  | VDict d => dict_keys d
  | _ => []
  end.

Definition entry (r : pyval) (k : pystr) : option pyval :=
  match r with
  | VDict d => dict_get d k
  | _ => None
  end.

(** The responses recorded for a signature. *)
Definition responses_of (r : pyval) (sig : pystr) : dict :=
  match entry r sig with
  | Some (VDict e) =>
      match dict_get e (str "llm_responses") with
      | Some (VDict rs) => rs
      | _ => []
      end
  | _ => []
  end.

(** A response is recorded for the signature under the backend's name. *)
(** A recorded response: a dict whose [success] field is [True] with a
    parsed response beside it, or [False] with the error beside it. *)
Definition is_response (v : pyval) : bool :=
  match v with
  | VDict fields =>
      match dict_get fields (str "success") with
      | Some (VBool true) => dict_has fields (str "parsed_response")
      | Some (VBool false) => dict_has fields (str "error")
      | _ => false
      end
  | _ => false
  end.

Definition recorded (r : pyval) (sig llm_name : pystr) : bool :=
  match dict_get (responses_of r sig) llm_name with
  | Some v => is_response v
  | None => false
  end.

(** The entry of [sig] is open for recording: it has its two maps. *)
Definition current (r : pyval) (sig : pystr) : Prop :=
  exists d e rs ss,
    r = VDict d /\
    dict_get d sig = Some (VDict e) /\
    dict_get e (str "llm_responses") = Some (VDict rs) /\
    dict_get e (str "similarities") = Some (VDict ss).

(** What recording under [sig] does to a result set. *)
Definition updates (sig : pystr) (r r' : pyval) : Prop :=
  current r' sig /\
  results_ok r' = true /\
  top_keys r' = top_keys r /\
  (forall k, k <> sig -> entry r' k = entry r k) /\
  (forall l, recorded r sig l = true -> recorded r' sig l = true).


(** Every configured backend has its response recorded for [sig]. *)
Definition complete (r : pyval) (sig : pystr) : Prop :=
  forall llm_name, In llm_name (dict_keys LLM_CONFIGS) ->
                   recorded r sig llm_name = true.

(** The documents written among some effects, in the order they were
    written, each with its path. *)
Definition writes (evs : list event) : list (pystr * pyval) :=
  flat_map (fun e => match e with
                     | EvWrite path data => [(path, data)]
                     | _ => []
                     end)
           (rev evs).

(** A computation that leaves [self.results] alone. *)
Definition keeps_results {A} (c : M A) : Prop :=
  forall st r st', c st = (r, st') -> results st' = results st.

(** Membership of a text in a list of texts. *)
Definition mem (s : pystr) (l : list pystr) : bool := existsb (str_eqb s) l.

(** The check-points the main loop is to write, as lists of the
    signatures they hold: the loop is at position [idx] (from 0), the
    result set holds [present], the signatures [sigs] are still to come.
    A signature that is present is skipped; another is added, and a
    check-point follows when its position, counted from 1, is a multiple
    of the interval. *)
Fixpoint expected_checkpoints (interval idx : Z) (present sigs : list pystr)
  : list (list pystr) :=
  match sigs with
  | [] => []
  | s :: rest =>
      if mem s present
      then expected_checkpoints interval (idx + 1) present rest
      else
        let present' := present ++ [s] in
        (if ((idx + 1) mod interval =? 0)%Z then [present'] else [])
          ++ expected_checkpoints interval (idx + 1) present' rest
  end.

(** The signatures the result set holds after the loop. *)
Fixpoint final_keys (present sigs : list pystr) : list pystr :=
  match sigs with
  | [] => present
  | s :: rest =>
      if mem s present then final_keys present rest
      else final_keys (present ++ [s]) rest
  end.

(** A written document, reduced to its path and the signatures it
    holds. *)
Definition summary_of_write (w : pystr * pyval) : pystr * list pystr :=
  (fst w, top_keys (snd w)).

Definition progress_file (output_dir : pystr) : pystr :=
  output_dir ++ str "/progress_backup.json".

Definition full_results_file (output_dir : pystr) : pystr :=
  output_dir ++ str "/full_results.json".

(** The storage takes every write. *)
Definition storage_accepts : Prop :=
  forall path data w, exists w', write_json path data w = (Ok tt, w').


(** The state once the run has read the clock for its start time. *)
Definition started (st : state) : state :=
  State (snd (time_time (world st))) (effects st) (results st).

Definition is_file_event (e : event) : bool :=
  negb (is_post e).

(** A computation that sends no request. *)
Definition sends_nothing {A} (c : M A) : Prop :=
  forall st r st',
    c st = (r, st') ->
    exists new, effects st' = new ++ effects st /\ posts new = 0%nat.





End Pipeline.


(* ================================================================== *)
(** ** The constants of [config.py] *)

Module Config.

Definition ollama_config (model : string) : pyval :=
  VDict [ (str "type", VStr (str "ollama"));
          (str "model", VStr (str model));
          (str "temperature", VFloat (str "0.1"));
          (str "rate_limit_delay", VFloat (str "0.5")) ].

Definition gpt4o_config : pyval :=
  VDict [ (str "type", VStr (str "openai"));
          (str "model", VStr (str "gpt-4o"));
          (str "temperature", VFloat (str "0.1"));
          (str "max_tokens", VInt 1000);
          (str "rate_limit_delay", VInt 1) ].

Definition LLM_CONFIGS : dict :=
  [ (str "gpt4o", gpt4o_config);
    (str "deepseek", ollama_config "deepseek-coder:6.7b");
    (str "qwen", ollama_config "qwen3-coder:latest");
    (str "codellama", ollama_config "codellama:7b");
    (str "llama3", ollama_config "llama3.1:8b") ].

(** [LLM_CONFIGS], [MAX_RETRIES = 3], [PROGRESS_SAVE_INTERVAL = 10] *)
Definition settings : Settings := Build_Settings LLM_CONFIGS 3 10.

End Config.

(* ================================================================== *)
(** ** A scripted world, to run the pipeline on concrete inputs *)

Module Script.

(** The world is the list of answers the network still has to give, one
    per request; when the list is used up the network is unreachable.
    Files that may be read are given as texts; writes succeed.  The clock
    shows one fixed time. *)
Record world := World {
  answers : list (res response);
  disk : list (pystr * pystr)
}.

Definition unreachable : exn :=
  Raised ConnectionError (str "connection refused").

Definition requests_post (r : request) (w : world) : res response * world :=
  match answers w with
  | a :: rest => (a, World rest (disk w))
  | [] => (Err unreachable, w)
  end.

Definition sleep_world (seconds : pyval) (w : world) : world := w.

(** A float length is refused when it is NaN, infinite or negative; the
    delays of the scripts are short, and spelled as Python prints them. *)
Definition sleep_float (f : pystr) : option exn_kind :=
  if str_eqb f (str "nan") then Some ValueError
  else if str_eqb f (str "inf") || str_eqb f (str "-inf")
  then Some OverflowError
  else
    match f with
    | 45%N :: _ => if str_eqb f (str "-0.0") then None else Some ValueError
    | _ => None
    end.

Definition time_time (w : world) : pystr * world :=
  (str "1700000000.0", w).

Definition now_isoformat (w : world) : pystr * world :=
  (str "2025-01-01T00:00:00", w).

Fixpoint lookup (files : list (pystr * pystr)) (path : pystr)
  : option pystr :=
  match files with
  | [] => None
  | (p, content) :: files' =>
      if str_eqb p path then Some content else lookup files' path
  end.

Definition read_text (path : pystr) (w : world) : res pystr * world :=
  match lookup (disk w) path with
  | Some content => (Ok content, w)
  | None => (Err (Raised FileNotFoundError path), w)
  end.

Definition write_json (path : pystr) (data : pyval) (w : world)
  : res unit * world :=
  (Ok tt, w).

(** The interpreter's own messages, reduced to the class name. *)
Definition fault_text (k : exn_kind) (culprit : pyval) : pystr :=
  match k with
  | TypeError => str "TypeError"
  | KeyError => str "KeyError"
  | JSONDecodeError => str "JSONDecodeError"
  | AttributeError => str "AttributeError"
  | NameError => str "NameError"
  | OverflowError => str "OverflowError"
  | _ => str "error"
  end.

(** Lower case on ASCII letters; other code points are left alone. *)
Definition ascii_lower (s : pystr) : pystr :=
  map (fun c => if ((65 <=? c) && (c <=? 90))%N then (c + 32)%N else c) s.

(** A scorer that answers one fixed similarity. *)
Definition calculate_similarity (a b : pyval) : pystr := str "0.5".

Definition generate_summary_stats (results : pyval) : res pyval :=
  Ok (VDict []).

Definition interface : LLMInterface :=
  {| openai_api_key := Some (str "sk-test");
     ollama_base_url := OLLAMA_BASE_URL |}.

Definition runtime : Runtime :=
  Build_Runtime fault_text requests_post sleep_world sleep_float time_time
                now_isoformat read_text write_json calculate_similarity
                ascii_lower generate_summary_stats.

End Script.


(* ================================================================== *)
(** ** Concrete inputs *)

Module Demo.

(** A text between double quotes, as [json.dumps] writes it (quote,
    backslash and control characters escaped). *)
Definition hex_digit (n : N) : N :=
  if (n <? 10)%N then (48 + n)%N else (87 + n)%N.

Definition dumps_str (s : pystr) : pystr :=
  34%N :: flat_map (fun c =>
             if (c =? 34)%N then [92; 34]%N
             else if (c =? 92)%N then [92; 92]%N
             else if (c <? 32)%N
             then [92; 117; 48; 48; hex_digit (c / 16); hex_digit (c mod 16)]%N
             else [c]) s ++ [34%N].

(** A value as JSON text, with the separators of [json.dumps]. *)
Fixpoint json_dumps (v : pyval) : pystr :=
  match v with
  | VNone => str "null"
  | VBool true => str "true"
  | VBool false => str "false"
  | VInt z => str_of_int z
  | VFloat f =>
      if str_eqb f (str "nan") then str "NaN"
      else if str_eqb f (str "inf") then str "Infinity"
      else if str_eqb f (str "-inf") then str "-Infinity"
      else f
  | VStr s => dumps_str s
  | VList l =>
      91%N :: (fix items (l : list pyval) : pystr :=
                 match l with
                 | [] => []
                 | x :: l' =>
                     json_dumps x ++
                     match l' with
                     | [] => []
                     | _ :: _ => str ", " ++ items l'
                     end
                 end) l ++ [93%N]
  | VDict d =>
      123%N :: (fix members (d : list (pystr * pyval)) : pystr :=
                  match d with
                  | [] => []
                  | (k, x) :: d' =>
                      dumps_str k ++ str ": " ++ json_dumps x ++
                      match d' with
                      | [] => []
                      | _ :: _ => str ", " ++ members d'
                      end
                  end) d ++ [125%N]
  end.

(** The body of a chat completion whose first message says [content]. *)
Definition chat_body (content : pystr) : pystr :=
  json_dumps
    (VDict [ (str "choices",
              VList [ VDict [ (str "message",
                               VDict [ (str "role", VStr (str "assistant"));
                                       (str "content", VStr content) ]) ] ]) ]).

(** The body of a local generation that says [content]. *)
Definition generate_body (content : pystr) : pystr :=
  json_dumps (VDict [ (str "response", VStr content) ]).

Definition parse_int_signature : pystr := str "int parseIntInput(String)".

(** A record with the three fields, as the ground truth or a backend
    gives it. *)
Definition record (purpose type description : pyval) : pyval :=
  VDict [ (str "purpose_behavior", purpose);
          (str "return_values",
           VDict [ (str "type", type); (str "description", description) ]) ].

Definition parse_int_truth : pyval :=
  record (VStr (str "Parses the text as a decimal integer."))
         (VStr (str "int"))
         (VStr (str "The integer the text denotes.")).

Definition answer_with_type (type : string) : pyval :=
  record (VStr (str "Reads an integer.")) (VStr (str type))
         (VStr (str "The value read.")).

(** A ground truth of one category whose methods are named by numbers:
    [m1], [m2], ... *)
Definition method_named (i : nat) : method_entry :=
  {| entry_signature := str "m" ++ str_of_int (Z.of_nat i);
     entry_data := parse_int_truth |}.

Definition ground_truth_with (numbers : list nat) : ground_truth_doc :=
  [ (str "parsing", map method_named numbers) ].

Definition ground_truth_of (n : nat) : ground_truth_doc :=
  ground_truth_with (seq 1 n).

(** A fresh evaluator in a world with the given answers and files. *)
Definition fresh (answers : list (res response))
    (disk : list (pystr * pystr)) : @state Script.runtime :=
  @State Script.runtime (Script.World answers disk) [] (VDict []).

(** Pairwise distinct texts. *)
Fixpoint distinct (l : list pystr) : bool :=
  match l with
  | [] => true
  | s :: l' => negb (mem s l') && distinct l'
  end.

End Demo.

(* ================================================================== *)
(** ** Further observations *)

(** A number, a boolean or [None]: a value with no members. *)
Definition is_scalar (v : pyval) : bool :=
  match v with
  | VNone | VBool _ | VInt _ | VFloat _ => true
  | _ => false
  end.

(** The decoded documents on which the four checks of the parser raise
    an exception that is no [ValueError]. *)
Definition breaks_validation (v : pyval) : bool :=
  match v with
  | VDict fields =>
      dict_has fields (str "purpose_behavior") &&
      match dict_get fields (str "return_values") with
      | Some return_values => is_scalar return_values
      | None => false
      end
  | VStr t =>
      str_contains (str "purpose_behavior") t &&
      str_contains (str "return_values") t
  | VList l =>
      existsb (is_VStr (str "purpose_behavior")) l &&
      existsb (is_VStr (str "return_values")) l
  | _ => true
  end.

(** The four fields are members of an object, [type] and [description]
    of its [return_values] object. *)
Definition has_all_fields (fields : dict) : bool :=
  dict_has fields (str "purpose_behavior") &&
  match dict_get fields (str "return_values") with
  | Some (VDict members) =>
      dict_has members (str "type") && dict_has members (str "description")
  | _ => false
  end.

(** The messages of the four checks, in their order. *)
Definition missing_field_messages : list pystr :=
  [ str "Missing 'purpose_behavior' field";
    str "Missing 'return_values' field";
    str "Missing 'type' in return_values";
    str "Missing 'description' in return_values" ].

(** Both records have their three fields as text. *)
Definition both_text_records (g l : pyval) : Prop :=
  (exists p t d, text_record g p t d) /\ (exists p t d, text_record l p t d).

(** The methods whose signature the result set does not hold. *)
Definition absent (r : pyval) (methods : list method_info) : list method_info :=
  filter (fun m => negb (mem (signature m) (top_keys r))) methods.

Section Observations.

Context {rt : Runtime} {cfg : Settings} (self : LLMInterface).

(** The request [query_ollama] builds. *)
Definition ollama_request (prompt : pystr) (model temperature : pyval)
  : request :=
  Request (ollama_base_url self ++ str "/api/generate") []
          (VDict [ (str "model", model);
                   (str "prompt", VStr prompt);
                   (str "stream", VBool false);
                   (str "options",
                    VDict [ (str "temperature", temperature) ]) ])
          120.


(** The storage refuses every write to [path], with the exception [e]. *)
Definition storage_refuses (path : pystr) (e : exn) : Prop :=
  forall data w, exists w', write_json path data w = (Err e, w').

(** A computation that sends at most [k] requests. *)
Definition sends_at_most {A} (k : nat) (c : M A) : Prop :=
  forall st r st',
    c st = (r, st') ->
    exists new, effects st' = new ++ effects st /\ (posts new <= k)%nat.

(** The scores recorded for a signature. *)
Definition scores_of (r : pyval) (sig : pystr) : dict :=
  match entry r sig with
  | Some (VDict e) =>
      match dict_get e (str "similarities") with
      | Some (VDict ss) => ss
      | _ => []
      end
  | _ => []
  end.

(** The entry of [sig] holds the responses [rs] and the scores [ss]. *)
Definition holds (r : pyval) (sig : pystr) (rs ss : dict) : Prop :=
  exists e,
    entry r sig = Some (VDict e) /\
    dict_get e (str "llm_responses") = Some (VDict rs) /\
    dict_get e (str "similarities") = Some (VDict ss).

(** A score is kept under exactly the names whose response succeeded. *)
Definition scored_on_success (rs ss : dict) : Prop :=
  forall l,
    dict_has ss l = true <->
    exists v, dict_get rs l = Some v /\
              py_get v "success" = Ok (VBool true).

(** What the loop records for a backend, from what [evaluate_method] did:
    the result it returned, or a failure record with the text of the
    exception it raised. *)
Definition outcome_record (llm_name : pystr) (r : res pyval) : pyval :=
  match r with
  | Ok llm_result => llm_result
  | Err e =>
      VDict [ (str "success", VBool false);
              (str "error", VStr (exn_text e));
              (str "llm", VStr llm_name) ]
  end.

(** [st'] comes after [st]: its effects are those of [st] and more. *)
Definition extends (st st' : state) : Prop :=
  exists new, effects st' = new ++ effects st.

(** Between [st] and [st'], [evaluate_method] was called for the
    signature and the backend, and what the result set of [st'] holds
    for them is the record of that call. *)
Definition records_call (st st' : state) (sig llm_name : pystr) : Prop :=
  exists st0 r st1,
    evaluate_method self sig llm_name st0 = (r, st1) /\
    extends st st0 /\
    extends st1 st' /\
    dict_get (responses_of (results st') sig) llm_name
      = Some (outcome_record llm_name r).
End Observations.

(* ================================================================== *)
(** ** The ground-truth document, as loaded *)

Module Document.
Section Functions.
Context {rt : Runtime}.

Notation "x <- c ;; k" :=
  (bind c (fun x => k))
  (at level 61, c at next level, right associativity) : m_scope.
Notation "c ;; k" :=
  (bind c (fun _ => k))
  (at level 61, right associativity) : m_scope.
Local Open Scope m_scope.

(** [len(v)] *)
Definition py_len (v : pyval) : res Z :=
  match v with
  | VStr s => Ok (Z.of_nat (length s))
  | VList l => Ok (Z.of_nat (length l))
  | VDict d => Ok (Z.of_nat (length d))
  | _ => raise_fault TypeError v
  end.

(** [for x in v]: the elements of a list, the keys of a dict, the
    characters of a text; nothing else here is iterable. *)
Definition py_iter (v : pyval) : res (list pyval) :=
  match v with
  | VList l => Ok l
  | VDict d => Ok (map VStr (dict_keys d))
  | VStr s => Ok (map (fun c => VStr [c]) s)
  | _ => raise_fault TypeError v
  end.

(** [d.items()]: a method of dicts only. *)
Definition py_items (d : pyval) : res (list (pystr * pyval)) :=
  match d with
  | VDict d => Ok d
  | _ => raise_fault AttributeError d
  end.

(** [count_total_methods(ground_truth)] *)
Definition count_total_methods (ground_truth : pyval) : res Z :=
  (framework_methods <- py_get ground_truth "framework_methods" ;;
   method_lists <- py_values framework_methods ;;
   res_for_each method_lists
     (fun total methods => n <- py_len methods ;; Ok (total + n)%Z)
     0%Z)%res.

(** [get_method_list(ground_truth)], on the document itself. *)
Definition get_method_list (ground_truth : pyval) : res (list pyval) :=
  (framework_methods <- py_get ground_truth "framework_methods" ;;
   items <- py_items framework_methods ;;
   res_for_each items
     (fun methods (item : pystr * pyval) =>
        let (category, method_list) := item in
        entries <- py_iter method_list ;;
        res_for_each entries
          (fun methods method_data =>
             signature <- py_get method_data "signature" ;;
             Ok (methods ++
                 [ VDict [ (str "signature", signature);
                           (str "category", VStr category);
                           (str "data", method_data) ] ]))
          methods)
     [])%res.

(** [_validate_ground_truth()] on [self.ground_truth]. *)
Definition validate_ground_truth (ground_truth : pyval) : M unit :=
  present <- lift (py_contains ground_truth (str "framework_methods")) ;;
  if negb present
  then raise (Raised ValueError
                (str "Invalid ground truth format: missing 'framework_methods'"))
  else
    total_methods <- lift (count_total_methods ground_truth) ;;
    if (total_methods =? 0)%Z
    then raise (Raised ValueError (str "No methods found in ground truth"))
    else
      lift (framework_methods <- py_get ground_truth "framework_methods" ;;
            py_len framework_methods)%res ;;
      log INFO.

End Functions.

(** The document a typed ground truth stands for, and the entry of the
    flat list that a typed entry stands for. *)
Definition of_ground_truth (gt : ground_truth_doc) : pyval :=
  VDict [ (str "framework_methods",
           VDict (map (fun item : pystr * list method_entry =>
                         (fst item, VList (map entry_data (snd item))))
                      gt)) ].

Definition of_method_info (m : method_info) : pyval :=
  VDict [ (str "signature", VStr (signature m));
          (str "category", VStr (category m));
          (str "data", data m) ].

(** Every record carries its signature. *)
Definition signed (gt : ground_truth_doc) : Prop :=
  forall category methods entry,
    In (category, methods) gt -> In entry methods ->
    exists fields,
      entry_data entry = VDict fields /\
      dict_get fields (str "signature") = Some (VStr (entry_signature entry)).

End Document.

(* ================================================================== *)
(** ** More concrete inputs *)

Module Sample.





(** A world like the scripted one, on a storage that takes no write. *)
Definition read_only : exn := Raised OtherError (str "read-only file system").

Definition write_json (path : pystr) (data : pyval) (w : Script.world)
  : res unit * Script.world :=
  (Err read_only, w).

Definition read_only_runtime : Runtime :=
  Build_Runtime Script.fault_text Script.requests_post Script.sleep_world
                Script.sleep_float Script.time_time Script.now_isoformat Script.read_text
                write_json Script.calculate_similarity
                Script.ascii_lower Script.generate_summary_stats.

(** A ground truth whose records carry their signature, as the file
    has them. *)
Definition signed_method (i : nat) : method_entry :=
  let signature := str "m" ++ str_of_int (Z.of_nat i) in
  {| entry_signature := signature;
     entry_data :=
       VDict [ (str "signature", VStr signature);
               (str "purpose_behavior", VStr (str "Reads a value."));
               (str "return_values",
                VDict [ (str "type", VStr (str "int"));
                        (str "description", VStr (str "The value read.")) ]) ] |}.

Definition signed_ground_truth : ground_truth_doc :=
  [ (str "io", map signed_method (seq 1 2));
    (str "net", map signed_method (seq 3 1)) ].

(** A world like the scripted one, in which the summary statistics
    raise. *)
Definition no_statistics : exn :=
  Raised ZeroDivisionError (str "division by zero").

Definition generate_summary_stats (results : pyval) : res pyval :=
  Err no_statistics.

Definition no_statistics_runtime : Runtime :=
  Build_Runtime Script.fault_text Script.requests_post Script.sleep_world
                Script.sleep_float Script.time_time Script.now_isoformat Script.read_text
                Script.write_json Script.calculate_similarity
                Script.ascii_lower generate_summary_stats.

(** A world like the scripted one, whose network gives every request the
    same answer: a completion whose first message has no content. *)
Definition no_content : response :=
  Response 200 (txt "{'choices': [{'message': {'role': 'assistant', 'content': null}}]}").

Definition requests_post (r : request) (w : Script.world)
  : res response * Script.world :=
  (Ok no_content, w).


(** A world like the scripted one, whose storage encodes what it writes
    in utf-8, as the files [save_json] opens do: a document that holds a
    surrogate code point in one of its texts is refused, with a
    [UnicodeEncodeError], which is a [ValueError]. *)
Definition is_surrogate (c : N) : bool := ((55296 <=? c) && (c <=? 57343))%N.

Definition encodable_text (s : pystr) : bool :=
  forallb (fun c => negb (is_surrogate c)) s.

Fixpoint encodable (v : pyval) : bool :=
  match v with
  | VStr s => encodable_text s
  | VList l => forallb encodable l
  | VDict d =>
      forallb (fun kv : pystr * pyval =>
                 encodable_text (fst kv) && encodable (snd kv)) d
  | _ => true
  end.

Definition unencodable : exn :=
  Raised ValueError (str "'utf-8' codec can't encode character: surrogates not allowed").

Definition write_utf8 (path : pystr) (data : pyval) (w : Script.world)
  : res unit * Script.world :=
  if encodable data then (Ok tt, w) else (Err unencodable, w).

Definition utf8_runtime : Runtime :=
  Build_Runtime Script.fault_text Script.requests_post Script.sleep_world
                Script.sleep_float Script.time_time Script.now_isoformat
                Script.read_text write_utf8 Script.calculate_similarity
                Script.ascii_lower Script.generate_summary_stats.

(** A completion whose first message is one lone surrogate, written in
    the body as the escape [\ud800]. *)
Definition lone_surrogate : response :=
  Response 200 (txt "{'choices': [{'message': {'role': 'assistant', 'content': '\ud800'}}]}").

End Sample.

(* ================================================================== *)
(** * Properties *)

Arguments str : simpl never.
Arguments txt : simpl never.

Unset Implicit Arguments.

Section Properties.

Context {rt : Runtime} {cfg : Settings} (self : LLMInterface).

Local Open Scope m_scope.

(** *** Running the monad *)

Lemma bind_ok {A B} (c : M A) (k : A -> M B) st a st1 :
  c st = (Ok a, st1) -> bind c k st = k a st1.
Proof. intros H. unfold bind. now rewrite H. Qed.

Lemma bind_err {A B} (c : M A) (k : A -> M B) st e st1 :
  c st = (Err e, st1) -> bind c k st = (Err e, st1).
Proof. intros H. unfold bind. now rewrite H. Qed.

Lemma bind_inv {A B} (c : M A) (k : A -> M B) st r st' :
  bind c k st = (r, st') ->
  (exists a st1, c st = (Ok a, st1) /\ k a st1 = (r, st')) \/
  (exists e, c st = (Err e, st') /\ r = Err e).
Proof.
  unfold bind. destruct (c st) as [[a|e] st1]; intros H.
  - left. eauto.
  - right. inversion H. eauto.
Qed.

Lemma catch_inv {A} (c : M A) (h : exn -> M A) st r st' :
  catch c h st = (r, st') ->
  (exists a, c st = (Ok a, st') /\ r = Ok a) \/
  (exists e st1, c st = (Err e, st1) /\ h e st1 = (r, st')).
Proof.
  unfold catch. destruct (c st) as [[a|e] st1]; intros H.
  - left. inversion H. eauto.
  - right. eauto.
Qed.

Lemma lift_inv {A} (x : res A) st r st' :
  lift x st = (r, st') -> r = x /\ st' = st.
Proof. unfold lift. intros H. inversion H. auto. Qed.

Lemma ret_inv {A} (a : A) st r st' :
  ret a st = (r, st') -> r = Ok a /\ st' = st.
Proof. unfold ret. intros H. inversion H. auto. Qed.

Lemma raise_inv {A} (e : exn) st (r : res A) st' :
  raise e st = (r, st') -> r = Err e /\ st' = st.
Proof. unfold raise. intros H. inversion H. auto. Qed.

Lemma emit_inv ev st r st' :
  emit ev st = (r, st') ->
  r = Ok tt /\ st' = State (world st) (ev :: effects st) (results st).
Proof. unfold emit. intros H. inversion H. auto. Qed.

Lemma with_world_inv {A} (f : W -> A * W) st r st' :
  with_world f st = (r, st') ->
  exists a w, r = Ok a /\ st' = State w (effects st) (results st).
Proof.
  unfold with_world. destruct (f (world st)) as [a w]. intros H.
  inversion H. eauto.
Qed.

Lemma with_world_res_inv {A} (f : W -> res A * W) st r st' :
  with_world_res f st = (r, st') ->
  exists w, f (world st) = (r, w) /\ st' = State w (effects st) (results st).
Proof.
  unfold with_world_res. destruct (f (world st)) as [a w]. intros H.
  inversion H. eauto.
Qed.

(** *** The effects of one request *)

Lemma posts_app a b : posts (a ++ b) = (posts a + posts b)%nat.
Proof. unfold posts. rewrite filter_app, length_app. reflexivity. Qed.

Lemma sleeps_app a b : sleeps (a ++ b) = sleeps b ++ sleeps a.
Proof. unfold sleeps. rewrite rev_app_distr, flat_map_app. reflexivity. Qed.

Lemma time_sleep_int z st :
  (0 <= z <= sleep_limit)%Z ->
  time_sleep (VInt z) st =
  (Ok tt, State (sleep_world (VInt z) (world st))
                (EvSleep (VInt z) :: effects st) (results st)).
Proof.
  intros Hz. unfold time_sleep.
  destruct (sleep_limit <? Z.abs z)%Z eqn:L; [apply Z.ltb_lt in L; lia|].
  destruct (z <? 0)%Z eqn:E; [apply Z.ltb_lt in E; lia|].
  reflexivity.
Qed.

(** The waits before the attempts 1 to 33 are within the clock's range;
    the one before attempt 34 is not. *)
Lemma backoff_in_range attempt :
  (0 <= attempt <= 33)%Z -> (0 <= 2 ^ attempt <= sleep_limit)%Z.
Proof.
  intros H. split; [apply Z.pow_nonneg; lia|].
  apply Z.le_trans with (2 ^ 33)%Z;
    [apply Z.pow_le_mono_r; lia|unfold sleep_limit; lia].
Qed.

Lemma time_sleep_beyond z st :
  (sleep_limit < z)%Z ->
  time_sleep (VInt z) st = (Err (fault OverflowError (VInt z)), st).
Proof.
  intros Hz. unfold time_sleep.
  destruct (sleep_limit <? Z.abs z)%Z eqn:L; [reflexivity|].
  apply Z.ltb_ge in L. lia.
Qed.

Lemma post_inv r st x st' :
  post r st = (x, st') ->
  results st' = results st /\ effects st' = EvPost r :: effects st.
Proof.
  unfold post. intros H.
  apply bind_inv in H as [(a & st1 & H1 & H2)|(e & H1 & _)].
  - apply emit_inv in H1 as [_ ->].
    apply with_world_res_inv in H2 as (w & _ & ->). auto.
  - apply emit_inv in H1 as [H1 _]. discriminate.
Qed.

Lemma one_request_lift {A} (x : res A) : one_request (lift x).
Proof.
  intros st r st' H. apply lift_inv in H as [_ ->].
  split; [reflexivity|]. exists []. auto.
Qed.

Lemma one_request_raise {A} e : one_request (@raise _ A e).
Proof.
  intros st r st' H. apply raise_inv in H as [_ ->].
  split; [reflexivity|]. exists []. auto.
Qed.

Lemma one_request_post r : one_request (post r).
Proof.
  intros st x st' H. apply post_inv in H as [H1 H2].
  split; [assumption|]. exists [EvPost r]. rewrite H2. auto.
Qed.

Lemma after_post st st' r :
  results st' = results st ->
  effects st' = EvPost r :: effects st ->
  results st' = results st /\
  exists new, effects st' = new ++ effects st /\
              (posts new <= 1)%nat /\ sleeps new = [].
Proof.
  intros R E. split; [assumption|]. exists [EvPost r].
  repeat split; auto.
Qed.

Lemma query_openai_one_request prompt config :
  one_request (query_openai self prompt config).
Proof.
  intros st r st' H. unfold query_openai in H.
  repeat match type of H with
  | bind (lift _) _ _ = _ =>
      let L := fresh "L" in
      apply bind_inv in H as [(? & ? & L & H)|(? & L & ->)];
      apply lift_inv in L as [? ->];
      [|split; [reflexivity|exists []; auto]]
  end.
  apply bind_inv in H as [(resp & st1 & Hp & H)|(? & Hp & ->)].
  - apply post_inv in Hp as [R E].
    assert (st' = st1) as ->.
    { destruct (status_code resp =? 200)%Z.
      - apply lift_inv in H as [_ ->]. reflexivity.
      - destruct (status_code resp =? 429)%Z;
          apply raise_inv in H as [_ ->]; reflexivity. }
    eapply after_post; eassumption.
  - apply post_inv in Hp as [R E].
    eapply after_post; eassumption.
Qed.

Lemma query_ollama_one_request prompt config :
  one_request (query_ollama self prompt config).
Proof.
  intros st r st' H. unfold query_ollama in H.
  repeat match type of H with
  | bind (lift _) _ _ = _ =>
      let L := fresh "L" in
      apply bind_inv in H as [(? & ? & L & H)|(? & L & ->)];
      apply lift_inv in L as [? ->];
      [|split; [reflexivity|exists []; auto]]
  end.
  apply catch_inv in H as [(a & H & ->)|(e & st1 & H & Hh)].
  - apply bind_inv in H as [(resp & st1 & Hp & H)|(? & Hp & ?)]; [|discriminate].
    apply post_inv in Hp as [R E].
    assert (st' = st1) as ->.
    { destruct (status_code resp =? 200)%Z.
      - apply lift_inv in H as [_ ->]. reflexivity.
      - apply raise_inv in H as [_ ->]; reflexivity. }
    eapply after_post; eassumption.
  - assert (st' = st1) as ->.
    { destruct (is_a (exn_kind_of e) ConnectionError);
        apply raise_inv in Hh as [_ ->]; reflexivity. }
    clear Hh.
    apply bind_inv in H as [(resp & st2 & Hp & H)|(? & Hp & ?)].
    + apply post_inv in Hp as [R E].
      assert (st1 = st2) as ->.
      { destruct (status_code resp =? 200)%Z.
        - apply lift_inv in H as [_ ->]. reflexivity.
        - apply raise_inv in H as [_ ->]; reflexivity. }
      eapply after_post; eassumption.
    + apply post_inv in Hp as [R E].
      eapply after_post; eassumption.
Qed.

Section Retry.

Variables (llm_name method_signature prompt : pystr) (config : pyval).

Let body := attempt_body self llm_name method_signature prompt config.

Lemma after_backoff attempt new st st1 st2 :
  effects st1 = map EvSleep (backoff_of attempt) ++ effects st ->
  effects st2 = new ++ effects st1 ->
  (posts new <= 1)%nat -> sleeps new = [] ->
  exists new', effects st2 = new' ++ effects st /\
               (posts new' <= 1)%nat /\ sleeps new' = backoff_of attempt.
Proof.
  intros E1 E2 P S.
  exists (new ++ map EvSleep (backoff_of attempt)).
  rewrite E2, E1, app_assoc, posts_app, sleeps_app, S, app_nil_r.
  unfold backoff_of.
  destruct (attempt >? 0)%Z; cbn; repeat split; trivial; lia.
Qed.

Lemma attempt_body_run attempt st r st' :
  (0 <= attempt <= 33)%Z ->
  body attempt st = (r, st') ->
  results st' = results st /\
  (exists new, effects st' = new ++ effects st /\
               (posts new <= 1)%nat /\ sleeps new = backoff_of attempt) /\
  (forall v, r = Ok v ->
     exists raw parsed now,
       parse_llm_response raw = Ok parsed /\
       v = success_result llm_name method_signature raw parsed attempt now).
Proof.
  intros Ha H. unfold body, attempt_body in H.
  (* the wait before a retry *)
  apply bind_inv in H as [(? & st1 & Hs & H)|(e & Hs & ->)].
  2:{ exfalso. destruct (attempt >? 0)%Z.
      - rewrite time_sleep_int in Hs by (now apply backoff_in_range).
        discriminate.
      - discriminate. }
  assert (R1 : results st1 = results st /\
               effects st1 = map EvSleep (backoff_of attempt) ++ effects st).
  { unfold backoff_of. destruct (attempt >? 0)%Z.
    - rewrite time_sleep_int in Hs by (now apply backoff_in_range).
      inversion Hs. auto.
    - inversion Hs. auto. }
  destruct R1 as [R1 E1]. clear Hs.
  (* config["type"] *)
  apply bind_inv in H as [(type & ? & L & H)|(e & L & ->)];
    apply lift_inv in L as [L ->].
  2:{ split; [assumption|]. split; [|discriminate].
      apply after_backoff with (new := []) (st1 := st1); auto. }
  (* the query *)
  assert (Q' : one_request (if is_VStr (str "openai") type
                            then query_openai self prompt config
                            else query_ollama self prompt config)).
  { destruct (is_VStr (str "openai") type);
      [apply query_openai_one_request|apply query_ollama_one_request]. }
  apply bind_inv in H as [(raw & st2 & Q & H)|(e & Q & ->)];
    apply Q' in Q as [R2 (new & E2 & P2 & S2)].
  2:{ split; [congruence|]. split; [|discriminate].
      eapply after_backoff; eassumption. }
  (* the parser *)
  apply bind_inv in H as [(parsed & ? & L2 & H)|(e & L2 & ->)];
    apply lift_inv in L2 as [L2 ->].
  2:{ split; [congruence|]. split; [|discriminate].
      eapply after_backoff; eassumption. }
  apply bind_inv in H as [(now & st3 & T & H)|(e & T & ->)].
  2:{ apply with_world_inv in T as (? & ? & T & _). discriminate. }
  apply with_world_inv in T as (? & w & T & ->). inversion T; subst.
  apply ret_inv in H as [-> ->]. simpl.
  split; [congruence|]. split.
  - apply after_backoff with (new := new) (st1 := st1); auto.
  - intros v Hv. inversion Hv. eauto.
Qed.

Lemma all_raise_run attempts st st' :
  Forall (fun a => 0 <= a <= 33)%Z attempts ->
  all_raise body attempts st st' ->
  results st' = results st /\
  exists new, effects st' = new ++ effects st /\
              (posts new <= length attempts)%nat /\
              sleeps new = flat_map backoff_of attempts.
Proof.
  intros Hpos H. induction H as [st|a rest st e st1 st' Hb Hr IH].
  - split; [reflexivity|]. exists []. auto.
  - inversion Hpos as [|? ? Ha Hrest]; subst.
    apply attempt_body_run in Hb as [R1 [(new1 & E1 & P1 & S1) _]]; [|assumption].
    destruct (IH Hrest) as [R2 (new2 & E2 & P2 & S2)].
    split; [simpl in R2; congruence|].
    exists (new2 ++ EvLog WARNING :: new1). simpl in E2.
    rewrite E2, E1. split; [now rewrite <- app_assoc|].
    split.
    + rewrite posts_app. change (EvLog WARNING :: new1) with ([EvLog WARNING] ++ new1).
      rewrite posts_app. simpl. lia.
    + rewrite sleeps_app. change (EvLog WARNING :: new1) with ([EvLog WARNING] ++ new1).
      rewrite sleeps_app, S1, S2. simpl. now rewrite app_nil_r.
Qed.

Lemma attempt_loop_run n : forall i st,
  Z.of_nat (i + S n) = MAX_RETRIES ->
  exists m stn r st',
    (1 <= m <= S n)%nat /\
    attempt_loop self llm_name method_signature prompt config (from i (S n)) st
      = (Ok (Some r), st') /\
    all_raise body (from i (m - 1)) st stn /\
    ((body (Z.of_nat (i + m - 1)) stn = (Ok r, st')) \/
     (m = S n /\
      exists e st1 now,
        body (Z.of_nat (i + m - 1)) stn = (Err e, st1) /\
        r = failure_result llm_name method_signature e (MAX_RETRIES - 1) now /\
        results st' = results st1 /\
        effects st' = EvLog WARNING :: effects st1)).
Proof.
  induction n as [|n IH]; intros i st Hk.
  - (* the last attempt *)
    unfold from. simpl. unfold catch.
    destruct (attempt_body self llm_name method_signature prompt config
                (Z.of_nat i) st) as [[v|e] st1] eqn:Hb.
    + exists 1%nat, st, v, st1. rewrite bind_ok with (a := v) (st1 := st1) by assumption.
      repeat split; auto.
      * constructor.
      * left. replace (i + 1 - 1)%nat with i by lia. exact Hb.
    + rewrite bind_err with (e := e) (st1 := st1) by assumption.
      assert (Hlast : (Z.of_nat i <? MAX_RETRIES - 1)%Z = false).
      { apply Z.ltb_ge. lia. }
      unfold bind at 1. simpl. rewrite Hlast.
      unfold bind, with_world. simpl.
      destruct (time_time (world st1)) as [now w] eqn:Ht. simpl.
      exists 1%nat, st. eexists. eexists.
      repeat split; auto.
      * constructor.
      * right. split; [reflexivity|]. exists e, st1, now.
        replace (i + 1 - 1)%nat with i by lia.
        repeat split; auto.
        replace (Z.of_nat i) with (MAX_RETRIES - 1)%Z by lia. reflexivity.
  - unfold from. simpl. unfold catch.
    destruct (attempt_body self llm_name method_signature prompt config
                (Z.of_nat i) st) as [[v|e] st1] eqn:Hb.
    + exists 1%nat, st, v, st1. rewrite bind_ok with (a := v) (st1 := st1) by assumption.
      repeat split; auto; try lia.
      * constructor.
      * left. replace (i + 1 - 1)%nat with i by lia. exact Hb.
    + rewrite bind_err with (e := e) (st1 := st1) by assumption.
      assert (Hmore : (Z.of_nat i <? MAX_RETRIES - 1)%Z = true).
      { apply Z.ltb_lt. lia. }
      unfold bind at 1. simpl. rewrite Hmore.
      destruct (IH (S i) (logged WARNING st1)) as (m & stn & r & st' & Hm & Hl & Hr & Hd);
        [lia|].
      exists (S m), stn, r, st'. split; [lia|]. split; [exact Hl|]. split.
      * replace (S m - 1)%nat with (S (m - 1)) by lia. unfold from. simpl.
        econstructor; [exact Hb|exact Hr].
      * replace (i + S m - 1)%nat with (S i + m - 1)%nat by lia.
        destruct Hd as [Hd|(-> & Hd)]; [left; exact Hd|right].
        split; [reflexivity|exact Hd].
Qed.

End Retry.

Lemma from_range n : from 0 n = range (Z.of_nat n).
Proof. unfold from, range. now rewrite Nat2Z.id. Qed.

Lemma from_snoc i n : from i (S n) = from i n ++ [Z.of_nat (i + n)].
Proof. unfold from. rewrite seq_S, map_app. reflexivity. Qed.

Lemma from_nonneg i n : Forall (fun a => 0 <= a)%Z (from i n).
Proof.
  unfold from. apply Forall_forall. intros a Ha.
  apply in_map_iff in Ha as (x & <- & _). lia.
Qed.

Lemma from_in_range i n :
  (i + n <= 34)%nat -> Forall (fun a => 0 <= a <= 33)%Z (from i n).
Proof.
  intros H. unfold from. apply Forall_forall. intros a Ha.
  apply in_map_iff in Ha as (x & <- & Hx). apply in_seq in Hx. lia.
Qed.

Lemma backoff_of_pos a : (0 < a)%Z -> backoff_of a = [VInt (2 ^ a)].
Proof.
  intros Ha. unfold backoff_of.
  destruct (a >? 0)%Z eqn:E; [reflexivity|].
  rewrite Z.gtb_ltb in E. apply Z.ltb_ge in E. lia.
Qed.

Lemma from_cons i n : from i (S n) = Z.of_nat i :: from (S i) n.
Proof. reflexivity. Qed.

Lemma backoff_from n : forall i,
  flat_map backoff_of (from (S i) n) =
  map VInt (map (fun a => 2 ^ a)%Z (from (S i) n)).
Proof.
  induction n as [|n IH]; intros i; [reflexivity|].
  rewrite from_cons. cbn [flat_map map].
  rewrite IH, backoff_of_pos by lia. reflexivity.
Qed.

Lemma backoff_range n :
  flat_map backoff_of (from 0 n) = map VInt (backoffs (Z.of_nat n)).
Proof.
  unfold backoffs. rewrite <- from_range. destruct n as [|n]; [reflexivity|].
  rewrite from_cons. cbn [flat_map tl].
  rewrite backoff_from. reflexivity.
Qed.





Lemma evaluate_method_loop method_signature llm_name config st r st' :
  dict_get LLM_CONFIGS llm_name = Some config ->
  attempt_loop self llm_name method_signature
               (create_prompt method_signature) config
               (range MAX_RETRIES) (logged INFO st) = (Ok (Some r), st') ->
  evaluate_method self method_signature llm_name st = (Ok r, st').
Proof.
  intros Hc Hl. unfold evaluate_method.
  unfold dict_has. rewrite Hc. cbn [negb].
  unfold py_getitem. rewrite Hc.
  rewrite bind_ok with (a := config) (st1 := st) by reflexivity.
  rewrite bind_ok with (a := tt) (st1 := logged INFO st) by reflexivity.
  rewrite bind_ok with (a := Some r) (st1 := st') by exact Hl.
  reflexivity.
Qed.

(** The whole of a request, when the backend is configured, at least
    one attempt is allowed and every wait between attempts is within the
    clock's range. *)
Lemma evaluate_method_run method_signature llm_name config st :
  (1 <= MAX_RETRIES <= 34)%Z ->
  dict_get LLM_CONFIGS llm_name = Some config ->
  let body := attempt_body self llm_name method_signature
                           (create_prompt method_signature) config in
  exists (n : Z) result st' new stn,
    evaluate_method self method_signature llm_name st = (Ok result, st') /\
    (1 <= n <= MAX_RETRIES)%Z /\
    results st' = results st /\
    effects st' = new ++ effects st /\
    (Z.of_nat (posts new) <= n)%Z /\
    sleeps new = map VInt (backoffs n) /\
    all_raise body (range (n - 1)) (logged INFO st) stn /\
    ((exists raw parsed now,
        body (n - 1)%Z stn = (Ok result, st') /\
        parse_llm_response raw = Ok parsed /\
        result = success_result llm_name method_signature raw parsed
                                (n - 1) now) \/
     (n = MAX_RETRIES /\
      exists e st1 now,
        body (n - 1)%Z stn = (Err e, st1) /\
        result = failure_result llm_name method_signature e (n - 1) now)).
Proof.
  intros Hk Hc body.
  destruct (@attempt_loop_run llm_name method_signature
              (create_prompt method_signature) config
              (Z.to_nat MAX_RETRIES - 1) 0%nat (logged INFO st))
    as (m & stn & r & st' & Hm & Hl & Hr & Hd); [lia|].
  replace (S (Z.to_nat MAX_RETRIES - 1)) with (Z.to_nat MAX_RETRIES) in * by lia.
  change (from 0 (Z.to_nat MAX_RETRIES)) with (range MAX_RETRIES) in Hl.
  pose proof (@evaluate_method_loop method_signature llm_name config st r st' Hc Hl) as Hrun.
  assert (Hin : (0 + (m - 1) <= 34)%nat) by lia.
  pose proof (all_raise_run _ _ _ _ _ _ _ (from_in_range 0 (m - 1) Hin) Hr)
    as [R1 (new1 & E1 & P1 & S1)].
  simpl in R1, E1.
  assert (Hidx : Z.of_nat (0 + m - 1) = (Z.of_nat m - 1)%Z) by lia.
  rewrite Hidx in Hd.
  assert (Hsl : flat_map backoff_of (from 0 (m - 1))
                ++ backoff_of (Z.of_nat m - 1)
                = map VInt (backoffs (Z.of_nat m))).
  { rewrite <- backoff_range.
    replace m with (S (m - 1)) at 3 by lia.
    rewrite from_snoc, flat_map_app. simpl.
    rewrite app_nil_r. do 2 f_equal. lia. }
  exists (Z.of_nat m), r, st'.
  assert (P0 : forall l, posts [EvLog l] = 0%nat) by reflexivity.
  assert (S0 : forall l, sleeps [EvLog l] = []) by reflexivity.
  unfold from in P1. rewrite length_map, length_seq in P1.
  destruct Hd as [Hb|(Hmn & e & st1 & now & Hb & -> & R3 & E3)].
  - pose proof Hb as Hb'.
    apply attempt_body_run in Hb' as [R2 [(new2 & E2 & P2 & S2) Hv]]; [|lia].
    destruct (Hv r eq_refl) as (raw & parsed & now & Hp & ->).
    exists (new2 ++ new1 ++ [EvLog INFO]), stn.
    split; [exact Hrun|]. split; [lia|]. split; [congruence|].
    split; [rewrite E2, E1; now rewrite <- !app_assoc|].
    split; [rewrite !posts_app, P0; lia|].
    split; [rewrite !sleeps_app, S0, S1, S2; exact Hsl|].
    split; [replace (Z.of_nat m - 1)%Z with (Z.of_nat (m - 1)) by lia;
            rewrite <- from_range; exact Hr|].
    left. exists raw, parsed, now. auto.
  - pose proof Hb as Hb'.
    apply attempt_body_run in Hb' as [R2 [(new2 & E2 & P2 & S2) _]]; [|lia].
    exists ([EvLog WARNING] ++ new2 ++ new1 ++ [EvLog INFO]), stn.
    split; [exact Hrun|]. split; [lia|]. split; [congruence|].
    split; [rewrite E3, E2, E1; simpl; now rewrite <- !app_assoc|].
    split; [rewrite !posts_app, !P0; lia|].
    split; [rewrite !sleeps_app, !S0, S1, S2, app_nil_r; exact Hsl|].
    split; [replace (Z.of_nat m - 1)%Z with (Z.of_nat (m - 1)) by lia;
            rewrite <- from_range; exact Hr|].
    right. split; [lia|]. exists e, st1, now. split; [exact Hb|].
    f_equal. lia.
Qed.

(** *** Files, the network and the result set *)

Lemma frame_ret {A} (a : A) : frame (ret a).
Proof.
  intros st r st' H. apply ret_inv in H as [_ ->].
  split; [reflexivity|]. exists []. auto.
Qed.

Lemma frame_lift {A} (x : res A) : frame (lift x).
Proof.
  intros st r st' H. apply lift_inv in H as [_ ->].
  split; [reflexivity|]. exists []. auto.
Qed.

Lemma frame_raise {A} e : frame (@raise _ A e).
Proof.
  intros st r st' H. apply raise_inv in H as [_ ->].
  split; [reflexivity|]. exists []. auto.
Qed.

Lemma frame_emit e : is_net_event e = true -> frame (emit e).
Proof.
  intros He st r st' H. apply emit_inv in H as [_ ->].
  split; [reflexivity|]. exists [e]. simpl. rewrite He. auto.
Qed.

Lemma frame_log l : frame (log l).
Proof. now apply frame_emit. Qed.

Lemma frame_with_world {A} (f : W -> A * W) : frame (with_world f).
Proof.
  intros st r st' H. apply with_world_inv in H as (a & w & _ & ->).
  split; [reflexivity|]. exists []. auto.
Qed.

Lemma frame_with_world_res {A} (f : W -> res A * W) :
  frame (with_world_res f).
Proof.
  intros st r st' H. apply with_world_res_inv in H as (w & _ & ->).
  split; [reflexivity|]. exists []. auto.
Qed.

Lemma frame_bind {A B} (c : M A) (k : A -> M B) :
  frame c -> (forall a, frame (k a)) -> frame (bind c k).
Proof.
  intros Hc Hk st r st' H.
  apply bind_inv in H as [(a & st1 & H1 & H2)|(e & H1 & _)].
  - apply Hc in H1 as [R1 (n1 & E1 & F1)].
    apply Hk in H2 as [R2 (n2 & E2 & F2)].
    split; [congruence|]. exists (n2 ++ n1).
    rewrite E2, E1, app_assoc, forallb_app, F1, F2. auto.
  - now apply Hc in H1.
Qed.

Lemma frame_catch {A} (c : M A) (h : exn -> M A) :
  frame c -> (forall e, frame (h e)) -> frame (catch c h).
Proof.
  intros Hc Hh st r st' H.
  apply catch_inv in H as [(a & H1 & _)|(e & st1 & H1 & H2)].
  - now apply Hc in H1.
  - apply Hc in H1 as [R1 (n1 & E1 & F1)].
    apply Hh in H2 as [R2 (n2 & E2 & F2)].
    split; [congruence|]. exists (n2 ++ n1).
    rewrite E2, E1, app_assoc, forallb_app, F1, F2. auto.
Qed.

Lemma frame_if {A} (b : bool) (c1 c2 : M A) :
  frame c1 -> frame c2 -> frame (if b then c1 else c2).
Proof. now destruct b. Qed.

Ltac frame :=
  repeat first
    [ apply frame_ret | apply frame_lift | apply frame_raise
    | apply frame_log | apply frame_with_world | apply frame_with_world_res
    | apply frame_emit; reflexivity
    | apply frame_bind; [|intros ?]
    | apply frame_catch; [|intros ?]
    | apply frame_if ].

Lemma frame_wait v : frame (wait v).
Proof. unfold wait. frame. Qed.

Lemma frame_time_sleep v : frame (time_sleep v).
Proof.
  unfold time_sleep. destruct v as [| | |f| | |];
    try destruct (sleep_float f); frame; apply frame_wait.
Qed.

Lemma frame_post r : frame (post r).
Proof. unfold post. frame. Qed.

Lemma frame_query_openai prompt config :
  frame (query_openai self prompt config).
Proof. unfold query_openai. frame. Qed.

Lemma frame_query_ollama prompt config :
  frame (query_ollama self prompt config).
Proof. unfold query_ollama. frame. Qed.

Lemma frame_attempt_body l s p c a : frame (attempt_body self l s p c a).
Proof.
  unfold attempt_body.
  frame; auto using frame_time_sleep, frame_query_openai,
                    frame_query_ollama.
Qed.

Lemma frame_attempt_loop l s p c attempts :
  frame (attempt_loop self l s p c attempts).
Proof.
  induction attempts as [|a rest IH]; simpl; frame;
    auto using frame_attempt_body.
Qed.

Lemma frame_evaluate_method s l : frame (evaluate_method self s l).
Proof.
  unfold evaluate_method. frame; auto using frame_attempt_loop.
  match goal with |- frame (match ?x with _ => _ end) => destruct x end;
    frame; auto using frame_time_sleep.
Qed.

Lemma frame_calculate_method_similarity g l :
  frame (calculate_method_similarity g l).
Proof.
  unfold calculate_method_similarity.
  destruct (similarity_body g l); frame.
Qed.

(** *** The shape of the results *)

Lemma attempt_body_shape l s p c a st v st' :
  attempt_body self l s p c a st = (Ok v, st') ->
  exists raw parsed now, v = success_result l s raw parsed a now.
Proof.
  unfold attempt_body. intros H.
  repeat (apply bind_inv in H as [(? & ? & _ & H)|(? & _ & ?)];
          [|discriminate]).
  apply ret_inv in H as [H _]. inversion H. eauto.
Qed.

Lemma attempt_loop_shape l s p c attempts : forall st v st',
  attempt_loop self l s p c attempts st = (Ok (Some v), st') ->
  is_attempt_result v.
Proof.
  induction attempts as [|a rest IH]; simpl; intros st v st' H.
  - apply ret_inv in H as [H _]. discriminate.
  - apply catch_inv in H as [(x & H & Hx)|(e & st1 & _ & H)].
    + apply bind_inv in H as [(r & ? & Hb & H)|(? & _ & ?)]; [|discriminate].
      apply ret_inv in H as [H _]. inversion H; subst. inversion Hx; subst.
      apply attempt_body_shape in Hb as (raw & parsed & now & ->).
      left. repeat eexists.
    + apply bind_inv in H as [(? & ? & _ & H)|(? & _ & ?)]; [|discriminate].
      destruct (a <? MAX_RETRIES - 1)%Z; [now apply IH in H|].
      apply bind_inv in H as [(now & ? & _ & H)|(? & _ & ?)]; [|discriminate].
      apply ret_inv in H as [H _]. inversion H; subst.
      right. repeat eexists.
Qed.

Lemma evaluate_method_shape s l st v st' :
  evaluate_method self s l st = (Ok v, st') -> is_attempt_result v.
Proof.
  unfold evaluate_method. intros H.
  destruct (negb (dict_has LLM_CONFIGS l)).
  { apply raise_inv in H as [H _]. discriminate. }
  apply bind_inv in H as [(config & ? & _ & H)|(? & _ & ?)]; [|discriminate].
  apply bind_inv in H as [(? & ? & _ & H)|(? & _ & ?)]; [|discriminate].
  apply bind_inv in H as [(returned & ? & Hl & H)|(? & _ & ?)]; [|discriminate].
  destruct returned as [r|].
  - apply ret_inv in H as [H _]. inversion H; subst.
    now apply attempt_loop_shape in Hl.
  - apply bind_inv in H as [(? & ? & _ & H)|(? & _ & ?)]; [|discriminate].
    apply bind_inv in H as [(? & ? & _ & H)|(? & _ & ?)]; [|discriminate].
    apply raise_inv in H as [H _]. discriminate.
Qed.


Lemma bind_lift_ok {A B} (a : A) (k : A -> M B) st :
  bind (lift (Ok a)) k st = k a st.
Proof. reflexivity. Qed.

(** *** Dictionaries *)

Lemma str_eqb_spec a : forall b, str_eqb a b = true <-> a = b.
Proof.
  induction a as [|x a IH]; intros [|y b]; simpl; split; intros H;
    try discriminate; try reflexivity.
  - apply andb_true_iff in H as [H1 H2].
    apply N.eqb_eq in H1. apply IH in H2. congruence.
  - inversion H; subst. rewrite N.eqb_refl. simpl. now apply IH.
Qed.

Lemma str_eqb_refl a : str_eqb a a = true.
Proof. now apply str_eqb_spec. Qed.

Lemma str_eqb_neq a b : a <> b -> str_eqb a b = false.
Proof.
  intros H. destruct (str_eqb a b) eqn:E; [|reflexivity].
  apply str_eqb_spec in E. contradiction.
Qed.

Lemma dict_get_set d k v k' :
  dict_get (dict_set d k v) k' =
  if str_eqb k k' then Some v else dict_get d k'.
Proof.
  induction d as [|[k0 v0] d IH]; simpl.
  - reflexivity.
  - destruct (str_eqb k0 k) eqn:E0.
    + apply str_eqb_spec in E0. subst k0. simpl.
      now destruct (str_eqb k k').
    + simpl. rewrite IH. destruct (str_eqb k0 k') eqn:E1; [|reflexivity].
      apply str_eqb_spec in E1. subst k'.
      rewrite str_eqb_neq; [reflexivity|].
      intros ->. now rewrite str_eqb_refl in E0.
Qed.

Lemma dict_get_set_same d k v : dict_get (dict_set d k v) k = Some v.
Proof. now rewrite dict_get_set, str_eqb_refl. Qed.

Lemma dict_get_set_other d k v k' :
  k' <> k -> dict_get (dict_set d k v) k' = dict_get d k'.
Proof.
  intros H. rewrite dict_get_set, str_eqb_neq; [reflexivity|congruence].
Qed.

Lemma dict_keys_set d k v :
  dict_keys (dict_set d k v) =
  if dict_has d k then dict_keys d else dict_keys d ++ [k].
Proof.
  unfold dict_has, dict_keys.
  induction d as [|[k0 v0] d IH]; simpl; [reflexivity|].
  destruct (str_eqb k0 k) eqn:E0; simpl; [reflexivity|].
  rewrite IH. now destruct (dict_get d k).
Qed.

Lemma forallb_dict_set (P : pyval -> bool) d k v :
  forallb (fun kv => P (snd kv)) d = true ->
  P v = true ->
  forallb (fun kv => P (snd kv)) (dict_set d k v) = true.
Proof.
  intros Hd Hv. induction d as [|[k0 v0] d IH]; simpl in *.
  - now rewrite Hv.
  - apply andb_true_iff in Hd as [H0 Hd].
    destruct (str_eqb k0 k); simpl.
    + now rewrite Hv, Hd.
    + now rewrite H0, IH.
Qed.

Lemma dict_has_keys d k : dict_has d k = true <-> In k (dict_keys d).
Proof.
  unfold dict_has, dict_keys.
  induction d as [|[k0 v0] d IH]; simpl.
  - split; [discriminate|contradiction].
  - destruct (str_eqb k0 k) eqn:E.
    + apply str_eqb_spec in E. split; auto.
    + rewrite IH. split; [auto|]. intros [H|H]; [|exact H].
      subst. now rewrite str_eqb_refl in E.
Qed.

(** *** Recording a response or a score *)

Lemma literal_neq (a b : string) :
  str_eqb (str a) (str b) = false -> str a <> str b.
Proof. intros E H. rewrite H, str_eqb_refl in E. discriminate. Qed.

Lemma record_under_run sig (field : string) llm v st :
  (field = "llm_responses" /\ is_response v = true \/
   field = "similarities")%string ->
  current (results st) sig ->
  results_ok (results st) = true ->
  is_dict v = true ->
  exists r',
    record_under sig field llm v st
      = (Ok tt, State (world st) (effects st) r') /\
    updates sig (results st) r' /\
    (field = "llm_responses"%string -> recorded r' sig llm = true).
Proof.
  intros Hf (d & e & rs & ss & Hr & Hd & Hrs & Hss) Hok Hv.
  assert (Hneq : str "similarities" <> str "llm_responses")
    by (apply literal_neq; reflexivity).
  set (inner := match field with
                | "llm_responses"%string => rs
                | _ => ss
                end).
  assert (Hin : dict_get e (str field) = Some (VDict inner)).
  { destruct Hf as [[-> _] | ->]; assumption. }
  set (e' := dict_set e (str field) (VDict (dict_set inner llm v))).
  exists (VDict (dict_set d sig (VDict e'))).
  split.
  { unfold record_under, get_results, bind, lift, set_results.
    rewrite Hr. unfold py_getitem at 1. rewrite Hd. cbn [res_bind].
    unfold py_get, py_getitem. rewrite Hin. cbn [res_bind py_setitem].
    reflexivity. }
  assert (Hrs' : dict_get e' (str "llm_responses") =
                 Some (VDict (match field with
                              | "llm_responses"%string => dict_set rs llm v
                              | _ => rs
                              end))).
  { unfold e', inner. destruct Hf as [[-> _] | ->].
    - apply dict_get_set_same.
    - rewrite dict_get_set_other by congruence. exact Hrs. }
  assert (Hss' : exists ss', dict_get e' (str "similarities") = Some (VDict ss')).
  { unfold e', inner. destruct Hf as [[-> _] | ->].
    - rewrite dict_get_set_other by exact Hneq. eauto.
    - rewrite dict_get_set_same. eauto. }
  assert (Hrsok : forallb (fun kv => is_dict (snd kv)) rs = true).
  { rewrite Hr in Hok. simpl in Hok.
    clear - Hok Hd Hrs. induction d as [|[k0 v0] d IH]; [discriminate|].
    simpl in *. apply andb_true_iff in Hok as [H0 Hok].
    destruct (str_eqb k0 sig).
    - inversion Hd; subst. simpl in H0. now rewrite Hrs in H0.
    - now apply IH. }
  split; [|].
  - split; [|split; [|split; [|split]]].
    + destruct Hss' as (ss' & Hss').
      eexists _, e', _, ss'. split; [reflexivity|].
      split; [apply dict_get_set_same|]. split; [exact Hrs'|exact Hss'].
    + simpl. rewrite Hr in Hok. simpl in Hok.
      apply forallb_dict_set; [exact Hok|].
      simpl. rewrite Hrs'. destruct Hf as [[-> _] | ->]; [|exact Hrsok].
      apply forallb_dict_set; assumption.
    + rewrite Hr. simpl. rewrite dict_keys_set. unfold dict_has.
      now rewrite Hd.
    + intros k Hk. rewrite Hr. simpl. now apply dict_get_set_other.
    + intros l. unfold recorded, responses_of. rewrite Hr. simpl.
      rewrite dict_get_set_same, Hd, Hrs, Hrs'.
      destruct Hf as [[-> Hs] | ->]; [|auto].
      rewrite dict_get_set. destruct (str_eqb llm l) eqn:E; auto.
  - intros ->. destruct Hf as [[_ Hs]|Hf]; [|discriminate].
    unfold recorded, responses_of. simpl.
    now rewrite dict_get_set_same, Hrs', dict_get_set_same.
Qed.

Lemma res_bind_inv {A B} (r : res A) (k : A -> res B) v :
  res_bind r k = Ok v -> exists a, r = Ok a /\ k a = Ok v.
Proof. destruct r; simpl; [eauto|discriminate]. Qed.

Lemma similarity_body_dict g l v :
  similarity_body g l = Ok v -> is_dict v = true.
Proof.
  unfold similarity_body. intros H.
  repeat (apply res_bind_inv in H as (? & _ & H)).
  inversion H. reflexivity.
Qed.

Lemma calculate_method_similarity_run g l st :
  exists scores st',
    calculate_method_similarity g l st = (Ok scores, st') /\
    is_dict scores = true /\
    results st' = results st /\
    exists new, effects st' = new ++ effects st /\
                forallb is_net_event new = true.
Proof.
  unfold calculate_method_similarity.
  destruct (similarity_body g l) as [scores|e] eqn:E.
  - exists scores, st. split; [reflexivity|].
    split; [eapply similarity_body_dict; eassumption|].
    split; [reflexivity|]. exists []. auto.
  - eexists. eexists. split; [reflexivity|].
    split; [reflexivity|]. split; [reflexivity|].
    exists [EvLog ERROR]. auto.
Qed.

Lemma updates_refl sig r :
  current r sig -> results_ok r = true -> updates sig r r.
Proof. intros Hc Ho. repeat split; auto. Qed.

Lemma updates_trans sig r1 r2 r3 :
  updates sig r1 r2 -> updates sig r2 r3 -> updates sig r1 r3.
Proof.
  intros (C1 & O1 & K1 & E1 & R1) (C2 & O2 & K2 & E2 & R2).
  repeat split; auto.
  - congruence.
  - intros k Hk. rewrite E2, E1; auto.
Qed.

Lemma is_attempt_result_facts v :
  is_attempt_result v ->
  is_dict v = true /\ is_response v = true /\
  ((exists parsed, py_get v "success" = Ok (VBool true) /\
                   py_get v "parsed_response" = Ok parsed) \/
   py_get v "success" = Ok (VBool false)).
Proof.
  intros [(l & s & raw & parsed & a & now & ->)|(l & s & e & a & now & ->)].
  - split; [reflexivity|]. split; [reflexivity|]. left. exists parsed.
    split; reflexivity.
  - split; [reflexivity|]. split; [reflexivity|]. right. reflexivity.
Qed.

(** One backend for one method: whatever the backend does, a response
    is recorded and the loop goes on. *)
Lemma evaluate_with_run method llm_name st :
  current (results st) (signature method) ->
  results_ok (results st) = true ->
  exists st',
    evaluate_with self method llm_name st = (Ok tt, st') /\
    updates (signature method) (results st) (results st') /\
    recorded (results st') (signature method) llm_name = true /\
    exists new, effects st' = new ++ effects st /\
                forallb is_net_event new = true.
Proof.
  intros Hc Hok. unfold evaluate_with.
  rewrite bind_ok with (a := tt) (st1 := logged INFO st) by reflexivity.
  unfold catch.
  destruct (evaluate_method self (signature method) llm_name (logged INFO st))
    as [[v|e] st1] eqn:Hev.
  - (* the request returned *)
    pose proof (frame_evaluate_method _ _ _ _ _ Hev) as [R1 (n1 & E1 & F1)].
    apply evaluate_method_shape in Hev as Hshape.
    apply is_attempt_result_facts in Hshape as (Hd & Hs & Hcase).
    rewrite bind_ok with (a := v) (st1 := st1) by exact Hev.
    simpl in R1. rewrite <- R1 in Hc, Hok.
    destruct (record_under_run (signature method) "llm_responses" llm_name
                v st1 (or_introl (conj eq_refl Hs)) Hc Hok Hd)
      as (r2 & Hrec & Hup & Hrd).
    rewrite bind_ok with (a := tt) (st1 := State (world st1) (effects st1) r2)
      by exact Hrec.
    specialize (Hrd eq_refl).
    destruct Hcase as [(parsed & Hsucc & Hparsed)|Hfail].
    + rewrite Hsucc, bind_lift_ok. cbn [py_truthy].
      rewrite Hparsed, bind_lift_ok.
      destruct (calculate_method_similarity_run (data method) parsed
                  (State (world st1) (effects st1) r2))
        as (scores & st3 & Hsim & Hsd & R3 & (n3 & E3 & F3)).
      rewrite bind_ok with (a := scores) (st1 := st3) by exact Hsim.
      destruct Hup as (C2 & O2 & K2 & En2 & Rc2).
      simpl in R3. rewrite <- R3 in C2, O2.
      destruct (record_under_run (signature method) "similarities" llm_name
                  scores st3 (or_intror eq_refl) C2 O2 Hsd)
        as (r4 & Hrec4 & Hup4 & _).
      rewrite bind_ok with (a := tt) (st1 := State (world st3) (effects st3) r4)
        by exact Hrec4.
      destruct scores as [| | | | | |sd]; try discriminate.
      unfold py_dict_get.
      destruct (dict_get sd (str "overall_similarity"));
        rewrite bind_lift_ok;
        (eexists; split; [reflexivity|]);
        (split; [|split]).
      all: try (simpl; rewrite <- R1;
                apply updates_trans with (r2 := r2);
                [repeat split; auto; congruence
                |rewrite R3 in Hup4; exact Hup4]).
      all: try (simpl; destruct Hup4 as (_ & _ & _ & _ & H4); apply H4;
                rewrite R3; exact Hrd).
      all: exists (EvLog INFO :: n3 ++ n1 ++ [EvLog INFO]); simpl;
        rewrite E3; simpl; rewrite E1; simpl;
        rewrite <- !app_assoc; split; [reflexivity|];
        rewrite !forallb_app, F3, F1; reflexivity.
    + rewrite Hfail, bind_lift_ok. cbn [py_truthy].
      destruct v as [| | | | | |vd]; try discriminate.
      unfold py_dict_get.
      destruct (dict_get vd (str "error"));
        rewrite bind_lift_ok;
        (eexists; split; [reflexivity|]);
        (split; [|split]).
      all: try (simpl; rewrite <- R1; exact Hup).
      all: try (simpl; exact Hrd).
      all: exists (EvLog WARNING :: n1 ++ [EvLog INFO]); simpl;
        rewrite E1; simpl;
        rewrite <- !app_assoc; split; [reflexivity|];
        rewrite !forallb_app, F1; reflexivity.
  - (* the request raised *)
    pose proof (frame_evaluate_method _ _ _ _ _ Hev) as [R1 (n1 & E1 & F1)].
    rewrite bind_err with (e := e) (st1 := st1) by exact Hev.
    rewrite bind_ok with (a := tt) (st1 := logged ERROR st1) by reflexivity.
    simpl in R1.
    assert (Hc' : current (results (logged ERROR st1)) (signature method))
      by (simpl; now rewrite R1).
    assert (Hok' : results_ok (results (logged ERROR st1)) = true)
      by (simpl; now rewrite R1).
    destruct (record_under_run (signature method) "llm_responses" llm_name
                (VDict [ (str "success", VBool false);
                         (str "error", VStr (exn_text e));
                         (str "llm", VStr llm_name) ])
                (logged ERROR st1)
                (or_introl (conj eq_refl eq_refl)) Hc' Hok' eq_refl)
      as (r2 & Hrec & Hup & Hrd).
    eexists. split; [exact Hrec|]. simpl in Hup. rewrite R1 in Hup.
    split; [exact Hup|]. split; [exact (Hrd eq_refl)|].
    exists (EvLog ERROR :: n1 ++ [EvLog INFO]). simpl. rewrite E1. simpl.
    rewrite <- !app_assoc. split; [reflexivity|].
    rewrite !forallb_app, F1. reflexivity.
Qed.

Lemma writes_app a b : writes (a ++ b) = writes b ++ writes a.
Proof. unfold writes. rewrite rev_app_distr, flat_map_app. reflexivity. Qed.

Lemma writes_net new : forallb is_net_event new = true -> writes new = [].
Proof.
  unfold writes. induction new as [|e new IH]; [reflexivity|].
  simpl. intros H. apply andb_true_iff in H as [He Hn].
  rewrite flat_map_app, (IH Hn). destruct e; try discriminate; reflexivity.
Qed.

Lemma posts_net_free new :
  forallb (fun e => negb (is_post e)) new = true -> posts new = 0%nat.
Proof.
  unfold posts. induction new as [|e new IH]; [reflexivity|].
  simpl. intros H. apply andb_true_iff in H as [He Hn].
  destruct (is_post e); [discriminate|]. now apply IH.
Qed.

Lemma recorded_entry r r' sig l :
  entry r' sig = entry r sig -> recorded r' sig l = recorded r sig l.
Proof. intros H. unfold recorded, responses_of. now rewrite H. Qed.

Lemma for_each_evaluate_with method names : forall st,
  current (results st) (signature method) ->
  results_ok (results st) = true ->
  exists st',
    for_each names (evaluate_with self method) st = (Ok tt, st') /\
    updates (signature method) (results st) (results st') /\
    (forall l, In l names ->
               recorded (results st') (signature method) l = true) /\
    exists new, effects st' = new ++ effects st /\
                forallb is_net_event new = true.
Proof.
  induction names as [|l names IH]; intros st Hc Hok.
  - exists st. split; [reflexivity|]. split; [now apply updates_refl|].
    split; [contradiction|]. exists []. auto.
  - destruct (evaluate_with_run method l st Hc Hok)
      as (st1 & Hrun & Hup & Hrec & (n1 & E1 & F1)).
    pose proof Hup as (Hc1 & Hok1 & _).
    destruct (IH st1 Hc1 Hok1) as (st' & Hrun' & Hup' & Hrec' & (n2 & E2 & F2)).
    exists st'. split.
    { cbn [for_each]. rewrite bind_ok with (a := tt) (st1 := st1) by exact Hrun.
      exact Hrun'. }
    split; [eapply updates_trans; eassumption|]. split.
    + intros l' [<-|Hin]; [|now apply Hrec'].
      destruct Hup' as (_ & _ & _ & _ & Hmono). now apply Hmono.
    + exists (n2 ++ n1). rewrite E2, E1, app_assoc, forallb_app, F1, F2. auto.
Qed.

Lemma results_ok_dict r : results_ok r = true -> exists d, r = VDict d.
Proof. destruct r; try discriminate. eauto. Qed.

(** One method: skipped when present; otherwise every backend is
    asked and the loop reaches the check-point. *)
Lemma process_method_run output_dir idx method st :
  results_ok (results st) = true ->
  (In (signature method) (top_keys (results st)) /\
   process_method self output_dir idx method st = (Ok tt, logged INFO st)) \/
  (~ In (signature method) (top_keys (results st)) /\
   exists st1,
     process_method self output_dir idx method st
       = checkpoint_if_due output_dir idx st1 /\
     results_ok (results st1) = true /\
     top_keys (results st1) = top_keys (results st) ++ [signature method] /\
     (forall k, k <> signature method ->
                entry (results st1) k = entry (results st) k) /\
     complete (results st1) (signature method) /\
     exists new, effects st1 = new ++ effects st /\
                 forallb is_net_event new = true).
Proof.
  intros Hok. destruct (results_ok_dict _ Hok) as (d & Hd).
  unfold process_method.
  rewrite bind_ok with (a := results st) (st1 := st) by reflexivity.
  rewrite Hd. cbn [py_contains]. rewrite bind_lift_ok.
  destruct (dict_has d (signature method)) eqn:Hhas.
  - left. split; [|reflexivity]. simpl. now apply dict_has_keys.
  - right. split.
    { simpl. rewrite <- dict_has_keys. congruence. }
    rewrite bind_ok with (a := tt) (st1 := logged INFO st) by reflexivity.
    destruct (now_isoformat (world st)) as [now w] eqn:Hnow.
    set (st_a := State w (EvLog INFO :: effects st) (results st)).
    rewrite bind_ok with (a := now) (st1 := st_a)
      by (unfold with_world; simpl; now rewrite Hnow).
    rewrite bind_ok with (a := results st) (st1 := st_a) by reflexivity.
    rewrite Hd. cbn [py_setitem]. rewrite bind_lift_ok.
    set (r_b := VDict (dict_set d (signature method) (new_entry method now))).
    set (st_b := State w (EvLog INFO :: effects st) r_b).
    rewrite bind_ok with (a := tt) (st1 := st_b) by reflexivity.
    assert (Hc : current (results st_b) (signature method)).
    { simpl. unfold r_b. eexists _, _, [], [].
      split; [reflexivity|]. split; [apply dict_get_set_same|].
      split; reflexivity. }
    assert (Hokb : results_ok (results st_b) = true).
    { simpl. rewrite Hd in Hok. simpl in Hok.
      apply forallb_dict_set; [exact Hok|reflexivity]. }
    destruct (for_each_evaluate_with method (dict_keys LLM_CONFIGS) st_b Hc Hokb)
      as (st1 & Hrun & (_ & Hok1 & K1 & E1 & _) & Hrec & (n1 & Ef & F1)).
    exists st1. split.
    { rewrite bind_ok with (a := tt) (st1 := st1) by exact Hrun. reflexivity. }
    split; [exact Hok1|]. split.
    { rewrite K1. simpl. unfold r_b. rewrite ?Hd. simpl.
      now rewrite dict_keys_set, Hhas. }
    split.
    { intros k Hk. rewrite (E1 k Hk). simpl. unfold r_b. rewrite ?Hd. simpl.
      now apply dict_get_set_other. }
    split; [exact Hrec|].
    exists (n1 ++ [EvLog INFO]). rewrite Ef. simpl.
    rewrite <- app_assoc, forallb_app, F1. auto.
Qed.

(** *** The check-point *)

Lemma progress_summary_inner rs : forall counts,
  forallb (fun kv => is_dict (snd kv)) rs = true ->
  exists c,
    res_for_each (dict_values rs)
      (fun (counts : Z * Z) llm_result =>
         (success <- py_dict_get llm_result "success" (VBool false) ;;
          Ok (if py_truthy success
              then (fst counts + 1, snd counts)
              else (fst counts, snd counts + 1))%Z)%res)
      counts = Ok c.
Proof.
  induction rs as [|[k v] rs IH]; intros counts H; simpl in *.
  - eauto.
  - apply andb_true_iff in H as [Hv Hrs].
    destruct v; try discriminate. simpl.
    destruct (dict_get entries (str "success")); simpl; apply IH; exact Hrs.
Qed.

Lemma progress_summary_ok r :
  results_ok r = true -> exists c, create_progress_summary r = Ok c.
Proof.
  intros Hok. destruct r as [| | | | | |d]; try discriminate.
  unfold create_progress_summary. cbn [py_values res_bind].
  simpl in Hok.
  assert (H : forall counts, exists c,
            res_for_each (dict_values d)
              (fun counts method_result =>
                 (responses <- py_dict_get method_result "llm_responses" (VDict []) ;;
                  llm_results <- py_values responses ;;
                  res_for_each llm_results
                    (fun (counts : Z * Z) llm_result =>
                       success <- py_dict_get llm_result "success" (VBool false) ;;
                       Ok (if py_truthy success
                           then (fst counts + 1, snd counts)
                           else (fst counts, snd counts + 1))%Z)
                    counts)%res)
              counts = Ok c).
  { induction d as [|[k v] d IH]; intros counts; simpl in *.
    - eauto.
    - apply andb_true_iff in Hok as [Hv Hd].
      destruct v as [| | | | | |e]; try discriminate. simpl in Hv.
      unfold py_dict_get at 1.
      destruct (dict_get e (str "llm_responses")) as [x|] eqn:Ex.
      + destruct x as [| | | | | |rs]; try discriminate.
        cbn [res_bind py_values].
        destruct (progress_summary_inner rs counts Hv) as (c & Hc).
        rewrite Hc. cbn [res_bind]. now apply IH.
      + cbn [res_bind py_values dict_values map res_for_each]. now apply IH. }
  destruct (H (0, 0)%Z) as (c & Hc). rewrite Hc. cbn [res_bind]. eauto.
Qed.

Lemma keeps_results_save_json data path : keeps_results (save_json data path).
Proof.
  intros st r st' H. unfold save_json in H.
  apply catch_inv in H as [(a & H & _)|(e & st1 & H & Hh)].
  - apply bind_inv in H as [(? & ? & H1 & H)|(? & H1 & ?)]; [|discriminate].
    apply emit_inv in H1 as [_ ->].
    apply bind_inv in H as [(? & ? & H1 & H)|(? & H1 & ?)]; [|discriminate].
    apply with_world_res_inv in H1 as (? & _ & ->).
    apply emit_inv in H as [_ ->]. reflexivity.
  - apply bind_inv in Hh as [(? & ? & H1 & Hh)|(? & H1 & ?)].
    2:{ apply emit_inv in H1 as [H1 _]. discriminate. }
    apply emit_inv in H1 as [_ ->]. apply raise_inv in Hh as [_ ->]. simpl.
    apply bind_inv in H as [(? & ? & H1 & H)|(? & H1 & ?)].
    2:{ apply emit_inv in H1 as [H1 _]. discriminate. }
    apply emit_inv in H1 as [_ ->].
    apply bind_inv in H as [(? & ? & H1 & H)|(? & H1 & ?)].
    + apply with_world_res_inv in H1 as (? & _ & ->).
      apply emit_inv in H as [H _]. discriminate.
    + apply with_world_res_inv in H1 as (? & _ & ->). reflexivity.
Qed.

Lemma keeps_results_bind {A B} (c : M A) (k : A -> M B) :
  keeps_results c -> (forall a, keeps_results (k a)) ->
  keeps_results (bind c k).
Proof.
  intros Hc Hk st r st' H.
  apply bind_inv in H as [(a & st1 & H1 & H2)|(e & H1 & _)].
  - apply Hc in H1. apply Hk in H2. congruence.
  - now apply Hc in H1.
Qed.

Lemma keeps_results_frame {A} (c : M A) : frame c -> keeps_results c.
Proof. intros Hc st r st' H. now apply Hc in H. Qed.

Lemma keeps_results_get_results : keeps_results get_results.
Proof. intros st r st' H. inversion H. reflexivity. Qed.

Lemma keeps_results_save_progress out : keeps_results (save_progress out).
Proof.
  unfold save_progress.
  repeat (apply keeps_results_bind; [|intros ?]);
    auto using keeps_results_get_results, keeps_results_save_json,
               keeps_results_frame, frame_lift, frame_log.
Qed.

Lemma keeps_results_checkpoint out idx :
  keeps_results (checkpoint_if_due out idx).
Proof.
  unfold checkpoint_if_due.
  apply keeps_results_bind; [apply keeps_results_frame, frame_lift|].
  intros r. destruct (r =? 0)%Z;
    [apply keeps_results_save_progress|apply keeps_results_frame, frame_ret].
Qed.

Lemma save_json_run data path st :
  storage_accepts ->
  exists w,
    save_json data path st
    = (Ok tt, State w (EvLog INFO :: EvWrite path data :: effects st)
                      (results st)).
Proof.
  intros Hs. unfold save_json, catch, bind, emit, with_world_res, log, emit.
  simpl. destruct (Hs path data (world st)) as (w & Hw). rewrite Hw.
  simpl. eauto.
Qed.

Lemma checkpoint_run out idx st :
  storage_accepts ->
  PROGRESS_SAVE_INTERVAL <> 0%Z ->
  results_ok (results st) = true ->
  exists st',
    checkpoint_if_due out idx st = (Ok tt, st') /\
    results st' = results st /\
    exists new,
      effects st' = new ++ effects st /\
      writes new =
      if ((idx + 1) mod PROGRESS_SAVE_INTERVAL =? 0)%Z
      then [(progress_file out, results st)] else [].
Proof.
  intros Hs Hn Hok. unfold checkpoint_if_due, py_mod.
  destruct (PROGRESS_SAVE_INTERVAL =? 0)%Z eqn:E0;
    [apply Z.eqb_eq in E0; contradiction|].
  rewrite bind_lift_ok.
  destruct ((idx + 1) mod PROGRESS_SAVE_INTERVAL =? 0)%Z.
  - unfold save_progress.
    rewrite bind_ok with (a := results st) (st1 := st) by reflexivity.
    destruct (save_json_run (results st) (progress_file out) st Hs) as (w & Hw).
    erewrite bind_ok by exact Hw.
    erewrite bind_ok by reflexivity.
    destruct (progress_summary_ok _ Hok) as (c & Hc). simpl results.
    rewrite Hc, bind_lift_ok.
    eexists. split; [reflexivity|]. split; [reflexivity|].
    eexists [_; _; _]. split; reflexivity.
  - exists st. split; [reflexivity|]. split; [reflexivity|].
    exists []. auto.
Qed.

(** *** The main loop *)

Lemma mem_In s l : mem s l = true <-> In s l.
Proof.
  unfold mem. rewrite existsb_exists. split.
  - intros (x & Hx & E). apply str_eqb_spec in E. now subst.
  - intros H. exists s. split; [exact H|apply str_eqb_refl].
Qed.

Lemma mem_not_In s l : mem s l = false <-> ~ In s l.
Proof.
  rewrite <- mem_In. destruct (mem s l); split; intros H; congruence.
Qed.

Lemma entry_top_keys r k v : entry r k = Some v -> In k (top_keys r).
Proof.
  destruct r; try discriminate. simpl. intros H.
  apply dict_has_keys. unfold dict_has. now rewrite H.
Qed.

Lemma top_keys_entry r k : In k (top_keys r) -> exists v, entry r k = Some v.
Proof.
  destruct r; try contradiction. simpl. intros H.
  apply dict_has_keys in H. unfold dict_has in H.
  destruct (dict_get entries k); [eauto|discriminate].
Qed.

Lemma complete_entry r r' sig :
  entry r' sig = entry r sig -> complete r sig -> complete r' sig.
Proof.
  intros He Hc l Hl. rewrite (recorded_entry _ _ _ _ He). now apply Hc.
Qed.

Lemma evaluation_loop_run out methods : forall idx st,
  storage_accepts ->
  PROGRESS_SAVE_INTERVAL <> 0%Z ->
  results_ok (results st) = true ->
  exists st',
    evaluation_loop self out idx methods st = (Ok tt, st') /\
    results_ok (results st') = true /\
    (forall k v, entry (results st) k = Some v ->
                 entry (results st') k = Some v) /\
    (forall m, In m methods ->
               ~ In (signature m) (top_keys (results st)) ->
               complete (results st') (signature m)) /\
    top_keys (results st') =
      final_keys (top_keys (results st)) (map signature methods) /\
    exists new,
      effects st' = new ++ effects st /\
      map summary_of_write (writes new) =
      map (fun ks => (progress_file out, ks))
          (expected_checkpoints PROGRESS_SAVE_INTERVAL idx
             (top_keys (results st)) (map signature methods)).
Proof.
  induction methods as [|m methods IH]; intros idx st Hs Hn Hok.
  - exists st. split; [reflexivity|]. split; [exact Hok|].
    split; [auto|]. split; [intros m []|]. split; [reflexivity|].
    exists []. split; reflexivity.
  - cbn [evaluation_loop map expected_checkpoints final_keys].
    destruct (process_method_run out idx m st Hok)
      as [[Hin Hrun]|(Hnin & st1 & Hrun & Hok1 & K1 & E1 & C1 & (n1 & Ef1 & F1))].
    + (* skipped *)
      rewrite (proj2 (mem_In _ _) Hin).
      destruct (IH (idx + 1)%Z (logged INFO st) Hs Hn Hok)
        as (st' & Hl & Hok' & Hen & Hc & Hk & (n2 & Ef2 & Hw)).
      exists st'. split.
      { rewrite bind_ok with (a := tt) (st1 := logged INFO st) by exact Hrun.
        exact Hl. }
      split; [exact Hok'|]. split; [exact Hen|]. split.
      { intros m' [<-|Hin'] Hnot; [contradiction|now apply Hc]. }
      split; [exact Hk|].
      exists (n2 ++ [EvLog INFO]). rewrite Ef2. simpl.
      rewrite <- app_assoc. split; [reflexivity|].
      rewrite writes_app. exact Hw.
    + (* processed *)
      rewrite (proj2 (mem_not_In _ _) Hnin).
      destruct (checkpoint_run out idx st1 Hs Hn Hok1)
        as (st2 & Hcp & R2 & (n2 & Ef2 & W2)).
      assert (Hok2 : results_ok (results st2) = true) by now rewrite R2.
      destruct (IH (idx + 1)%Z st2 Hs Hn Hok2)
        as (st' & Hl & Hok' & Hen & Hc & Hk & (n3 & Ef3 & Hw)).
      rewrite R2 in Hen, Hc, Hk, Hw. rewrite K1 in Hc, Hk, Hw.
      exists st'. split.
      { rewrite bind_ok with (a := tt) (st1 := st2)
          by (rewrite Hrun; exact Hcp).
        exact Hl. }
      split; [exact Hok'|]. split.
      { intros k v Hkv. apply Hen. rewrite E1; [exact Hkv|].
        intros ->. apply entry_top_keys in Hkv. contradiction. }
      split.
      { intros m' [<-|Hin'] Hnot.
        - destruct (top_keys_entry (results st1) (signature m)) as (v & Hv).
          { rewrite K1. apply in_or_app. right. now left. }
          apply complete_entry with (r := results st1); [|exact C1].
          rewrite Hv. now apply Hen.
        - destruct (mem (signature m') [signature m]) eqn:Em.
          + apply mem_In in Em as [Em|[]].
            destruct (top_keys_entry (results st1) (signature m)) as (v & Hv).
            { rewrite K1. apply in_or_app. right. now left. }
            rewrite <- Em.
            apply complete_entry with (r := results st1); [|exact C1].
            rewrite Hv. now apply Hen.
          + apply mem_not_In in Em. apply Hc; [exact Hin'|].
            intros Hx. apply in_app_or in Hx as [Hx|Hx]; contradiction. }
      split; [exact Hk|].
      exists (n3 ++ n2 ++ n1). rewrite Ef3, Ef2, Ef1, <- !app_assoc.
      split; [reflexivity|].
      rewrite !writes_app, (writes_net _ F1), W2. simpl.
      rewrite !map_app, Hw.
      destruct ((idx + 1) mod PROGRESS_SAVE_INTERVAL =? 0)%Z;
        [|reflexivity].
      simpl. unfold summary_of_write at 1. simpl. now rewrite K1.
Qed.

(** Without any assumption on the storage: if the loop comes to its
    end, every signature of the list is in the result set. *)
Lemma evaluation_loop_done out methods : forall idx st st',
  results_ok (results st) = true ->
  evaluation_loop self out idx methods st = (Ok tt, st') ->
  results_ok (results st') = true /\
  (forall k, In k (top_keys (results st)) -> In k (top_keys (results st'))) /\
  (forall m, In m methods -> In (signature m) (top_keys (results st'))).
Proof.
  induction methods as [|m methods IH]; intros idx st st' Hok H.
  - apply ret_inv in H as [_ ->].
    split; [exact Hok|]. split; [auto|]. intros m [].
  - cbn [evaluation_loop] in H.
    apply bind_inv in H as [([] & st2 & Hp & H)|(? & _ & ?)]; [|discriminate].
    destruct (process_method_run out idx m st Hok)
      as [[Hin Hrun]|(Hnin & st1 & Hrun & Hok1 & K1 & E1 & C1 & _)].
    + rewrite Hrun in Hp. inversion Hp; subst st2.
      destruct (IH _ (logged INFO st) _ Hok H) as (Hok' & Hmono & Hall).
      split; [exact Hok'|]. split; [exact Hmono|].
      intros m' [<-|Hin']; [now apply Hmono|now apply Hall].
    + rewrite Hrun in Hp.
      pose proof (keeps_results_checkpoint out idx _ _ _ Hp) as R2.
      assert (Hok2 : results_ok (results st2) = true) by now rewrite R2.
      destruct (IH _ _ _ Hok2 H) as (Hok' & Hmono & Hall).
      rewrite R2, K1 in Hmono.
      split; [exact Hok'|]. split.
      { intros k Hk. apply Hmono, in_or_app. now left. }
      intros m' [<-|Hin']; [|now apply Hall].
      apply Hmono, in_or_app. right. now left.
Qed.

(** A result set that holds every signature of the list: every method
    is skipped, nothing changes but the log. *)
Lemma evaluation_loop_all_present out methods : forall idx st,
  results_ok (results st) = true ->
  (forall m, In m methods -> In (signature m) (top_keys (results st))) ->
  evaluation_loop self out idx methods st
  = (Ok tt, State (world st)
                  (repeat (EvLog INFO) (length methods) ++ effects st)
                  (results st)).
Proof.
  induction methods as [|m methods IH]; intros idx st Hok Hall.
  - destruct st. reflexivity.
  - cbn [evaluation_loop].
    destruct (process_method_run out idx m st Hok)
      as [[Hin Hrun]|(Hnin & _)].
    + rewrite bind_ok with (a := tt) (st1 := logged INFO st) by exact Hrun.
      rewrite IH; [|exact Hok|intros m' Hm'; apply Hall; now right].
      simpl. f_equal. f_equal.
      change (EvLog INFO :: effects st) with ([EvLog INFO] ++ effects st).
      rewrite app_assoc. f_equal.
      change (EvLog INFO :: repeat (EvLog INFO) (length methods))
        with (repeat (EvLog INFO) (S (length methods))).
      now rewrite <- repeat_cons.
    + exfalso. apply Hnin, Hall. now left.
Qed.

(** *** Text *)



(** *** The similarity scorer *)

Lemma py_get_field fields k v :
  dict_get fields (str k) = Some v -> py_get (VDict fields) k = Ok v.
Proof. intros H. unfold py_get, py_getitem. now rewrite H. Qed.

Lemma combined_text_of_text_record v p t d :
  text_record v p t d ->
  combined_text v =
  Ok (VStr ((((p ++ str " Returns ") ++ t) ++ str ": ") ++ d)).
Proof.
  intros (fields & rv & -> & Hp & Hr & Ht & Hd). unfold combined_text.
  rewrite (py_get_field _ _ _ Hp). cbn [res_bind py_concat].
  rewrite (py_get_field _ _ _ Hr). cbn [res_bind].
  rewrite (py_get_field _ _ _ Ht). cbn [res_bind py_concat].
  rewrite (py_get_field _ _ _ Hd). reflexivity.
Qed.

Lemma similarity_body_of_text_records gt pg tg dg llm pl tl dl :
  text_record gt pg tg dg ->
  text_record llm pl tl dl ->
  exists purpose_sim return_desc_sim overall_sim,
    similarity_body gt llm =
    Ok (VDict [ (str "purpose_similarity", VFloat purpose_sim);
                (str "return_type_match",
                 VBool (str_eqb (strip (str_lower tg))
                                (strip (str_lower tl))));
                (str "return_desc_similarity", VFloat return_desc_sim);
                (str "overall_similarity", VFloat overall_sim);
                (str "success", VBool true) ]).
Proof.
  intros Hg Hl.
  pose proof (combined_text_of_text_record _ _ _ _ Hg) as Cg.
  pose proof (combined_text_of_text_record _ _ _ _ Hl) as Cl.
  destruct Hg as (fg & rg & -> & Hpg & Hrg & Htg & Hdg).
  destruct Hl as (fl & rl & -> & Hpl & Hrl & Htl & Hdl).
  unfold similarity_body.
  rewrite (py_get_field _ _ _ Hpg), (py_get_field _ _ _ Hpl). cbn [res_bind].
  rewrite (py_get_field _ _ _ Hrg), (py_get_field _ _ _ Hrl). cbn [res_bind].
  rewrite (py_get_field _ _ _ Htg), (py_get_field _ _ _ Htl). cbn [res_bind lower_strip].
  rewrite (py_get_field _ _ _ Hdg), (py_get_field _ _ _ Hdl). cbn [res_bind].
  rewrite Cg, Cl. cbn [res_bind]. eauto.
Qed.

(** C8, with the condition the scorer needs.  When [purpose_behavior],
    [return_values.type] and [return_values.description] are text in both
    the ground-truth record and the parsed response, the scorer succeeds,
    leaves the state alone, and its [return_type_match] is true exactly
    when the two types are equal after lowercasing and stripping
    surrounding whitespace. *)
Theorem return_type_match_of_text_records gt pg tg dg llm pl tl dl st :
  text_record gt pg tg dg ->
  text_record llm pl tl dl ->
  exists scores,
    calculate_method_similarity gt llm st = (Ok scores, st) /\
    py_get scores "success" = Ok (VBool true) /\
    py_get scores "return_type_match" =
      Ok (VBool (str_eqb (strip (str_lower tg)) (strip (str_lower tl)))) /\
    (py_get scores "return_type_match" = Ok (VBool true) <->
     strip (str_lower tg) = strip (str_lower tl)).
Proof.
  intros Hg Hl.
  destruct (similarity_body_of_text_records _ _ _ _ _ _ _ _ Hg Hl) as (s1 & s2 & s3 & Hb).
  unfold calculate_method_similarity. rewrite Hb.
  eexists. split; [reflexivity|]. split; [reflexivity|].
  split; [reflexivity|].
  change (py_get _ "return_type_match")
    with (@Ok pyval (VBool (str_eqb (strip (str_lower tg)) (strip (str_lower tl))))).
  rewrite <- str_eqb_spec. split; intros H; [now inversion H|now rewrite H].
Qed.

(** C1 fails in the code.  On raw text that decodes to a number, a
    boolean or null, the membership test [in] on the decoded value raises
    [TypeError]; neither handler of [parse_llm_response] takes it, as it is
    no [ValueError], and it leaves the parser. *)
Theorem parser_raises_on_non_object_documents :
  parse_llm_response (VStr (str "5")) = Err (fault TypeError (VInt 5)) /\
  parse_llm_response (VStr (str "true")) = Err (fault TypeError (VBool true)) /\
  parse_llm_response (VStr (str "null")) = Err (fault TypeError VNone).
Proof. repeat split; reflexivity. Qed.


(** Whatever delay the backend is configured with, the only waits of
    [evaluate_method] are the backoffs between attempts; a request answered
    at its first attempt does not wait at all. *)
Lemma waits_are_the_backoffs method_signature llm_name config delay st :
  (1 <= MAX_RETRIES <= 34)%Z ->
  dict_get LLM_CONFIGS llm_name = Some config ->
  py_get config "rate_limit_delay" = Ok delay ->
  exists (n : Z) result st' new,
    evaluate_method self method_signature llm_name st = (Ok result, st') /\
    effects st' = new ++ effects st /\
    py_get result "attempt" = Ok (VInt n) /\
    sleeps new = map VInt (backoffs n) /\
    (n = 1%Z -> sleeps new = []).
Proof.
  intros Hk Hc _.
  destruct (evaluate_method_run method_signature llm_name config st Hk Hc)
    as (n & result & st' & new & stn & Hrun & Hn & _ & He & Hp & Hs & Hr & Hd).
  exists n, result, st', new.
  split; [exact Hrun|]. split; [exact He|].
  assert (Ha : forall a, (a - 1 + 1 = a)%Z) by (intros; lia).
  split.
  - destruct Hd as [(raw & parsed & now & Hb & _ & ->)|(-> & e & st1 & now & Hb & ->)];
      unfold py_get; cbn; now rewrite Ha.
  - split; [exact Hs|]. intros ->. exact Hs.
Qed.


Lemma post_run rq st x w' :
  requests_post rq (world st) = (x, w') ->
  post rq st = (x, State w' (EvPost rq :: effects st) (results st)).
Proof.
  intros H. unfold post, bind, emit, with_world_res. simpl. now rewrite H.
Qed.

Lemma first_item x l : py_getitem (VList (x :: l)) (VInt 0) = Ok x.
Proof.
  unfold py_getitem, seq_index. cbn [Z.ltb Z.compare].
  replace ((0 <=? 0)%Z && (0 <? Z.of_nat (length (x :: l)))%Z) with true.
  - reflexivity.
  - symmetry. apply andb_true_iff. split; [reflexivity|].
    apply Z.ltb_lt. simpl length. lia.
Qed.

Lemma py_get_dict_inv v (k : string) x :
  py_get v k = Ok x -> exists d, v = VDict d /\ dict_get d (str k) = Some x.
Proof.
  unfold py_get, py_getitem. intros H.
  destruct v as [| | | | | |d]; try discriminate H.
  destruct (dict_get d (str k)) as [y|] eqn:E; [|discriminate H].
  inversion H; subst. eauto.
Qed.

Lemma first_item_inv v x :
  py_getitem v (VInt 0) = Ok x ->
  (exists l, v = VList (x :: l)) \/ (exists c, x = VStr [c]).
Proof.
  unfold py_getitem. intros H.
  destruct v as [| | | |t|l|d]; try discriminate H.
  - destruct (seq_index t 0); [|discriminate H].
    inversion H. eauto.
  - unfold seq_index in H. cbn [Z.ltb Z.compare] in H.
    destruct ((0 <=? 0)%Z && (0 <? Z.of_nat (length l))%Z);
      [|discriminate H].
    destruct l as [|y l]; [discriminate H|]. cbn in H.
    inversion H. eauto.
Qed.

(** [first_message_content] returns exactly on the bodies that have the
    first message and its content. *)
Lemma first_message_content_ok resp content :
  first_message_content resp = Ok content <-> has_first_message resp content.
Proof.
  unfold first_message_content, response_json, json_loads_res,
    has_first_message.
  split.
  - destruct (json_loads (text resp)) as [b|]; [|discriminate].
    cbn [res_bind].
    destruct (py_get b "choices") as [cs|] eqn:E1; [|discriminate].
    cbn [res_bind].
    destruct (py_getitem cs (VInt 0)) as [f|] eqn:E2; [|discriminate].
    cbn [res_bind].
    destruct (py_get f "message") as [m|] eqn:E3; [|discriminate].
    cbn [res_bind]. intros E4.
    apply py_get_dict_inv in E1 as (body & -> & E1).
    apply py_get_dict_inv in E3 as (first & -> & E3).
    apply py_get_dict_inv in E4 as (message & -> & E4).
    apply first_item_inv in E2 as [(l & ->)|(c & ?)]; [|discriminate].
    exists body, l, first, message. auto.
  - intros (body & choices & first & message & Hb & Hc & Hf & Hm).
    rewrite Hb. cbn [res_bind].
    rewrite (py_get_field _ _ _ Hc). cbn [res_bind].
    rewrite first_item. cbn [res_bind].
    rewrite (py_get_field _ _ _ Hf). cbn [res_bind].
    apply (py_get_field _ _ _ Hm).
Qed.

(** C7, with success read as status 200 and a body that has the
    message.  For every response the hosted backend gives to the request
    of [query_openai]: status 429 raises "Rate limit exceeded"; every other
    status that is not 200, the other 2xx ones included, raises "OpenAI API
    error" with the status code and the response body; status 200 gives
    what [first_message_content] finds.  That is a value exactly when the
    body decodes to an object whose [choices] is a list whose first
    element is an object with a [message], itself an object with a
    [content], and the value is this content; on any other body it is the
    exception raised on the way, which leaves the client. *)
Theorem hosted_status_classification prompt config model temperature
    max_tokens st resp w' :
  py_get config "model" = Ok model ->
  py_get config "temperature" = Ok temperature ->
  py_get config "max_tokens" = Ok max_tokens ->
  requests_post (openai_request self prompt model temperature max_tokens)
                (world st) = (Ok resp, w') ->
  exists r st',
    query_openai self prompt config st = (r, st') /\
    ((status_code resp = 429)%Z ->
       r = Err (Raised PlainException (str "Rate limit exceeded"))) /\
    ((status_code resp <> 200)%Z -> (status_code resp <> 429)%Z ->
       r = Err (Raised PlainException
                  (str "OpenAI API error: "
                     ++ str_of_int (status_code resp)
                     ++ str " - " ++ text resp))) /\
    ((status_code resp = 200)%Z -> r = first_message_content resp) /\
    (forall body choices first message content,
       (status_code resp = 200)%Z ->
       json_loads (text resp) = Some (VDict body) ->
       dict_get body (str "choices") = Some (VList (VDict first :: choices)) ->
       dict_get first (str "message") = Some (VDict message) ->
       dict_get message (str "content") = Some content ->
       r = Ok content) /\
    ((status_code resp = 200)%Z ->
     (forall content, r = Ok content <-> has_first_message resp content) /\
     ((forall content, ~ has_first_message resp content) ->
      exists e, r = Err e)).
Proof.
  intros Hm Ht Hx Hq. unfold query_openai. rewrite Hm, Ht, Hx.
  rewrite !bind_lift_ok. erewrite bind_ok by (apply post_run; exact Hq).
  destruct (status_code resp =? 200)%Z eqn:E200.
  - apply Z.eqb_eq in E200. eexists. eexists. split; [reflexivity|].
    split; [intros; lia|]. split; [intros; lia|].
    split; [reflexivity|]. split.
    + intros body choices first message content _ Hb Hc Hf Hmsg.
      apply first_message_content_ok.
      exists body, choices, first, message. auto.
    + intros _. split; [apply first_message_content_ok|].
      intros Hno. destruct (first_message_content resp) as [content|e] eqn:E.
      * apply first_message_content_ok in E. now destruct (Hno content).
      * eauto.
  - apply Z.eqb_neq in E200.
    destruct (status_code resp =? 429)%Z eqn:E429.
    + apply Z.eqb_eq in E429. eexists. eexists. split; [reflexivity|].
      split; [reflexivity|]. split; [intros; lia|].
      split; [intros; lia|]. split; intros; lia.
    + apply Z.eqb_neq in E429. eexists. eexists. split; [reflexivity|].
      split; [intros; lia|]. split; [reflexivity|].
      split; [intros; lia|]. split; intros; lia.
Qed.

(** *** The steps of a run *)

Lemma run_without_resume gt out st :
  run_full_evaluation self gt out None st
  = evaluate_all self gt out (started st).
Proof.
  unfold run_full_evaluation, resume, bind, with_world, ret, started.
  destruct (time_time (world st)). reflexivity.
Qed.

Lemma sends_nothing_bind {A B} (c : M A) (k : A -> M B) :
  sends_nothing c -> (forall a, sends_nothing (k a)) ->
  sends_nothing (bind c k).
Proof.
  intros Hc Hk st r st' H.
  apply bind_inv in H as [(a & st1 & H1 & H2)|(e & H1 & _)].
  - apply Hc in H1 as (n1 & E1 & F1). apply Hk in H2 as (n2 & E2 & F2).
    exists (n2 ++ n1). rewrite E2, E1, app_assoc, posts_app. split; [auto|lia].
  - now apply Hc in H1.
Qed.

Lemma sends_nothing_catch {A} (c : M A) (h : exn -> M A) :
  sends_nothing c -> (forall e, sends_nothing (h e)) ->
  sends_nothing (catch c h).
Proof.
  intros Hc Hh st r st' H.
  apply catch_inv in H as [(a & H1 & _)|(e & st1 & H1 & H2)].
  - now apply Hc in H1.
  - apply Hc in H1 as (n1 & E1 & F1). apply Hh in H2 as (n2 & E2 & F2).
    exists (n2 ++ n1). rewrite E2, E1, app_assoc, posts_app. split; [auto|lia].
Qed.

Lemma sends_nothing_silent {A} (c : M A) :
  (forall st r st', c st = (r, st') -> effects st' = effects st) ->
  sends_nothing c.
Proof. intros Hc st r st' H. exists []. split; [now apply Hc in H|reflexivity]. Qed.

Lemma sends_nothing_emit e : is_post e = false -> sends_nothing (emit e).
Proof.
  intros He st r st' H. apply emit_inv in H as [_ ->]. exists [e].
  split; [reflexivity|]. unfold posts. simpl. now rewrite He.
Qed.

Lemma sends_nothing_ret {A} (a : A) : sends_nothing (ret a).
Proof. apply sends_nothing_silent. intros st r st' H. now apply ret_inv in H as [_ ->]. Qed.

Lemma sends_nothing_lift {A} (x : res A) : sends_nothing (lift x).
Proof. apply sends_nothing_silent. intros st r st' H. now apply lift_inv in H as [_ ->]. Qed.

Lemma sends_nothing_raise {A} e : sends_nothing (@raise _ A e).
Proof. apply sends_nothing_silent. intros st r st' H. now apply raise_inv in H as [_ ->]. Qed.

Lemma sends_nothing_with_world_res {A} (f : W -> res A * W) :
  sends_nothing (with_world_res f).
Proof.
  apply sends_nothing_silent. intros st r st' H.
  now apply with_world_res_inv in H as (w & _ & ->).
Qed.

Lemma sends_nothing_get_results : sends_nothing get_results.
Proof. apply sends_nothing_silent. intros st r st' H. now inversion H. Qed.

Lemma sends_nothing_set_results r : sends_nothing (set_results r).
Proof. apply sends_nothing_silent. intros st x st' H. now inversion H. Qed.

Ltac quiet :=
  repeat first
    [ apply sends_nothing_ret | apply sends_nothing_lift
    | apply sends_nothing_raise | apply sends_nothing_with_world_res
    | apply sends_nothing_get_results | apply sends_nothing_set_results
    | apply sends_nothing_emit; reflexivity
    | apply sends_nothing_bind; [|intros ?]
    | apply sends_nothing_catch; [|intros ?]
    | match goal with
      | |- sends_nothing (if ?b then _ else _) => destruct b
      end ].

Lemma sends_nothing_save_json data path : sends_nothing (save_json data path).
Proof. unfold save_json, log. quiet. Qed.

Lemma sends_nothing_finish_run out : sends_nothing (finish_run out).
Proof.
  unfold finish_run, save_final_results, generate_excel_report,
    print_evaluation_summary, log.
  quiet; apply sends_nothing_save_json.
Qed.

Lemma sends_nothing_load path : sends_nothing (load_ground_truth path).
Proof. unfold load_ground_truth, log. quiet. Qed.

Lemma keeps_results_emit e : keeps_results (emit e).
Proof. intros st r st' H. now apply emit_inv in H as [_ ->]. Qed.

Lemma keeps_results_finish_run out : keeps_results (finish_run out).
Proof.
  unfold finish_run, save_final_results, generate_excel_report,
    print_evaluation_summary, log.
  repeat (apply keeps_results_bind; [|intros ?]);
    auto using keeps_results_get_results, keeps_results_save_json,
               keeps_results_frame, frame_lift, keeps_results_emit.
Qed.

Lemma keeps_results_load path : keeps_results (load_ground_truth path).
Proof.
  unfold load_ground_truth.
  intros st r st' H.
  apply catch_inv in H as [(a & H & _)|(e & st1 & H & Hh)].
  - revert H. apply keeps_results_bind; [apply keeps_results_emit|intros ?].
    apply keeps_results_bind; [|intros ?].
    { intros s x s' Hx. now apply with_world_res_inv in Hx as (w & _ & ->). }
    apply keeps_results_bind; [apply keeps_results_frame, frame_lift|intros ?].
    apply keeps_results_bind; [apply keeps_results_emit|intros ?].
    apply keeps_results_frame, frame_ret.
  - assert (R1 : results st1 = results st).
    { revert H. apply keeps_results_bind; [apply keeps_results_emit|intros ?].
      apply keeps_results_bind; [|intros ?].
      { intros s x s' Hx. now apply with_world_res_inv in Hx as (w & _ & ->). }
      apply keeps_results_bind; [apply keeps_results_frame, frame_lift|intros ?].
      apply keeps_results_bind; [apply keeps_results_emit|intros ?].
      apply keeps_results_frame, frame_ret. }
    rewrite <- R1. revert Hh.
    destruct (is_a (exn_kind_of e) FileNotFoundError);
      [|destruct (is_a (exn_kind_of e) JSONDecodeError)].
    + apply keeps_results_bind; [apply keeps_results_emit|intros ?].
      apply keeps_results_frame, frame_raise.
    + apply keeps_results_bind; [apply keeps_results_emit|intros ?].
      apply keeps_results_frame, frame_raise.
    + apply keeps_results_frame, frame_raise.
Qed.


Lemma truthy_path path : path <> [] -> py_truthy (VStr path) = true.
Proof. destruct path; [congruence|reflexivity]. Qed.

Lemma load_run path st doc w' v :
  read_text path (world st) = (Ok doc, w') ->
  json_loads doc = Some v ->
  load_ground_truth path st
  = (Ok v, State w' (EvLog INFO :: EvRead path :: effects st) (results st)).
Proof.
  intros Hr Hd.
  unfold load_ground_truth, catch, bind, emit, with_world_res, lift, log,
    emit, ret, json_loads_res.
  simpl. rewrite Hr, Hd. reflexivity.
Qed.

Lemma load_fails path st :
  (exists e w', read_text path (world st) = (Err e, w')) \/
  (exists doc w', read_text path (world st) = (Ok doc, w') /\
                  json_loads doc = None) ->
  exists e st_f new,
    load_ground_truth path st = (Err e, st_f) /\
    results st_f = results st /\
    effects st_f = new ++ effects st /\
    posts new = 0%nat /\ writes new = [].
Proof.
  intros [(e & w' & Hr)|(doc & w' & Hr & Hd)].
  - unfold load_ground_truth, catch.
    rewrite bind_ok with (a := tt)
      (st1 := State (world st) (EvRead path :: effects st) (results st))
      by reflexivity.
    rewrite bind_err with (e := e)
      (st1 := State w' (EvRead path :: effects st) (results st))
      by (unfold with_world_res; simpl; now rewrite Hr).
    destruct (is_a (exn_kind_of e) FileNotFoundError);
      [|destruct (is_a (exn_kind_of e) JSONDecodeError)].
    + exists e; eexists; exists [EvLog ERROR; EvRead path];
        (split; [reflexivity|]); repeat split.
    + exists e; eexists; exists [EvLog ERROR; EvRead path];
        (split; [reflexivity|]); repeat split.
    + exists e; eexists; exists [EvRead path];
        (split; [reflexivity|]); repeat split.
  - unfold load_ground_truth, catch.
    rewrite bind_ok with (a := tt)
      (st1 := State (world st) (EvRead path :: effects st) (results st))
      by reflexivity.
    rewrite bind_ok with (a := doc)
      (st1 := State w' (EvRead path :: effects st) (results st))
      by (unfold with_world_res; simpl; now rewrite Hr).
    unfold json_loads_res. rewrite Hd.
    rewrite bind_err with (e := fault JSONDecodeError (VStr doc))
      (st1 := State w' (EvRead path :: effects st) (results st))
      by reflexivity.
    eexists; eexists; exists [EvLog ERROR; EvRead path];
      (split; [reflexivity|]); repeat split.
Qed.

(** C10.  If the file to resume from cannot be read, or its text is no
    JSON document, loading it sends no request and writes no file, a
    warning is logged, the result set is left as it was (empty, for a new
    evaluator), and the run goes on through [evaluate_all], as a run that
    was asked for no resume does. *)
Theorem unreadable_resume_file_is_ignored gt out path st :
  path <> [] ->
  (exists e w', read_text path (world (started st)) = (Err e, w')) \/
  (exists doc w', read_text path (world (started st)) = (Ok doc, w') /\
                  json_loads doc = None) ->
  exists st_w new,
    run_full_evaluation self gt out (Some path) st
      = evaluate_all self gt out st_w /\
    run_full_evaluation self gt out None st
      = evaluate_all self gt out (started st) /\
    results st_w = results st /\
    effects st_w = EvLog WARNING :: new ++ effects st /\
    posts new = 0%nat /\ writes new = [].
Proof.
  intros Hp Hbad.
  destruct (load_fails path (started st) Hbad)
    as (e & st_f & new & Hl & R & E & P & Wr).
  exists (logged WARNING st_f), new.
  split; [|split; [apply run_without_resume|]].
  - unfold run_full_evaluation.
    rewrite bind_ok with (a := fst (time_time (world st))) (st1 := started st).
    2:{ unfold with_world, started. now destruct (time_time (world st)). }
    rewrite bind_ok with (a := tt) (st1 := logged WARNING st_f); [reflexivity|].
    unfold resume. rewrite (truthy_path _ Hp). unfold catch.
    rewrite bind_err with (e := e) (st1 := st_f) by exact Hl.
    reflexivity.
  - simpl. rewrite R, E. auto.
Qed.

Lemma evaluate_all_inv gt out st r st' :
  evaluate_all self gt out st = (r, st') ->
  (exists st2,
     evaluation_loop self out 0 (get_method_list gt) (logged INFO st)
       = (Ok tt, st2) /\
     finish_run out st2 = (r, st')) \/
  (exists e,
     evaluation_loop self out 0 (get_method_list gt) (logged INFO st)
       = (Err e, st') /\ r = Err e).
Proof.
  unfold evaluate_all. intros H.
  rewrite bind_ok with (a := tt) (st1 := logged INFO st) in H by reflexivity.
  apply bind_inv in H as [([] & st2 & Hl & H)|(e & Hl & ->)]; eauto.
Qed.

Lemma posts_repeat_log level n : posts (repeat (EvLog level) n) = 0%nat.
Proof. induction n as [|n IH]; [reflexivity|exact IH]. Qed.

(** C2.  Let a first run over a ground truth end normally, and let the
    resume file hold a JSON text of its final result set.  A second run
    over the same ground truth, resumed from that file, sends no request at
    all, and its result set is the one that was saved, at every signature. *)
Theorem resume_is_idempotent gt out path doc st1 st1' st2 w' :
  results_ok (results st1) = true ->
  run_full_evaluation self gt out None st1 = (Ok tt, st1') ->
  path <> [] ->
  read_text path (world (started st2)) = (Ok doc, w') ->
  json_loads doc = Some (results st1') ->
  exists r st2' new,
    run_full_evaluation self gt out (Some path) st2 = (r, st2') /\
    effects st2' = new ++ effects st2 /\
    posts new = 0%nat /\
    results st2' = results st1' /\
    (forall m, In m (get_method_list gt) ->
               In (signature m) (top_keys (results st1'))).
Proof.
  intros Hok Hrun1 Hp Hr Hdoc.
  (* the first run *)
  rewrite run_without_resume in Hrun1.
  apply evaluate_all_inv in Hrun1 as [(st_l & Hloop & Hfin)|(e & _ & ?)];
    [|discriminate].
  pose proof (keeps_results_finish_run out _ _ _ Hfin) as Rfin.
  destruct (evaluation_loop_done out _ _ (logged INFO (started st1)) _ Hok Hloop)
    as (Hok_l & _ & Hall).
  rewrite <- Rfin in Hok_l, Hall.
  (* the second run *)
  set (s2 := State w' (EvLog INFO :: EvLog INFO :: EvRead path :: effects st2)
                   (results st1')).
  assert (Hres : run_full_evaluation self gt out (Some path) st2
                 = evaluate_all self gt out s2).
  { unfold run_full_evaluation.
    rewrite bind_ok with (a := fst (time_time (world st2))) (st1 := started st2).
    2:{ unfold with_world, started. now destruct (time_time (world st2)). }
    rewrite bind_ok with (a := tt) (st1 := s2); [reflexivity|].
    unfold resume. rewrite (truthy_path _ Hp). unfold catch.
    erewrite bind_ok by (eapply load_run; eassumption).
    reflexivity. }
  rewrite Hres. unfold evaluate_all.
  rewrite bind_ok with (a := tt) (st1 := logged INFO s2) by reflexivity.
  rewrite (bind_ok _ _ _ _ _
             (evaluation_loop_all_present out (get_method_list gt) 0
                (logged INFO s2) Hok_l Hall)).
  match goal with
  | |- context [finish_run out ?s] =>
      destruct (finish_run out s) as [r st2'] eqn:Hf
  end.
  pose proof (keeps_results_finish_run out _ _ _ Hf) as R2.
  destruct (sends_nothing_finish_run out _ _ _ Hf) as (n2 & E2 & P2).
  exists r, st2'. eexists. split; [reflexivity|].
  split; [|split; [|split; [exact R2|exact Hall]]].
  - rewrite E2. simpl.
    instantiate (1 := n2 ++ repeat (EvLog INFO) (length (get_method_list gt))
                         ++ [EvLog INFO; EvLog INFO; EvLog INFO; EvRead path]).
    now rewrite <- !app_assoc.
  - rewrite !posts_app, P2, posts_repeat_log. reflexivity.
Qed.

(** *** The cadence of the check-points *)





Lemma bind_assoc {A B C} (c : M A) (k : A -> M B) (k' : B -> M C) st :
  bind (bind c k) k' st = bind c (fun a => bind (k a) k') st.
Proof. unfold bind. destruct (c st) as [[a|e] s]; reflexivity. Qed.





End Properties.

(* ================================================================== *)
(** ** Further properties *)

(** *** What the parser returns, and when it raises *)

Section ParserOutcomes.

Context {rt : Runtime} {cfg : Settings} (self : LLMInterface).

Lemma parse_of_cleaned raw :
  parse_llm_response (VStr raw) =
  match json_loads (clean_response raw) with
  | None =>
      Ok (parse_error_record (clean_response raw)
            (fault JSONDecodeError (VStr (clean_response raw))))
  | Some v =>
      match validate_fields v with
      | Ok parsed => Ok parsed
      | Err e =>
          if is_a (exn_kind_of e) JSONDecodeError
          then Ok (parse_error_record (clean_response raw) e)
          else if is_a (exn_kind_of e) ValueError
          then Ok (validation_error_record e)
          else Err e
      end
  end.
Proof.
  unfold parse_llm_response, json_loads_res.
  destruct (json_loads (clean_response raw)); reflexivity.
Qed.

Lemma dict_has_get d k : dict_has d k = true -> exists v, dict_get d k = Some v.
Proof. unfold dict_has. destruct (dict_get d k); [eauto|discriminate]. Qed.

Lemma validate_fields_ok v parsed :
  validate_fields v = Ok parsed ->
  parsed = v /\
  exists fields return_values,
    v = VDict fields /\
    dict_has fields (str "purpose_behavior") = true /\
    dict_get fields (str "return_values") = Some return_values /\
    py_contains return_values (str "type") = Ok true /\
    py_contains return_values (str "description") = Ok true.
Proof.
  unfold validate_fields. intros H.
  destruct (py_contains v (str "purpose_behavior")) as [b1|] eqn:E1;
    cbn [res_bind] in H; [|discriminate].
  destruct b1; cbn [negb] in H; [|discriminate].
  destruct (py_contains v (str "return_values")) as [b2|] eqn:E2;
    cbn [res_bind] in H; [|discriminate].
  destruct b2; cbn [negb] in H; [|discriminate].
  destruct (py_get v "return_values") as [rv|] eqn:E3;
    cbn [res_bind] in H; [|discriminate].
  destruct (py_contains rv (str "type")) as [b3|] eqn:E4;
    cbn [res_bind] in H; [|discriminate].
  destruct b3; cbn [negb] in H; [|discriminate].
  destruct (py_contains rv (str "description")) as [b4|] eqn:E5;
    cbn [res_bind] in H; [|discriminate].
  destruct b4; cbn [negb] in H; [|discriminate].
  inversion H; subst parsed. split; [reflexivity|].
  destruct v; try discriminate E3.
  exists entries, rv. split; [reflexivity|].
  unfold py_contains in E1. injection E1 as E1. split; [exact E1|].
  unfold py_get, py_getitem in E3.
  destruct (dict_get entries (str "return_values")); [|discriminate].
  inversion E3; subst. auto.
Qed.

(** X1.  Whatever the parser returns, on any argument, is an object that
    has [purpose_behavior] and [return_values], and [type] and
    [description] are found in its [return_values] by [in]: the accepted
    responses and the two placeholder records alike. *)
Theorem parsed_response_has_its_fields raw parsed :
  parse_llm_response raw = Ok parsed ->
  exists fields return_values,
    parsed = VDict fields /\
    dict_has fields (str "purpose_behavior") = true /\
    dict_get fields (str "return_values") = Some return_values /\
    py_contains return_values (str "type") = Ok true /\
    py_contains return_values (str "description") = Ok true.
Proof.
  destruct raw as [| | | |raw| |]; try discriminate.
  rewrite parse_of_cleaned.
  destruct (json_loads (clean_response raw)) as [v|].
  - destruct (validate_fields v) as [p|e] eqn:E.
    + intros H. inversion H; subst.
      destruct (validate_fields_ok _ _ E) as [-> R]. exact R.
    + destruct (is_a (exn_kind_of e) JSONDecodeError).
      * intros H. inversion H. do 2 eexists. repeat split; reflexivity.
      * destruct (is_a (exn_kind_of e) ValueError); [|discriminate].
        intros H. inversion H. do 2 eexists. repeat split; reflexivity.
  - intros H. inversion H. do 2 eexists. repeat split; reflexivity.
Qed.


Lemma py_contains_scalar v needle :
  is_scalar v = true -> py_contains v needle = Err (fault TypeError v).
Proof. destruct v; try discriminate; reflexivity. Qed.

Lemma py_contains_container v needle :
  is_scalar v = false -> exists b, py_contains v needle = Ok b.
Proof. destruct v; try discriminate; intros _; eexists; reflexivity. Qed.

(** What the four checks do on each decoded value. *)
Lemma validate_fields_cases v :
  (breaks_validation v = true /\
   exists culprit, validate_fields v = Err (fault TypeError culprit)) \/
  (breaks_validation v = false /\
   (validate_fields v = Ok v \/
    exists msg, validate_fields v = Err (Raised ValueError msg))).
Proof.
  destruct v as [| b | z | f | t | l | fields].
  1-4: left; split; [reflexivity|eexists; reflexivity].
  - unfold validate_fields, breaks_validation, py_contains. cbn [res_bind].
    destruct (str_contains (str "purpose_behavior") t); cbn [negb andb].
    + destruct (str_contains (str "return_values") t); cbn [negb].
      * left. split; [reflexivity|]. eexists. reflexivity.
      * right. split; [reflexivity|]. right. eexists. reflexivity.
    + right. split; [reflexivity|]. right. eexists. reflexivity.
  - unfold validate_fields, breaks_validation, py_contains. cbn [res_bind].
    destruct (existsb (is_VStr (str "purpose_behavior")) l); cbn [negb andb].
    + destruct (existsb (is_VStr (str "return_values")) l); cbn [negb].
      * left. split; [reflexivity|]. eexists. reflexivity.
      * right. split; [reflexivity|]. right. eexists. reflexivity.
    + right. split; [reflexivity|]. right. eexists. reflexivity.
  - unfold validate_fields, breaks_validation.
    cbn [py_contains res_bind].
    destruct (dict_has fields (str "purpose_behavior")); cbn [negb andb].
    2: { right. split; [reflexivity|]. right. eexists. reflexivity. }
    unfold dict_has, py_get, py_getitem.
    destruct (dict_get fields (str "return_values")) as [rv|]; cbn [negb res_bind].
    2: { right. split; [reflexivity|]. right. eexists. reflexivity. }
    destruct (is_scalar rv) eqn:S.
    + left. split; [reflexivity|].
      rewrite (py_contains_scalar rv _ S). cbn [res_bind]. eexists. reflexivity.
    + right. split; [reflexivity|].
      destruct (py_contains_container rv (str "type") S) as [b1 ->].
      destruct (py_contains_container rv (str "description") S) as [b2 ->].
      cbn [res_bind].
      destruct b1; cbn [negb]; [|right; eexists; reflexivity].
      destruct b2; cbn [negb]; [|right; eexists; reflexivity].
      left. reflexivity.
Qed.

(** X2.  When the cleaned text decodes to a document, an exception
    leaves the parser exactly when the four checks break on that document:
    a number, a boolean or null; an object that has [purpose_behavior] and
    whose [return_values] is one of those; a text or a list in which both
    [purpose_behavior] and [return_values] are found.  The exception is
    then a [TypeError].  On every other decoded document the parser
    returns. *)
Theorem parser_raises_exactly_on_broken_documents raw v :
  json_loads (clean_response raw) = Some v ->
  ((exists e, parse_llm_response (VStr raw) = Err e) <->
   breaks_validation v = true) /\
  (forall e, parse_llm_response (VStr raw) = Err e ->
             exn_kind_of e = TypeError) /\
  (breaks_validation v = false ->
   exists parsed, parse_llm_response (VStr raw) = Ok parsed).
Proof.
  intros Hv. rewrite parse_of_cleaned, Hv.
  destruct (validate_fields_cases v) as [[B [c E]]|[B [E|[msg E]]]];
    rewrite E, B; cbn [exn_kind_of fault is_a].
  - split; [split; [reflexivity|intros _; eexists; reflexivity]|].
    split; [intros e H; now inversion H|discriminate].
  - split; [split; [intros [e H]; discriminate|discriminate]|].
    split; [discriminate|]. intros _. eexists. reflexivity.
  - split; [split; [intros [e H]; discriminate|discriminate]|].
    split; [discriminate|]. intros _. eexists. reflexivity.
Qed.

End ParserOutcomes.

(** *** What the parser accepts; code fences *)

Section ParserInputs.

Context {rt : Runtime} {cfg : Settings} (self : LLMInterface).

(** X3.  When the cleaned text decodes to an object whose [return_values],
    if present, is an object: if the four fields are there the parser
    returns the decoded object itself, other members included; if not it
    returns the validation placeholder with one of the four messages, the
    one on [purpose_behavior] whenever that field is missing. *)
Theorem parser_accepts_exactly_complete_objects raw fields :
  json_loads (clean_response raw) = Some (VDict fields) ->
  (forall rv, dict_get fields (str "return_values") = Some rv ->
              is_dict rv = true) ->
  (has_all_fields fields = true ->
   parse_llm_response (VStr raw) = Ok (VDict fields)) /\
  (has_all_fields fields = false ->
   exists msg,
     parse_llm_response (VStr raw)
       = Ok (validation_error_record (Raised ValueError msg)) /\
     In msg missing_field_messages /\
     (dict_has fields (str "purpose_behavior") = false ->
      msg = str "Missing 'purpose_behavior' field")).
Proof.
  intros Hd Hrv. rewrite parse_of_cleaned, Hd.
  unfold validate_fields, has_all_fields, missing_field_messages.
  cbn [py_contains res_bind].
  destruct (dict_has fields (str "purpose_behavior")); cbn [negb andb].
  2: { split; [discriminate|]. intros _. eexists. split; [reflexivity|].
       split; [now left|reflexivity]. }
  destruct (dict_get fields (str "return_values")) as [rv|] eqn:E.
  2: { replace (dict_has fields (str "return_values")) with false
         by (unfold dict_has; now rewrite E).
       cbn [negb]. split; [discriminate|]. intros _. eexists.
       split; [reflexivity|]. split; [right; now left|discriminate]. }
  replace (dict_has fields (str "return_values")) with true
    by (unfold dict_has; now rewrite E).
  rewrite (py_get_field _ _ _ E). cbn [negb res_bind].
  specialize (Hrv rv eq_refl). destruct rv; try discriminate.
  cbn [py_contains res_bind].
  destruct (dict_has entries (str "type")); cbn [negb andb].
  2: { split; [discriminate|]. intros _. eexists. split; [reflexivity|].
       split; [right; right; now left|discriminate]. }
  destruct (dict_has entries (str "description")); cbn [negb].
  - split; [reflexivity|discriminate].
  - split; [discriminate|]. intros _. eexists. split; [reflexivity|].
    split; [right; right; right; now left|discriminate].
Qed.

Lemma similarity_body_text_return_values gt fields t :
  dict_get fields (str "return_values") = Some (VStr t) ->
  exists e, similarity_body gt (VDict fields) = Err e.
Proof.
  intros H. unfold similarity_body.
  destruct (py_get gt "purpose_behavior"); cbn [res_bind]; [|eauto].
  destruct (py_get (VDict fields) "purpose_behavior"); cbn [res_bind]; [|eauto].
  destruct (py_get gt "return_values") as [g|]; cbn [res_bind]; [|eauto].
  destruct (py_get g "type") as [gty|]; cbn [res_bind]; [|eauto].
  destruct (lower_strip gty); cbn [res_bind]; [|eauto].
  rewrite (py_get_field _ _ _ H). cbn [res_bind].
  eexists. reflexivity.
Qed.

(** X4.  The checks on [return_values] are tests by [in], so a
    [return_values] that is a text in which the words [type] and
    [description] occur passes them: the parser returns the object as a
    valid response.  The scorer then fails on it against any ground truth,
    logs the error and returns its failure record. *)
Theorem text_return_values_pass_validation raw fields t :
  json_loads (clean_response raw) = Some (VDict fields) ->
  dict_has fields (str "purpose_behavior") = true ->
  dict_get fields (str "return_values") = Some (VStr t) ->
  str_contains (str "type") t = true ->
  str_contains (str "description") t = true ->
  parse_llm_response (VStr raw) = Ok (VDict fields) /\
  forall ground_truth st,
    exists e,
      calculate_method_similarity ground_truth (VDict fields) st
      = (Ok (failed_similarity e), logged ERROR st).
Proof.
  intros Hd Hp Hrv Ht Hdesc. split.
  - rewrite parse_of_cleaned, Hd.
    unfold validate_fields. cbn [py_contains res_bind]. rewrite Hp.
    unfold dict_has. rewrite Hrv. cbn [negb].
    rewrite (py_get_field _ _ _ Hrv). cbn [py_contains res_bind].
    rewrite Ht, Hdesc. reflexivity.
  - intros gt st.
    destruct (similarity_body_text_return_values gt fields t Hrv) as [e E].
    exists e. unfold calculate_method_similarity. rewrite E. reflexivity.
Qed.

(** *** Code fences *)

Lemma strip_fixed s :
  lstrip s = s -> lstrip (rev s) = rev s -> strip s = s.
Proof. intros H1 H2. unfold strip. rewrite H1, H2. apply rev_involutive. Qed.

Lemma strip_framed c a body b d :
  is_space c = false -> is_space d = false ->
  strip ((c :: a) ++ body ++ b ++ [d]) = (c :: a) ++ body ++ b ++ [d].
Proof.
  intros Hc Hd. apply strip_fixed.
  - cbn [app lstrip]. now rewrite Hc.
  - rewrite !rev_app_distr. cbn [rev app lstrip]. now rewrite Hd.
Qed.

Lemma slice_between (a b body : pystr) :
  slice_from_to_end (length a) (length b) (a ++ body ++ b) = body.
Proof.
  unfold slice_from_to_end. rewrite !length_app.
  replace (length a + (length body + length b) - length b)%nat
    with (length (a ++ body)) by (rewrite length_app; lia).
  rewrite app_assoc, firstn_app, firstn_all, Nat.sub_diag. cbn [firstn].
  rewrite app_nil_r, skipn_app, skipn_all, Nat.sub_diag. reflexivity.
Qed.

Lemma startswith_app p s : startswith p (p ++ s) = true.
Proof.
  induction p as [|c p IH]; [reflexivity|]. cbn. now rewrite N.eqb_refl.
Qed.

Lemma startswith_prefix p q : forall s,
  startswith (p ++ q) s = true -> startswith p s = true.
Proof.
  induction p as [|c p IH]; intros s; [reflexivity|].
  destruct s as [|d s]; cbn; [discriminate|].
  rewrite !andb_true_iff. intros [A B]. split; [exact A|now apply IH].
Qed.

Lemma clean_response_unfenced s :
  startswith (str "```") (strip s) = false -> clean_response s = strip s.
Proof.
  intros H. unfold clean_response. rewrite H.
  destruct (startswith (str "```json") (strip s)) eqn:E; [|reflexivity].
  apply (startswith_prefix (str "```") (str "json")) in E. congruence.
Qed.

Lemma startswith_json_app body :
  startswith (str "json") body = false ->
  startswith (str "```json") (str "```" ++ body ++ str "```") = false.
Proof.
  change (str "```json") with [96; 96; 96; 106; 115; 111; 110]%N.
  change (str "```") with [96; 96; 96]%N.
  change (str "json") with [106; 115; 111; 110]%N.
  cbn [app startswith]. rewrite N.eqb_refl. cbn [andb].
  destruct body as [|a [|b [|c [|d r]]]]; cbn [app startswith];
    repeat match goal with
           | |- context [N.eqb (Npos ?p) 96%N] =>
               change (N.eqb (Npos p) 96%N) with false
           end;
    rewrite ?andb_false_r; auto.
Qed.

(** X5.  A response between an opening fence, with or without the word
    [json], and a closing fence is cleaned to its stripped body (for the
    plain fence, when the body does not itself start with [json]); and the
    parser then returns on the fenced text what it returns on the body, when
    the stripped body does not start with a fence. *)
Theorem closed_fences_are_unwrapped body :
  clean_response (str "```json" ++ body ++ str "```") = strip body /\
  (startswith (str "json") body = false ->
   clean_response (str "```" ++ body ++ str "```") = strip body) /\
  (startswith (str "```") (strip body) = false ->
   parse_llm_response (VStr (str "```json" ++ body ++ str "```"))
   = parse_llm_response (VStr body)).
Proof.
  assert (T : is_space 96 = false) by reflexivity.
  assert (C1 : clean_response (str "```json" ++ body ++ str "```")
               = strip body).
  { unfold clean_response.
    rewrite (strip_framed 96 [96; 96; 106; 115; 111; 110]%N body
                          [96; 96]%N 96 T T
             : strip (str "```json" ++ body ++ str "```")
               = str "```json" ++ body ++ str "```").
    rewrite startswith_app.
    now rewrite (slice_between (str "```json") (str "```") body
                 : slice_from_to_end 7 3 _ = _). }
  split; [exact C1|]. split.
  - intros Hj. unfold clean_response.
    rewrite (strip_framed 96 [96; 96]%N body [96; 96]%N 96 T T
             : strip (str "```" ++ body ++ str "```")
               = str "```" ++ body ++ str "```").
    replace (startswith (str "```json") (str "```" ++ body ++ str "```"))
      with false.
    + rewrite startswith_app.
      now rewrite (slice_between (str "```") (str "```") body
                   : slice_from_to_end 3 3 _ = _).
    + symmetry. exact (startswith_json_app body Hj).
  - intros Hf. rewrite !parse_of_cleaned, C1.
    now rewrite (clean_response_unfenced body Hf).
Qed.

(** X6.  The closing fence is not looked for: a response that opens with
    the [json] fence and ends in a character that is no white space loses
    its last three characters, whatever they are. *)
Theorem unclosed_fence_cuts_three_characters front c :
  is_space c = false ->
  clean_response (str "```json" ++ front ++ [c])
  = strip (firstn (length front - 2) front).
Proof.
  intros Hc.
  assert (T : is_space 96 = false) by reflexivity.
  unfold clean_response.
  rewrite (strip_framed 96 [96; 96; 106; 115; 111; 110]%N front [] c T Hc
           : strip (str "```json" ++ front ++ [c])
             = str "```json" ++ front ++ [c]).
  rewrite startswith_app. f_equal.
  unfold slice_from_to_end. rewrite !length_app.
  change (length (str "```json")) with 7%nat. cbn [length].
  rewrite firstn_app. change (length (str "```json")) with 7%nat.
  destruct (Nat.le_gt_cases 2 (length front)) as [L|L].
  - replace (7 + (length front + 1) - 3)%nat with (7 + (length front - 2))%nat
      by lia.
    rewrite firstn_all2 by (change (length (str "```json")) with 7%nat; lia).
    rewrite skipn_app, skipn_all2
      by (change (length (str "```json")) with 7%nat; lia).
    change (length (str "```json")) with 7%nat.
    replace (7 - 7)%nat with 0%nat by lia. cbn [skipn app].
    replace (7 + (length front - 2) - 7)%nat with (length front - 2)%nat by lia.
    rewrite firstn_app.
    replace (length front - 2 - length front)%nat with 0%nat by lia.
    cbn [firstn]. now rewrite app_nil_r.
  - replace (length front - 2)%nat with 0%nat by lia.
    replace (7 + (length front + 1) - 3 - 7)%nat with 0%nat by lia.
    cbn [firstn]. rewrite app_nil_r.
    apply skipn_all2. rewrite length_firstn. lia.
Qed.

End ParserInputs.

(** *** The scorer *)

Section Scorer.

Context {rt : Runtime} {cfg : Settings} (self : LLMInterface).

Lemma py_get_ok_inv v k x :
  py_get v k = Ok x -> exists fields, v = VDict fields /\ dict_get fields (str k) = Some x.
Proof.
  unfold py_get, py_getitem. destruct v; try discriminate.
  destruct (dict_get entries (str k)) eqn:E; [|discriminate].
  intros H. inversion H; subst. eauto.
Qed.

Lemma py_concat_ok_inv a b x :
  py_concat a b = Ok x -> exists s t, a = VStr s /\ b = VStr t.
Proof.
  destruct a; try discriminate. destruct b; try discriminate. eauto.
Qed.

Lemma combined_text_inv v out :
  combined_text v = Ok out -> exists p t d, text_record v p t d.
Proof.
  unfold combined_text. intros H.
  apply res_bind_inv in H as (purpose & H1 & H).
  apply res_bind_inv in H as (t1 & H2 & H).
  apply res_bind_inv in H as (rv & H3 & H).
  apply res_bind_inv in H as (ty & H4 & H).
  apply res_bind_inv in H as (t2 & H5 & H).
  apply res_bind_inv in H as (t3 & H6 & H).
  apply res_bind_inv in H as (rv' & H7 & H).
  apply res_bind_inv in H as (de & H8 & H).
  apply py_get_ok_inv in H1 as (fields & -> & F1).
  apply py_get_ok_inv in H3 as (fields' & E & F3). inversion E; subst fields'.
  apply py_get_ok_inv in H7 as (fields' & E' & F7). inversion E'; subst fields'.
  rewrite F3 in F7. inversion F7; subst rv'.
  apply py_get_ok_inv in H4 as (members & -> & F4).
  apply py_get_ok_inv in H8 as (members' & E'' & F8). inversion E''; subst members'.
  destruct (py_concat_ok_inv _ _ _ H2) as (p & ? & -> & _).
  destruct t1; try discriminate H5.
  destruct (py_concat_ok_inv _ _ _ H5) as (? & t & _ & ->).
  destruct t2; try discriminate H6.
  destruct t3; try discriminate H.
  destruct (py_concat_ok_inv _ _ _ H) as (? & d & _ & ->).
  exists p, t, d, fields, members. auto.
Qed.

Lemma similarity_body_inv g l v :
  similarity_body g l = Ok v -> both_text_records g l.
Proof.
  unfold similarity_body. intros H.
  do 12 (apply res_bind_inv in H as (? & _ & H)).
  apply res_bind_inv in H as (gc & G & H).
  apply res_bind_inv in H as (lc & L & _).
  split; eapply combined_text_inv; eassumption.
Qed.

(** X7.  The scorer never raises.  It succeeds, with [success] true and the
    state untouched, exactly when [purpose_behavior], [return_values.type]
    and [return_values.description] are text in both records; otherwise it
    logs one error and returns its failure record. *)
Theorem scorer_succeeds_exactly_on_text_records ground_truth llm_response st :
  exists scores st',
    calculate_method_similarity ground_truth llm_response st
      = (Ok scores, st') /\
    ((both_text_records ground_truth llm_response /\
      st' = st /\
      py_get scores "success" = Ok (VBool true))
     \/
     (~ both_text_records ground_truth llm_response /\
      st' = logged ERROR st /\
      exists e, scores = failed_similarity e)).
Proof.
  unfold calculate_method_similarity.
  destruct (similarity_body ground_truth llm_response) as [scores|e] eqn:E.
  - exists scores, st. split; [reflexivity|]. left.
    pose proof (similarity_body_inv _ _ _ E) as B.
    split; [exact B|]. split; [reflexivity|].
    destruct B as [(pg & tg & dg & Hg) (pl & tl & dl & Hl)].
    destruct (similarity_body_of_text_records _ _ _ _ _ _ _ _ Hg Hl)
      as (s1 & s2 & s3 & Hb).
    rewrite Hb in E. inversion E. reflexivity.
  - exists (failed_similarity e), (logged ERROR st). split; [reflexivity|].
    right. split; [|split; [reflexivity|eauto]].
    intros [(pg & tg & dg & Hg) (pl & tl & dl & Hl)].
    destruct (similarity_body_of_text_records _ _ _ _ _ _ _ _ Hg Hl)
      as (s1 & s2 & s3 & Hb).
    congruence.
Qed.

Lemma text_record_parse_error cleaned e :
  text_record (parse_error_record cleaned e)
              (str "PARSE_ERROR: " ++ firstn 200 cleaned)
              (str "PARSE_ERROR") (str "Failed to parse JSON response").
Proof. do 2 eexists. repeat split; reflexivity. Qed.

Lemma text_record_validation_error e :
  text_record (validation_error_record e)
              (str "VALIDATION_ERROR: " ++ exn_text e)
              (str "VALIDATION_ERROR") (str "Response missing required fields").
Proof. do 2 eexists. repeat split; reflexivity. Qed.

(** X8.  The placeholder the parser returns for a text that is no JSON, or
    for an object without [purpose_behavior], is a record of text fields:
    against a ground truth of text fields the scorer succeeds on it, and
    [return_type_match] compares the ground truth's type with the tag
    [PARSE_ERROR] or [VALIDATION_ERROR]. *)
Theorem placeholder_records_are_scored raw ground_truth p t d st :
  text_record ground_truth p t d ->
  json_loads (clean_response raw) = None \/
  (exists fields, json_loads (clean_response raw) = Some (VDict fields) /\
                  dict_has fields (str "purpose_behavior") = false) ->
  exists parsed tag scores,
    parse_llm_response (VStr raw) = Ok parsed /\
    (tag = str "PARSE_ERROR" \/ tag = str "VALIDATION_ERROR") /\
    (exists purpose description, text_record parsed purpose tag description) /\
    calculate_method_similarity ground_truth parsed st = (Ok scores, st) /\
    py_get scores "success" = Ok (VBool true) /\
    py_get scores "return_type_match" =
      Ok (VBool (str_eqb (strip (str_lower t)) (strip (str_lower tag)))).
Proof.
  intros Hg [Hn|(fields & Hd & Hp)]; rewrite parse_of_cleaned.
  - rewrite Hn.
    pose proof (text_record_parse_error (clean_response raw)
                  (fault JSONDecodeError (VStr (clean_response raw)))) as Hr.
    destruct (similarity_body_of_text_records _ _ _ _ _ _ _ _ Hg Hr)
      as (s1 & s2 & s3 & Hb).
    eexists. exists (str "PARSE_ERROR"). eexists.
    split; [reflexivity|]. split; [now left|]. split; [eauto|].
    unfold calculate_method_similarity. rewrite Hb.
    split; [reflexivity|]. split; reflexivity.
  - rewrite Hd. unfold validate_fields. cbn [py_contains res_bind].
    rewrite Hp. cbn [negb exn_kind_of is_a].
    pose proof (text_record_validation_error
                  (Raised ValueError (str "Missing 'purpose_behavior' field")))
      as Hr.
    destruct (similarity_body_of_text_records _ _ _ _ _ _ _ _ Hg Hr)
      as (s1 & s2 & s3 & Hb).
    eexists. exists (str "VALIDATION_ERROR"). eexists.
    split; [reflexivity|]. split; [now right|]. split; [eauto|].
    unfold calculate_method_similarity. rewrite Hb.
    split; [reflexivity|]. split; reflexivity.
Qed.

End Scorer.

(** *** The local client *)

Section LocalClient.

Context {rt : Runtime} {cfg : Settings} (self : LLMInterface).
Local Open Scope m_scope.

Lemma py_getitem_err_kind c i e :
  py_getitem c i = Err e -> is_a (exn_kind_of e) ConnectionError = false.
Proof.
  unfold py_getitem, raise_fault.
  destruct c; destruct i;
    repeat match goal with
           | |- context [match ?x with _ => _ end] => destruct x
           end;
    intros H; inversion H; reflexivity.
Qed.

Lemma ollama_body_err_kind resp e :
  (body <- response_json resp ;; py_get body "response")%res = Err e ->
  is_a (exn_kind_of e) ConnectionError = false.
Proof.
  unfold response_json, json_loads_res.
  destruct (json_loads (text resp)); cbn [res_bind].
  - apply py_getitem_err_kind.
  - intros H. inversion H. reflexivity.
Qed.

(** X9.  [query_ollama], when the configuration has [model] and
    [temperature], sends one request and no more.  On status 200 its result
    is the [response] member of the decoded body, or the exception that
    reading it raises; on any other status an exception with the status
    code and the body; when the request raises a connection error, an
    exception with a fixed message; any other exception of the request
    passes unchanged. *)
Theorem local_status_classification prompt config model temperature st x w' :
  py_get config "model" = Ok model ->
  py_get config "temperature" = Ok temperature ->
  requests_post (ollama_request self prompt model temperature) (world st)
    = (x, w') ->
  exists r,
    query_ollama self prompt config st
      = (r, State w' (EvPost (ollama_request self prompt model temperature)
                        :: effects st) (results st)) /\
    (forall resp, x = Ok resp -> (status_code resp = 200)%Z ->
       r = (body <- response_json resp ;; py_get body "response")%res) /\
    (forall resp body content,
       x = Ok resp -> (status_code resp = 200)%Z ->
       json_loads (text resp) = Some (VDict body) ->
       dict_get body (str "response") = Some content ->
       r = Ok content) /\
    (forall resp, x = Ok resp -> (status_code resp <> 200)%Z ->
       r = Err (Raised PlainException
                  (str "Ollama API error: "
                     ++ str_of_int (status_code resp)
                     ++ str " - " ++ text resp))) /\
    (forall e, x = Err e -> is_a (exn_kind_of e) ConnectionError = true ->
       r = Err (Raised PlainException
                  (str "Cannot connect to Ollama. Make sure Ollama is running locally."))) /\
    (forall e, x = Err e -> is_a (exn_kind_of e) ConnectionError = false ->
       r = Err e).
Proof.
  intros Hm Ht Hq. unfold query_ollama. rewrite Hm, Ht.
  rewrite !bind_lift_ok. unfold catch.
  change (Request (ollama_base_url self ++ str "/api/generate") [] _ 120)
    with (ollama_request self prompt model temperature).
  destruct x as [resp|e].
  - erewrite bind_ok by (apply post_run; exact Hq).
    destruct (status_code resp =? 200)%Z eqn:E200.
    + apply Z.eqb_eq in E200.
      destruct ((body <- response_json resp ;; py_get body "response")%res)
        as [v|e] eqn:B.
      * exists (Ok v). unfold lift. split; [reflexivity|].
        split; [intros resp' E _; inversion E; subst; now rewrite B|]. split.
        { intros resp' body content E _ Hb Hc. inversion E; subst resp'.
          revert B. unfold response_json, json_loads_res. rewrite Hb.
          cbn [res_bind]. rewrite (py_get_field _ _ _ Hc). congruence. }
        split; [intros resp' E; inversion E; subst; lia|].
        split; discriminate.
      * exists (Err e). unfold lift.
        rewrite (ollama_body_err_kind _ _ B). split; [reflexivity|].
        split; [intros resp' E _; inversion E; subst; now rewrite B|]. split.
        { intros resp' body content E _ Hb Hc. inversion E; subst resp'.
          revert B. unfold response_json, json_loads_res. rewrite Hb.
          cbn [res_bind]. rewrite (py_get_field _ _ _ Hc). congruence. }
        split; [intros resp' E; inversion E; subst; lia|].
        split; discriminate.
    + apply Z.eqb_neq in E200. eexists. unfold raise at 1.
      cbn [exn_kind_of is_a]. split; [reflexivity|].
      split; [intros resp' E; inversion E; subst; lia|].
      split; [intros resp' ? ? E; inversion E; subst; lia|].
      split; [intros resp' E; inversion E; subst; reflexivity|].
      split; discriminate.
  - erewrite bind_err by (apply post_run; exact Hq).
    destruct (is_a (exn_kind_of e) ConnectionError) eqn:K.
    + eexists. split; [reflexivity|].
      split; [discriminate|]. split; [discriminate|]. split; [discriminate|].
      split; [reflexivity|]. intros e' E; inversion E; subst. congruence.
    + eexists. split; [reflexivity|].
      split; [discriminate|]. split; [discriminate|]. split; [discriminate|].
      split; [|intros e' E; inversion E; subst; reflexivity].
      intros e' E; inversion E; subst. congruence.
Qed.

End LocalClient.

(** *** The requests of an attempt *)

Section Attempts.

Context {rt : Runtime} {cfg : Settings} (self : LLMInterface).
Local Open Scope m_scope.





Section Retry.
Variables (llm_name method_signature prompt : pystr) (config : pyval).
Let body := attempt_body self llm_name method_signature prompt config.




End Retry.

End Attempts.

(** *** Requests and attempts *)

Section AttemptCount.

Context {rt : Runtime} {cfg : Settings} (self : LLMInterface).
Local Open Scope m_scope.




End AttemptCount.

(** *** Edges of the retry loop *)

Section RetryEdges.

Context {rt : Runtime} {cfg : Settings} (self : LLMInterface).
Local Open Scope m_scope.

Section Retry.
Variables (llm_name method_signature prompt : pystr) (config : pyval).
Let body := attempt_body self llm_name method_signature prompt config.



End Retry.



Lemma query_ollama_answer prompt config model temperature resp body raw
    st w1 :
  py_get config "model" = Ok model ->
  py_get config "temperature" = Ok temperature ->
  requests_post (ollama_request self prompt model temperature) (world st)
    = (Ok resp, w1) ->
  (status_code resp = 200)%Z ->
  json_loads (text resp) = Some (VDict body) ->
  dict_get body (str "response") = Some raw ->
  query_ollama self prompt config st
  = (Ok raw, State w1 (EvPost (ollama_request self prompt model temperature)
                         :: effects st) (results st)).
Proof.
  intros Hm Ht Hq H200 Hb Hr. unfold query_ollama. rewrite Hm, Ht.
  rewrite !bind_lift_ok. unfold catch.
  change (Request (ollama_base_url self ++ str "/api/generate") [] _ 120)
    with (ollama_request self prompt model temperature).
  erewrite bind_ok by (apply post_run; exact Hq).
  apply Z.eqb_eq in H200. rewrite H200.
  unfold response_json, json_loads_res. rewrite Hb. cbn [res_bind].
  rewrite (py_get_field _ _ _ Hr). reflexivity.
Qed.

(** X13.  When a local backend answers the first request with status 200
    and a body whose [response] the parser returns on, [evaluate_method]
    returns at once: one request, no wait, [success] true, [attempt] 1, the
    raw response and what the parser made of it, be it a placeholder. *)
Theorem first_answer_is_returned_at_once method_signature llm_name config
    type model temperature resp body raw parsed st w1 :
  (1 <= MAX_RETRIES)%Z ->
  dict_get LLM_CONFIGS llm_name = Some config ->
  py_get config "type" = Ok type ->
  is_VStr (str "openai") type = false ->
  py_get config "model" = Ok model ->
  py_get config "temperature" = Ok temperature ->
  let rq := ollama_request self (create_prompt method_signature)
                           model temperature in
  requests_post rq (world st) = (Ok resp, w1) ->
  (status_code resp = 200)%Z ->
  json_loads (text resp) = Some (VDict body) ->
  dict_get body (str "response") = Some raw ->
  parse_llm_response raw = Ok parsed ->
  evaluate_method self method_signature llm_name st
  = (Ok (success_result llm_name method_signature raw parsed 0
                        (fst (time_time w1))),
     State (snd (time_time w1)) (EvPost rq :: EvLog INFO :: effects st)
           (results st)).
Proof.
  intros Hk Hc Hty Hlocal Hm Ht rq Hq H200 Hb Hr Hp.
  apply evaluate_method_loop with (config := config); [exact Hc|].
  replace (range MAX_RETRIES)
    with (0%Z :: map Z.of_nat (seq 1 (Z.to_nat MAX_RETRIES - 1))).
  2:{ unfold range. replace (Z.to_nat MAX_RETRIES)
        with (S (Z.to_nat MAX_RETRIES - 1)) at 2 by lia. reflexivity. }
  cbn [attempt_loop]. unfold catch, attempt_body.
  change (0 >? 0)%Z with false. cbv iota.
  unfold bind at 2, ret at 1. unfold bind at 1.
  rewrite Hty, bind_lift_ok, Hlocal.
  rewrite (bind_ok _ _ _ _ _
             (query_ollama_answer (create_prompt method_signature) config
                model temperature resp body raw (logged INFO st) w1
                Hm Ht Hq H200 Hb Hr)).
  rewrite Hp, bind_lift_ok.
  unfold bind, with_world, ret. cbn [world effects results logged].
  destruct (time_time w1) as [now w2]. reflexivity.
Qed.

End RetryEdges.

(** *** A resume file of another shape *)

Section ResumeFile.

Context {rt : Runtime} {cfg : Settings} (self : LLMInterface).
Local Open Scope m_scope.

Lemma save_json_fails data path e st :
  storage_refuses path e ->
  exists w,
    save_json data path st
    = (Err e, State w (EvLog ERROR :: EvWrite path data :: effects st)
                    (results st)).
Proof.
  intros Hs. unfold save_json, catch.
  destruct (Hs data (world st)) as [w Hw].
  exists w. unfold bind, emit, with_world_res, log, emit, raise.
  cbn [world effects results]. rewrite Hw. reflexivity.
Qed.

Lemma run_resumed gt out path doc v st w' :
  path <> [] ->
  read_text path (world (started st)) = (Ok doc, w') ->
  json_loads doc = Some v ->
  run_full_evaluation self gt out (Some path) st
  = evaluate_all self gt out
      (State w' (EvLog INFO :: EvLog INFO :: EvRead path :: effects st) v).
Proof.
  intros Hp Hr Hdoc. unfold run_full_evaluation.
  rewrite bind_ok with (a := fst (time_time (world st))) (st1 := started st).
  2:{ unfold with_world, started. now destruct (time_time (world st)). }
  rewrite bind_ok with (a := tt)
    (st1 := State w' (EvLog INFO :: EvLog INFO :: EvRead path :: effects st) v);
    [reflexivity|].
  unfold resume. rewrite (truthy_path _ Hp). unfold catch.
  erewrite bind_ok by (eapply load_run; eassumption).
  reflexivity.
Qed.

Lemma process_method_not_a_dict out idx m st :
  is_dict (results st) = false ->
  py_contains (results st) (signature m) <> Ok true ->
  exists e st' new,
    process_method self out idx m st = (Err e, st') /\
    exn_kind_of e = TypeError /\
    results st' = results st /\
    effects st' = new ++ effects st /\
    posts new = 0%nat /\ writes new = [].
Proof.
  intros Hv Hc. unfold process_method.
  rewrite bind_ok with (a := results st) (st1 := st) by reflexivity.
  destruct (py_contains (results st) (signature m)) as [[|]|e] eqn:C;
    [congruence| |].
  - rewrite bind_lift_ok. cbv iota.
    rewrite bind_ok with (a := tt) (st1 := logged INFO st) by reflexivity.
    destruct (now_isoformat (world st)) as [now w2] eqn:N.
    rewrite bind_ok with (a := now)
      (st1 := State w2 (EvLog INFO :: effects st) (results st)).
    2:{ unfold with_world. cbn [logged world effects results].
        now rewrite N. }
    rewrite bind_ok with (a := results st)
      (st1 := State w2 (EvLog INFO :: effects st) (results st))
      by reflexivity.
    assert (S : py_setitem (results st) (signature m) (new_entry m now)
                = Err (fault TypeError (results st))).
    { revert Hv. generalize (results st). intros v Hv.
      destruct v; try discriminate Hv; reflexivity. }
    rewrite S.
    exists (fault TypeError (results st)),
           (State w2 (EvLog INFO :: effects st) (results st)), [EvLog INFO].
    split; [reflexivity|]. repeat split; reflexivity.
  - assert (e = fault TypeError (results st)) as ->.
    { revert Hv C. generalize (results st). intros v Hv C.
      destruct v; try discriminate Hv; try discriminate C;
        unfold py_contains, raise_fault in C; congruence. }
    exists (fault TypeError (results st)), st, [].
    split; [reflexivity|]. repeat split; reflexivity.
Qed.

(** X14.  A resume file that holds a JSON document other than an object is
    taken as the result set.  Unless the first signature is found in it by
    [in], the run raises [TypeError] at the first method, before any request
    is sent or any file written. *)
Theorem misshapen_resume_file_aborts_the_run gt out path doc v st w' m rest :
  path <> [] ->
  read_text path (world (started st)) = (Ok doc, w') ->
  json_loads doc = Some v ->
  is_dict v = false ->
  get_method_list gt = m :: rest ->
  py_contains v (signature m) <> Ok true ->
  exists e st' new,
    run_full_evaluation self gt out (Some path) st = (Err e, st') /\
    exn_kind_of e = TypeError /\
    results st' = v /\
    effects st' = new ++ effects st /\
    posts new = 0%nat /\ writes new = [].
Proof.
  intros Hp Hr Hdoc Hv Hl Hc.
  rewrite (run_resumed gt out path doc v st w' Hp Hr Hdoc).
  unfold evaluate_all. rewrite Hl.
  set (s0 := logged INFO
               (State w' (EvLog INFO :: EvLog INFO :: EvRead path :: effects st)
                      v)).
  rewrite bind_ok with (a := tt) (st1 := s0) by reflexivity.
  cbn [evaluation_loop].
  destruct (process_method_not_a_dict out 0 m s0 Hv Hc)
    as (e & st' & new & Hrun & K & R & E & P & Wr).
  exists e, st', (new ++ [EvLog INFO; EvLog INFO; EvLog INFO; EvRead path]).
  split; [|split; [exact K|split; [exact R|split; [|split]]]].
  - erewrite bind_err; [reflexivity|]. erewrite bind_err; [reflexivity|].
    exact Hrun.
  - rewrite E. unfold s0. cbn [logged effects]. now rewrite <- app_assoc.
  - rewrite posts_app, P. reflexivity.
  - rewrite writes_app, Wr. reflexivity.
Qed.

End ResumeFile.

(** *** A storage that refuses *)

Section Storage.

Context {rt : Runtime} {cfg : Settings} (self : LLMInterface).
Local Open Scope m_scope.

Lemma checkpoint_fails out idx e st :
  storage_refuses (progress_file out) e ->
  PROGRESS_SAVE_INTERVAL <> 0%Z ->
  ((idx + 1) mod PROGRESS_SAVE_INTERVAL = 0)%Z ->
  exists w,
    checkpoint_if_due out idx st
    = (Err e, State w (EvLog ERROR
                         :: EvWrite (progress_file out) (results st)
                         :: effects st) (results st)).
Proof.
  intros Hs Hn Hd. unfold checkpoint_if_due, py_mod.
  apply Z.eqb_neq in Hn. rewrite Hn, bind_lift_ok, Hd. cbn [Z.eqb].
  unfold save_progress.
  rewrite bind_ok with (a := results st) (st1 := st) by reflexivity.
  destruct (save_json_fails (results st) (progress_file out) e st Hs)
    as [w Hw].
  exists w. erewrite bind_err; [reflexivity|exact Hw].
Qed.

Lemma checkpoint_not_due out idx st :
  PROGRESS_SAVE_INTERVAL <> 0%Z ->
  ((idx + 1) mod PROGRESS_SAVE_INTERVAL <> 0)%Z ->
  checkpoint_if_due out idx st = (Ok tt, st).
Proof.
  intros Hn Hd. unfold checkpoint_if_due, py_mod.
  apply Z.eqb_neq in Hn. rewrite Hn, bind_lift_ok.
  apply Z.eqb_neq in Hd. rewrite Hd. reflexivity.
Qed.

Lemma evaluation_loop_aborts out e methods : forall idx st,
  storage_refuses (progress_file out) e ->
  PROGRESS_SAVE_INTERVAL <> 0%Z ->
  results_ok (results st) = true ->
  NoDup (map signature methods) ->
  (forall m, In m methods -> ~ In (signature m) (top_keys (results st))) ->
  (exists k, (k < length methods)%nat /\
             ((idx + 1 + Z.of_nat k) mod PROGRESS_SAVE_INTERVAL = 0)%Z) ->
  exists st' new,
    evaluation_loop self out idx methods st = (Err e, st') /\
    effects st' = new ++ effects st /\
    map fst (writes new) = [progress_file out].
Proof.
  induction methods as [|m rest IH]; intros idx st Hs Hn Hok Hnd Hnew Hdue.
  - destruct Hdue as (k & Hk & _). cbn in Hk. lia.
  - cbn [evaluation_loop].
    destruct (process_method_run self out idx m st Hok)
      as [[Hin _]|(_ & st1 & Hp & Hok1 & Hk1 & _ & _ & new1 & E1 & N1)].
    { exfalso. apply (Hnew m); [now left|exact Hin]. }
    destruct (Z.eq_dec ((idx + 1) mod PROGRESS_SAVE_INTERVAL) 0) as [D|D].
    + destruct (checkpoint_fails out idx e st1 Hs Hn D) as [w Hw].
      rewrite Hw in Hp.
      eexists. exists (EvLog ERROR :: EvWrite (progress_file out) (results st1)
                         :: new1).
      split; [erewrite bind_err; [reflexivity|exact Hp]|].
      split; [cbn [effects app]; now rewrite E1|].
      change (EvLog ERROR :: EvWrite ?p ?d :: new1)
        with ([EvLog ERROR; EvWrite p d] ++ new1).
      rewrite writes_app, (writes_net _ N1). reflexivity.
    + rewrite (checkpoint_not_due out idx st1 Hn D) in Hp.
      rewrite (bind_ok _ _ _ _ _ Hp).
      inversion Hnd as [|? ? Hm Hnd']; subst.
      destruct (IH (idx + 1)%Z st1 Hs Hn Hok1 Hnd') as (st' & new & Hl & E & Wr).
      * intros m' Hin'. rewrite Hk1, in_app_iff. intros [H|[H|[]]].
        -- apply (Hnew m'); [now right|exact H].
        -- apply Hm. rewrite H. now apply in_map.
      * destruct Hdue as (k & Hk & Hd). destruct k as [|k].
        -- exfalso. apply D. rewrite <- Hd. f_equal. lia.
        -- exists k. cbn [length] in Hk. split; [lia|].
           rewrite <- Hd. f_equal. lia.
      * exists st', (new ++ new1). split; [exact Hl|].
        split; [rewrite E, E1; now rewrite app_assoc|].
        rewrite writes_app, (writes_net _ N1). exact Wr.
Qed.

(** X15.  A failure to write the progress file is not isolated: in a fresh
    run over distinct signatures, at least as many as the interval, on a
    storage that refuses the progress file, the run raises the storage's
    exception at the first check-point and writes nothing else, the final
    results included. *)
Theorem failed_checkpoint_aborts_the_run gt out e st :
  let methods := get_method_list gt in
  results st = VDict [] ->
  NoDup (map signature methods) ->
  (0 < PROGRESS_SAVE_INTERVAL <= Z.of_nat (length methods))%Z ->
  storage_refuses (progress_file out) e ->
  exists st' new,
    run_full_evaluation self gt out None st = (Err e, st') /\
    effects st' = new ++ effects st /\
    map fst (writes new) = [progress_file out].
Proof.
  intros methods Hr Hnd Hn Hs.
  rewrite run_without_resume. unfold evaluate_all.
  rewrite bind_ok with (a := tt) (st1 := logged INFO (started st))
    by reflexivity.
  destruct (evaluation_loop_aborts out e methods 0 (logged INFO (started st)) Hs)
    as (st' & new & Hl & E & Wr).
  - lia.
  - cbn [logged started results]. now rewrite Hr.
  - exact Hnd.
  - intros m _. cbn [logged started results]. rewrite Hr. intros [].
  - exists (Z.to_nat PROGRESS_SAVE_INTERVAL - 1)%nat. split; [lia|].
    replace (0 + 1 + Z.of_nat (Z.to_nat PROGRESS_SAVE_INTERVAL - 1))%Z
      with PROGRESS_SAVE_INTERVAL by lia.
    apply Z.mod_same. lia.
  - exists st', (new ++ [EvLog INFO]).
    split; [erewrite bind_err; [reflexivity|exact Hl]|].
    split.
    + rewrite E. cbn [logged started effects]. now rewrite <- app_assoc.
    + rewrite writes_app. exact Wr.
Qed.

End Storage.

(** *** What the loop keeps; how much it sends *)

Section Budget.

Context {rt : Runtime} {cfg : Settings} (self : LLMInterface).
Local Open Scope m_scope.

Lemma final_keys_added sigs : forall present,
  exists added,
    final_keys present sigs = present ++ added /\
    NoDup added /\
    (forall s, In s added <-> In s sigs /\ ~ In s present).
Proof.
  induction sigs as [|s rest IH]; intros present; cbn [final_keys].
  - exists []. split; [now rewrite app_nil_r|]. split; [constructor|].
    intros s. split; [intros []|intros [[] _]].
  - destruct (mem s present) eqn:E.
    + apply mem_In in E.
      destruct (IH present) as (added & F & N & C).
      exists added. split; [exact F|]. split; [exact N|].
      intros x. rewrite C. split.
      * intros [H1 H2]. split; [now right|exact H2].
      * intros [[<-|H1] H2]; [contradiction|auto].
    + apply mem_not_In in E.
      destruct (IH (present ++ [s])) as (added & F & N & C).
      exists (s :: added). split; [now rewrite F, <- app_assoc|].
      split.
      * constructor; [|exact N]. intros H. apply C in H as [_ H].
        apply H. apply in_or_app. right. now left.
      * intros x. split.
        -- intros [<-|H]; [split; [now left|exact E]|].
           apply C in H as [H1 H2]. split; [now right|].
           intros H3. apply H2. apply in_or_app. now left.
        -- intros [[<-|H1] H2]; [now left|].
           destruct (list_eq_dec N.eq_dec s x) as [<-|D]; [now left|].
           right. apply C. split; [exact H1|].
           intros H3. apply in_app_or in H3 as [H3|[H3|[]]]; auto.
Qed.

(** X16.  The main loop only adds to the result set: the signatures it
    had stay first, in their order, with their entries unchanged; after
    them come, once each, the signatures of the list that it did not
    have. *)
Theorem existing_entries_are_kept out methods idx st :
  storage_accepts ->
  PROGRESS_SAVE_INTERVAL <> 0%Z ->
  results_ok (results st) = true ->
  exists st' added,
    evaluation_loop self out idx methods st = (Ok tt, st') /\
    top_keys (results st') = top_keys (results st) ++ added /\
    NoDup added /\
    (forall s, In s added <->
               In s (map signature methods) /\
               ~ In s (top_keys (results st))) /\
    (forall k v, entry (results st) k = Some v ->
                 entry (results st') k = Some v).
Proof.
  intros Hs Hn Hok.
  destruct (evaluation_loop_run self out methods idx st Hs Hn Hok)
    as (st' & Hrun & _ & Hkeep & _ & Hkeys & _).
  destruct (final_keys_added (map signature methods) (top_keys (results st)))
    as (added & F & N & C).
  exists st', added. split; [exact Hrun|].
  split; [now rewrite Hkeys|]. split; [exact N|]. split; [exact C|exact Hkeep].
Qed.

(** *** Counting requests *)

Lemma sends_at_most_weaken {A} (c : M A) a b :
  (a <= b)%nat -> sends_at_most a c -> sends_at_most b c.
Proof.
  intros L H st r st' E. apply H in E as (new & E & P).
  exists new. split; [exact E|lia].
Qed.

Lemma sends_at_most_quiet {A} (c : M A) : sends_nothing c -> sends_at_most 0 c.
Proof.
  intros H st r st' E. apply H in E as (new & E & P).
  exists new. split; [exact E|lia].
Qed.

Lemma sends_at_most_bind {A B} (c : M A) (k : A -> M B) a b :
  sends_at_most a c -> (forall x, sends_at_most b (k x)) ->
  sends_at_most (a + b) (bind c k).
Proof.
  intros Hc Hk st r st' H.
  apply bind_inv in H as [(x & st1 & H1 & H2)|(e & H1 & _)].
  - apply Hc in H1 as (n1 & E1 & P1). apply Hk in H2 as (n2 & E2 & P2).
    exists (n2 ++ n1). split; [rewrite E2, E1; now rewrite app_assoc|].
    rewrite posts_app. lia.
  - apply Hc in H1 as (n1 & E1 & P1). exists n1. split; [exact E1|lia].
Qed.

Lemma sends_at_most_catch {A} (c : M A) (h : exn -> M A) a b :
  sends_at_most a c -> (forall e, sends_at_most b (h e)) ->
  sends_at_most (a + b) (catch c h).
Proof.
  intros Hc Hh st r st' H.
  apply catch_inv in H as [(x & H1 & _)|(e & st1 & H1 & H2)].
  - apply Hc in H1 as (n1 & E1 & P1). exists n1. split; [exact E1|lia].
  - apply Hc in H1 as (n1 & E1 & P1). apply Hh in H2 as (n2 & E2 & P2).
    exists (n2 ++ n1). split; [rewrite E2, E1; now rewrite app_assoc|].
    rewrite posts_app. lia.
Qed.

Lemma sends_at_most_frame_one {A} (c : M A) : one_request c -> sends_at_most 1 c.
Proof.
  intros H st r st' E. apply H in E as (_ & new & E & P & _). eauto.
Qed.

Lemma sends_nothing_log l : sends_nothing (log l).
Proof. apply sends_nothing_emit. reflexivity. Qed.

Lemma sends_nothing_with_world {A} (f : W -> A * W) :
  sends_nothing (with_world f).
Proof.
  apply sends_nothing_silent. intros st r st' H.
  now apply with_world_inv in H as (a & w & _ & ->).
Qed.

Lemma sends_nothing_wait v : sends_nothing (wait v).
Proof.
  unfold wait.
  apply sends_nothing_bind; [now apply sends_nothing_emit|intros ?].
  apply sends_nothing_with_world.
Qed.

Lemma sends_nothing_time_sleep v : sends_nothing (time_sleep v).
Proof.
  unfold time_sleep.
  destruct v; try apply sends_nothing_raise; try apply sends_nothing_wait.
  - destruct (sleep_limit <? Z.abs z)%Z; [apply sends_nothing_raise|].
    destruct (z <? 0)%Z; [apply sends_nothing_raise|].
    apply sends_nothing_wait.
  - destruct (sleep_float numeral);
      [apply sends_nothing_raise|apply sends_nothing_wait].
Qed.

Lemma attempt_body_budget l s p c a :
  sends_at_most 1 (attempt_body self l s p c a).
Proof.
  unfold attempt_body.
  apply (sends_at_most_bind _ _ 0 1).
  { apply sends_at_most_quiet.
    destruct (a >? 0)%Z; [apply sends_nothing_time_sleep|apply sends_nothing_ret]. }
  intros _. apply (sends_at_most_bind _ _ 0 1).
  { apply sends_at_most_quiet, sends_nothing_lift. }
  intros type. apply (sends_at_most_bind _ _ 1 0).
  { apply sends_at_most_frame_one.
    destruct (is_VStr (str "openai") type);
      [apply query_openai_one_request|apply query_ollama_one_request]. }
  intros raw. apply sends_at_most_quiet.
  apply sends_nothing_bind; [apply sends_nothing_lift|intros ?].
  apply sends_nothing_bind; [apply sends_nothing_with_world|intros ?].
  apply sends_nothing_ret.
Qed.

Lemma attempt_loop_budget l s p c attempts :
  sends_at_most (length attempts) (attempt_loop self l s p c attempts).
Proof.
  induction attempts as [|a rest IH]; cbn [attempt_loop length].
  - apply sends_at_most_quiet, sends_nothing_ret.
  - apply (sends_at_most_catch _ _ 1 (length rest)).
    + apply (sends_at_most_bind _ _ 1 0); [apply attempt_body_budget|].
      intros r. apply sends_at_most_quiet, sends_nothing_ret.
    + intros e. apply (sends_at_most_bind _ _ 0 (length rest)).
      { apply sends_at_most_quiet, sends_nothing_log. }
      intros _. destruct (a <? MAX_RETRIES - 1)%Z; [exact IH|].
      apply sends_at_most_weaken with (a := 0%nat); [lia|].
      apply sends_at_most_quiet.
      apply sends_nothing_bind; [apply sends_nothing_with_world|intros ?].
      apply sends_nothing_ret.
Qed.

Lemma length_range n : length (range n) = Z.to_nat n.
Proof. unfold range. now rewrite length_map, length_seq. Qed.

Lemma evaluate_method_budget s l :
  sends_at_most (Z.to_nat MAX_RETRIES) (evaluate_method self s l).
Proof.
  unfold evaluate_method.
  destruct (negb (dict_has LLM_CONFIGS l)).
  { apply sends_at_most_weaken with (a := 0%nat); [lia|].
    apply sends_at_most_quiet, sends_nothing_raise. }
  apply (sends_at_most_bind _ _ 0 (Z.to_nat MAX_RETRIES)).
  { apply sends_at_most_quiet, sends_nothing_lift. }
  intros config. apply (sends_at_most_bind _ _ 0 (Z.to_nat MAX_RETRIES)).
  { apply sends_at_most_quiet, sends_nothing_log. }
  intros _.
  replace (Z.to_nat MAX_RETRIES) with (Z.to_nat MAX_RETRIES + 0)%nat by lia.
  apply sends_at_most_bind.
  { rewrite <- length_range. apply attempt_loop_budget. }
  intros [r|]; apply sends_at_most_quiet.
  - apply sends_nothing_ret.
  - apply sends_nothing_bind; [apply sends_nothing_lift|intros ?].
    apply sends_nothing_bind; [apply sends_nothing_time_sleep|intros ?].
    apply sends_nothing_raise.
Qed.

Lemma sends_nothing_record_under sig field llm v :
  sends_nothing (record_under sig field llm v).
Proof.
  unfold record_under.
  apply sends_nothing_bind; [apply sends_nothing_get_results|intros ?].
  apply sends_nothing_bind; [apply sends_nothing_lift|intros ?].
  apply sends_nothing_set_results.
Qed.

Lemma sends_nothing_scorer g l : sends_nothing (calculate_method_similarity g l).
Proof.
  unfold calculate_method_similarity.
  destruct (similarity_body g l); [apply sends_nothing_ret|].
  apply sends_nothing_bind; [apply sends_nothing_log|intros ?].
  apply sends_nothing_ret.
Qed.

Lemma evaluate_with_budget method llm_name :
  sends_at_most (Z.to_nat MAX_RETRIES) (evaluate_with self method llm_name).
Proof.
  unfold evaluate_with.
  apply (sends_at_most_bind _ _ 0 (Z.to_nat MAX_RETRIES)).
  { apply sends_at_most_quiet, sends_nothing_log. }
  intros _.
  replace (Z.to_nat MAX_RETRIES) with (Z.to_nat MAX_RETRIES + 0)%nat by lia.
  apply sends_at_most_catch.
  - replace (Z.to_nat MAX_RETRIES) with (Z.to_nat MAX_RETRIES + 0)%nat by lia.
    apply sends_at_most_bind; [apply evaluate_method_budget|].
    intros llm_result. apply sends_at_most_quiet.
    apply sends_nothing_bind; [apply sends_nothing_record_under|intros ?].
    apply sends_nothing_bind; [apply sends_nothing_lift|intros success].
    destruct (py_truthy success).
    + apply sends_nothing_bind; [apply sends_nothing_lift|intros ?].
      apply sends_nothing_bind; [apply sends_nothing_scorer|intros ?].
      apply sends_nothing_bind; [apply sends_nothing_record_under|intros ?].
      apply sends_nothing_bind; [apply sends_nothing_lift|intros ?].
      apply sends_nothing_log.
    + apply sends_nothing_bind; [apply sends_nothing_lift|intros ?].
      apply sends_nothing_log.
  - intros e. apply sends_at_most_quiet.
    apply sends_nothing_bind; [apply sends_nothing_log|intros ?].
    apply sends_nothing_record_under.
Qed.

Lemma for_each_budget {A} (l : list A) (body : A -> M unit) k :
  (forall x, sends_at_most k (body x)) ->
  sends_at_most (length l * k) (for_each l body).
Proof.
  intros Hb. induction l as [|x l IH]; cbn [for_each length].
  - apply sends_at_most_quiet, sends_nothing_ret.
  - cbn [Nat.mul]. apply sends_at_most_bind; [apply Hb|intros _; exact IH].
Qed.

Lemma sends_nothing_checkpoint out idx :
  sends_nothing (checkpoint_if_due out idx).
Proof.
  unfold checkpoint_if_due.
  apply sends_nothing_bind; [apply sends_nothing_lift|intros r].
  destruct (r =? 0)%Z; [|apply sends_nothing_ret].
  unfold save_progress.
  apply sends_nothing_bind; [apply sends_nothing_get_results|intros ?].
  apply sends_nothing_bind; [apply sends_nothing_save_json|intros ?].
  apply sends_nothing_bind; [apply sends_nothing_get_results|intros ?].
  apply sends_nothing_bind; [apply sends_nothing_lift|intros ?].
  apply sends_nothing_log.
Qed.

Lemma process_method_budget out idx method :
  sends_at_most (length LLM_CONFIGS * Z.to_nat MAX_RETRIES)
                (process_method self out idx method).
Proof.
  unfold process_method.
  apply (sends_at_most_bind _ _ 0 _).
  { apply sends_at_most_quiet, sends_nothing_get_results. }
  intros r. apply (sends_at_most_bind _ _ 0 _).
  { apply sends_at_most_quiet, sends_nothing_lift. }
  intros already. destruct already.
  { apply sends_at_most_weaken with (a := 0%nat); [lia|].
    apply sends_at_most_quiet, sends_nothing_log. }
  apply (sends_at_most_bind _ _ 0 _).
  { apply sends_at_most_quiet, sends_nothing_log. }
  intros _. apply (sends_at_most_bind _ _ 0 _).
  { apply sends_at_most_quiet, sends_nothing_with_world. }
  intros now. apply (sends_at_most_bind _ _ 0 _).
  { apply sends_at_most_quiet, sends_nothing_get_results. }
  intros r2. apply (sends_at_most_bind _ _ 0 _).
  { apply sends_at_most_quiet, sends_nothing_lift. }
  intros updated. apply (sends_at_most_bind _ _ 0 _).
  { apply sends_at_most_quiet, sends_nothing_set_results. }
  intros _.
  replace (length LLM_CONFIGS * Z.to_nat MAX_RETRIES)%nat
    with (length (dict_keys LLM_CONFIGS) * Z.to_nat MAX_RETRIES + 0)%nat
    by (unfold dict_keys; rewrite length_map; lia).
  apply sends_at_most_bind.
  - apply for_each_budget. intros l. apply evaluate_with_budget.
  - intros _. apply sends_at_most_quiet, sends_nothing_checkpoint.
Qed.

Lemma evaluation_loop_budget out methods : forall idx,
  sends_at_most (length methods * (length LLM_CONFIGS * Z.to_nat MAX_RETRIES))
                (evaluation_loop self out idx methods).
Proof.
  induction methods as [|m rest IH]; intros idx; cbn [evaluation_loop length].
  - apply sends_at_most_quiet, sends_nothing_ret.
  - cbn [Nat.mul]. apply sends_at_most_bind; [apply process_method_budget|].
    intros _. apply IH.
Qed.

(** X17.  Whatever happens, a run sends at most as many requests as
    methods times backends times [MAX_RETRIES]. *)
Theorem request_budget gt out resume_from st :
  exists new,
    effects (snd (run_full_evaluation self gt out resume_from st))
      = new ++ effects st /\
    (posts new <= length (get_method_list gt) * length LLM_CONFIGS
                  * Z.to_nat MAX_RETRIES)%nat.
Proof.
  assert (B : sends_at_most
                (length (get_method_list gt) *
                 (length LLM_CONFIGS * Z.to_nat MAX_RETRIES))
                (run_full_evaluation self gt out resume_from)).
  { unfold run_full_evaluation.
    apply (sends_at_most_bind _ _ 0 _).
    { apply sends_at_most_quiet, sends_nothing_with_world. }
    intros _. apply (sends_at_most_bind _ _ 0 _).
    { apply sends_at_most_quiet. unfold resume.
      destruct resume_from as [path|]; [|apply sends_nothing_ret].
      destruct (py_truthy (VStr path)); [|apply sends_nothing_ret].
      apply sends_nothing_catch.
      - apply sends_nothing_bind; [apply sends_nothing_load|intros ?].
        apply sends_nothing_bind; [apply sends_nothing_set_results|intros ?].
        apply sends_nothing_log.
      - intros e. apply sends_nothing_log. }
    intros _. unfold evaluate_all.
    apply (sends_at_most_bind _ _ 0 _).
    { apply sends_at_most_quiet, sends_nothing_log. }
    intros _.
    replace (length (get_method_list gt) *
             (length LLM_CONFIGS * Z.to_nat MAX_RETRIES))%nat
      with (length (get_method_list gt) *
            (length LLM_CONFIGS * Z.to_nat MAX_RETRIES) + 0)%nat by lia.
    apply sends_at_most_bind; [apply evaluation_loop_budget|].
    intros _. apply sends_at_most_quiet, sends_nothing_finish_run. }
  destruct (run_full_evaluation self gt out resume_from st) as [r st'] eqn:E.
  apply B in E as (new & E & P). exists new. split; [exact E|].
  cbn [snd]. lia.
Qed.

End Budget.

(** *** The document and the typed method list *)

Section Documents.

Context {rt : Runtime} {cfg : Settings} (self : LLMInterface).
Local Open Scope m_scope.

Lemma count_lists (gt : ground_truth_doc) : forall total,
  res_for_each
    (dict_values (map (fun item : pystr * list method_entry =>
                         (fst item, VList (map entry_data (snd item)))) gt))
    (fun total methods => (n <- Document.py_len methods ;; Ok (total + n)%Z)%res)
    total
  = Ok (total + Z.of_nat (length (get_method_list gt)))%Z.
Proof.
  induction gt as [|[c ms] gt IH]; intros total; cbn [map dict_values fst snd res_for_each].
  - cbn. f_equal. lia.
  - cbn [Document.py_len res_bind]. unfold dict_values in IH. rewrite IH.
    f_equal. cbn [get_method_list flat_map]. rewrite length_app, !length_map.
    fold (get_method_list gt). lia.
Qed.

Lemma entries_of_category c (ms : list method_entry) : forall acc,
  (forall e, In e ms ->
     py_get (entry_data e) "signature" = Ok (VStr (entry_signature e))) ->
  res_for_each (map entry_data ms)
    (fun methods method_data =>
       (signature <- py_get method_data "signature" ;;
        Ok (methods ++
            [ VDict [ (str "signature", signature);
                      (str "category", VStr c);
                      (str "data", method_data) ] ]))%res)
    acc
  = Ok (acc ++ map Document.of_method_info
                   (map (fun method_data =>
                           {| signature := entry_signature method_data;
                              category := c;
                              data := entry_data method_data |}) ms)).
Proof.
  induction ms as [|e ms IH]; intros acc H; cbn [map res_for_each].
  - now rewrite app_nil_r.
  - rewrite (H e (or_introl eq_refl)). cbn [res_bind].
    rewrite IH by (intros; apply H; now right).
    rewrite <- app_assoc. reflexivity.
Qed.

Lemma methods_of_items (gt : ground_truth_doc) : forall acc,
  Document.signed gt ->
  res_for_each
    (map (fun item : pystr * list method_entry =>
            (fst item, VList (map entry_data (snd item)))) gt)
    (fun methods (item : pystr * pyval) =>
       let (category, method_list) := item in
       (entries <- Document.py_iter method_list ;;
        res_for_each entries
          (fun methods method_data =>
             (signature <- py_get method_data "signature" ;;
              Ok (methods ++
                  [ VDict [ (str "signature", signature);
                            (str "category", VStr category);
                            (str "data", method_data) ] ]))%res)
          methods)%res)
    acc
  = Ok (acc ++ map Document.of_method_info (get_method_list gt)).
Proof.
  induction gt as [|[c ms] gt IH]; intros acc H; cbn [map res_for_each fst snd].
  - now rewrite app_nil_r.
  - cbn [Document.py_iter res_bind].
    rewrite entries_of_category.
    2:{ intros e He. destruct (H c ms e (or_introl eq_refl) He) as (f & -> & F).
        exact (py_get_field _ _ _ F). }
    cbn [res_bind]. rewrite IH.
    + cbn [get_method_list flat_map]. fold (get_method_list gt).
      now rewrite map_app, app_assoc.
    + intros c' ms' e' Hc He. apply (H c' ms' e'); [now right|exact He].
Qed.

(** X18.  On the document of a ground truth whose records carry their
    signature, [get_method_list] of [utils.py] returns, in order, the entries
    of the typed method list the loop runs over, and [count_total_methods]
    their number. *)
Theorem typed_method_list_is_the_documents gt :
  Document.signed gt ->
  Document.get_method_list (Document.of_ground_truth gt)
    = Ok (map Document.of_method_info (get_method_list gt)) /\
  Document.count_total_methods (Document.of_ground_truth gt)
    = Ok (Z.of_nat (length (get_method_list gt))).
Proof.
  intros H. split.
  - unfold Document.get_method_list, Document.of_ground_truth.
    unfold py_get, py_getitem. cbn [dict_get]. rewrite str_eqb_refl.
    cbn [res_bind Document.py_items].
    now rewrite methods_of_items.
  - unfold Document.count_total_methods, Document.of_ground_truth.
    unfold py_get, py_getitem. cbn [dict_get]. rewrite str_eqb_refl.
    cbn [res_bind py_values]. now rewrite count_lists.
Qed.

(** X19.  [_validate_ground_truth] accepts the document of a ground truth
    exactly when it has a method: it logs and returns, or raises
    [ValueError] with "No methods found in ground truth". *)
Theorem validation_accepts_non_empty_catalogues gt st :
  (get_method_list gt <> [] ->
   Document.validate_ground_truth (Document.of_ground_truth gt) st
   = (Ok tt, logged INFO st)) /\
  (get_method_list gt = [] ->
   Document.validate_ground_truth (Document.of_ground_truth gt) st
   = (Err (Raised ValueError (str "No methods found in ground truth")), st)).
Proof.
  assert (C : Document.count_total_methods (Document.of_ground_truth gt)
              = Ok (Z.of_nat (length (get_method_list gt)))).
  { unfold Document.count_total_methods, Document.of_ground_truth.
    unfold py_get, py_getitem. cbn [dict_get]. rewrite str_eqb_refl.
    cbn [res_bind py_values]. now rewrite count_lists. }
  assert (P : py_contains (Document.of_ground_truth gt) (str "framework_methods")
              = Ok true).
  { unfold Document.of_ground_truth, py_contains, dict_has.
    cbn [dict_get]. now rewrite str_eqb_refl. }
  unfold Document.validate_ground_truth. rewrite P, bind_lift_ok. cbn [negb].
  rewrite C, bind_lift_ok. split; intros H.
  - replace (Z.of_nat (length (get_method_list gt)) =? 0)%Z with false.
    2:{ symmetry. apply Z.eqb_neq. destruct (get_method_list gt);
          [contradiction|cbn [length]; lia]. }
    unfold Document.of_ground_truth at 1.
    unfold py_get, py_getitem. cbn [dict_get]. rewrite str_eqb_refl.
    cbn [res_bind Document.py_len]. rewrite bind_lift_ok. reflexivity.
  - rewrite H. reflexivity.
Qed.

(** X20.  The validation counts the records and reads none: a document
    whose first record has no [signature] is accepted, and
    [get_method_list] then raises on it. *)
Theorem validation_does_not_read_the_records category x rest e st :
  py_get x "signature" = Err e ->
  let document :=
    VDict [ (str "framework_methods",
             VDict [ (category, VList (x :: rest)) ]) ] in
  Document.validate_ground_truth document st = (Ok tt, logged INFO st) /\
  Document.get_method_list document = Err e.
Proof.
  intros H document. split.
  - unfold Document.validate_ground_truth, document.
    unfold py_contains, dict_has. cbn [dict_get]. rewrite str_eqb_refl.
    rewrite bind_lift_ok. cbn [negb].
    unfold Document.count_total_methods, py_get, py_getitem.
    cbn [dict_get]. rewrite str_eqb_refl.
    cbn [res_bind py_values dict_values map snd res_for_each Document.py_len].
    rewrite bind_lift_ok.
    replace (0 + Z.of_nat (length (x :: rest)) =? 0)%Z with false
      by (symmetry; apply Z.eqb_neq; cbn [length]; lia).
    rewrite bind_lift_ok. reflexivity.
  - unfold Document.get_method_list, document, py_get at 1, py_getitem.
    cbn [dict_get]. rewrite str_eqb_refl.
    cbn [res_bind Document.py_items res_for_each Document.py_iter].
    rewrite H. reflexivity.
Qed.

End Documents.

(** *** Responses and scores *)

Section Scores.

Context {rt : Runtime} {cfg : Settings} (self : LLMInterface).
Local Open Scope m_scope.

Lemma holds_maps r sig rs ss :
  holds r sig rs ss -> responses_of r sig = rs /\ scores_of r sig = ss.
Proof.
  intros (e & He & Hrs & Hss). unfold responses_of, scores_of.
  now rewrite He, Hrs, Hss.
Qed.

Lemma holds_entry r r' sig rs ss :
  entry r' sig = entry r sig -> holds r sig rs ss -> holds r' sig rs ss.
Proof. intros E (e & He & H). exists e. now rewrite E. Qed.

Lemma record_under_exact sig (field : string) llm v st rs ss :
  (field = "llm_responses" \/ field = "similarities")%string ->
  holds (results st) sig rs ss ->
  exists r',
    record_under sig field llm v st
      = (Ok tt, State (world st) (effects st) r') /\
    holds r' sig (if String.eqb field "llm_responses"
                  then dict_set rs llm v else rs)
                 (if String.eqb field "llm_responses"
                  then ss else dict_set ss llm v).
Proof.
  intros Hf (e & He & Hrs & Hss).
  assert (Hneq : str "similarities" <> str "llm_responses")
    by (apply literal_neq; reflexivity).
  destruct (results st) as [| | | | | |d] eqn:Hr; try discriminate He.
  cbn [entry] in He.
  set (inner := if String.eqb field "llm_responses" then rs else ss).
  assert (Hin : dict_get e (str field) = Some (VDict inner)).
  { unfold inner. destruct Hf as [-> | ->]; assumption. }
  set (e' := dict_set e (str field) (VDict (dict_set inner llm v))).
  exists (VDict (dict_set d sig (VDict e'))). split.
  { unfold record_under, get_results, bind, lift, set_results.
    rewrite Hr. unfold py_getitem at 1. rewrite He. cbn [res_bind].
    unfold py_get, py_getitem. rewrite Hin. cbn [res_bind py_setitem].
    reflexivity. }
  exists e'. split; [cbn [entry]; apply dict_get_set_same|].
  unfold e', inner. destruct Hf as [-> | ->]; cbn [String.eqb Ascii.eqb Bool.eqb].
  - split; [apply dict_get_set_same|].
    rewrite dict_get_set_other by exact Hneq. exact Hss.
  - split; [|apply dict_get_set_same].
    rewrite dict_get_set_other by congruence. exact Hrs.
Qed.

Lemma evaluate_with_exact method llm_name st rs ss :
  holds (results st) (signature method) rs ss ->
  exists st' result,
    evaluate_with self method llm_name st = (Ok tt, st') /\
    ((py_get result "success" = Ok (VBool true) /\
      exists scores,
        holds (results st') (signature method)
              (dict_set rs llm_name result) (dict_set ss llm_name scores))
     \/
     (py_get result "success" = Ok (VBool false) /\
      holds (results st') (signature method)
            (dict_set rs llm_name result) ss)).
Proof.
  intros Hh. unfold evaluate_with.
  rewrite bind_ok with (a := tt) (st1 := logged INFO st) by reflexivity.
  unfold catch.
  destruct (evaluate_method self (signature method) llm_name (logged INFO st))
    as [[v|e] st1] eqn:Hev.
  - pose proof (frame_evaluate_method self _ _ _ _ _ Hev) as [R1 _].
    apply evaluate_method_shape in Hev as Hshape.
    apply is_attempt_result_facts in Hshape as (Hd & Hs & Hcase).
    rewrite bind_ok with (a := v) (st1 := st1) by exact Hev.
    cbn [logged results] in R1. rewrite <- R1 in Hh.
    destruct (record_under_exact (signature method) "llm_responses" llm_name
                v st1 rs ss (or_introl eq_refl) Hh) as (r2 & Hrec & Hh2).
    cbn [String.eqb Ascii.eqb Bool.eqb] in Hh2.
    rewrite bind_ok with (a := tt) (st1 := State (world st1) (effects st1) r2)
      by exact Hrec.
    destruct Hcase as [(parsed & Hsucc & Hparsed)|Hfail].
    + rewrite Hsucc, bind_lift_ok. cbn [py_truthy].
      rewrite Hparsed, bind_lift_ok.
      destruct (calculate_method_similarity_run (data method) parsed
                  (State (world st1) (effects st1) r2))
        as (scores & st3 & Hsim & Hsd & R3 & _).
      rewrite bind_ok with (a := scores) (st1 := st3) by exact Hsim.
      cbn [results] in R3. rewrite <- R3 in Hh2.
      destruct (record_under_exact (signature method) "similarities" llm_name
                  scores st3 _ _ (or_intror eq_refl) Hh2) as (r4 & Hrec4 & Hh4).
      cbn [String.eqb Ascii.eqb Bool.eqb] in Hh4.
      rewrite bind_ok with (a := tt) (st1 := State (world st3) (effects st3) r4)
        by exact Hrec4.
      destruct scores as [| | | | | |sd]; try discriminate.
      unfold py_dict_get.
      destruct (dict_get sd (str "overall_similarity"));
        rewrite bind_lift_ok;
        (eexists; exists v; split; [reflexivity|]);
        left; (split; [exact Hsucc|]); exists (VDict sd); exact Hh4.
    + rewrite Hfail, bind_lift_ok. cbn [py_truthy].
      destruct v as [| | | | | |vd]; try discriminate.
      unfold py_dict_get.
      destruct (dict_get vd (str "error"));
        rewrite bind_lift_ok;
        (eexists; exists (VDict vd); split; [reflexivity|]);
        right; (split; [exact Hfail|]); exact Hh2.
  - pose proof (frame_evaluate_method self _ _ _ _ _ Hev) as [R1 _].
    rewrite bind_err with (e := e) (st1 := st1) by exact Hev.
    rewrite bind_ok with (a := tt) (st1 := logged ERROR st1) by reflexivity.
    cbn [logged results] in R1.
    assert (Hh' : holds (results (logged ERROR st1)) (signature method) rs ss)
      by (cbn [logged results]; now rewrite R1).
    destruct (record_under_exact (signature method) "llm_responses" llm_name
                (VDict [ (str "success", VBool false);
                         (str "error", VStr (exn_text e));
                         (str "llm", VStr llm_name) ])
                (logged ERROR st1) rs ss (or_introl eq_refl) Hh')
      as (r2 & Hrec & Hh2).
    cbn [String.eqb Ascii.eqb Bool.eqb] in Hh2.
    eexists. eexists. split; [exact Hrec|].
    right. split; [|exact Hh2]. reflexivity.
Qed.

Lemma dict_has_set d k v l :
  dict_has (dict_set d k v) l = str_eqb k l || dict_has d l.
Proof.
  unfold dict_has. rewrite dict_get_set. destruct (str_eqb k l); reflexivity.
Qed.

Lemma for_each_exact method names : forall st rs ss,
  NoDup names ->
  holds (results st) (signature method) rs ss ->
  (forall l, In l names -> dict_has rs l = false) ->
  scored_on_success rs ss ->
  exists st' rs' ss',
    for_each names (evaluate_with self method) st = (Ok tt, st') /\
    holds (results st') (signature method) rs' ss' /\
    scored_on_success rs' ss' /\
    (forall l, dict_has rs' l = true <-> dict_has rs l = true \/ In l names).
Proof.
  induction names as [|l0 rest IH]; intros st rs ss Hnd Hh Hfresh Hinv.
  - exists st, rs, ss. split; [reflexivity|]. split; [exact Hh|].
    split; [exact Hinv|]. intros l. split; [auto|intros [H|[]]; exact H].
  - cbn [for_each]. inversion Hnd as [|? ? Hl0 Hnd']; subst.
    destruct (evaluate_with_exact method l0 st rs ss Hh)
      as (st1 & result & Hrun & Hcase).
    rewrite (bind_ok _ _ _ _ _ Hrun).
    assert (Hfresh1 : forall l, In l rest ->
                                dict_has (dict_set rs l0 result) l = false).
    { intros l Hl. rewrite dict_has_set.
      rewrite (Hfresh l (or_intror Hl)), orb_false_r.
      apply str_eqb_neq. intros ->. contradiction. }
    assert (Hkeys : forall rs' l,
               (dict_has rs' l = true <->
                dict_has (dict_set rs l0 result) l = true \/ In l rest) ->
               (dict_has rs' l = true <->
                dict_has rs l = true \/ In l (l0 :: rest))).
    { intros rs' l ->. rewrite dict_has_set, orb_true_iff, str_eqb_spec.
      cbn [In]. tauto. }
    assert (Hno : dict_get rs l0 = None).
    { pose proof (Hfresh l0 (or_introl eq_refl)) as F. unfold dict_has in F.
      destruct (dict_get rs l0); [discriminate|reflexivity]. }
    destruct Hcase as [(Hs & scores & Hh1)|(Hs & Hh1)].
    + destruct (IH st1 _ _ Hnd' Hh1 Hfresh1) as (st' & rs' & ss' & H1 & H2 & H3 & H4).
      * intros l. rewrite dict_has_set, dict_get_set.
        destruct (str_eqb l0 l) eqn:E.
        -- apply str_eqb_spec in E. subst l. cbn [orb].
           split; [intros _; eauto|reflexivity].
        -- cbn [orb]. apply Hinv.
      * exists st', rs', ss'. split; [exact H1|]. split; [exact H2|].
        split; [exact H3|]. intros l. apply Hkeys, H4.
    + destruct (IH st1 _ _ Hnd' Hh1 Hfresh1) as (st' & rs' & ss' & H1 & H2 & H3 & H4).
      * intros l. rewrite dict_get_set.
        destruct (str_eqb l0 l) eqn:E.
        -- apply str_eqb_spec in E. subst l. split.
           ++ intros H. apply Hinv in H as (v & Hv & _). congruence.
           ++ intros (v & Hv & Hv'). inversion Hv; subst. congruence.
        -- apply Hinv.
      * exists st', rs', ss'. split; [exact H1|]. split; [exact H2|].
        split; [exact H3|]. intros l. apply Hkeys, H4.
Qed.

Lemma process_method_scores out idx method st r st' :
  process_method self out idx method st = (r, st') ->
  is_dict (results st) = true ->
  ~ In (signature method) (top_keys (results st)) ->
  NoDup (dict_keys LLM_CONFIGS) ->
  exists rs ss,
    holds (results st') (signature method) rs ss /\
    scored_on_success rs ss /\
    (forall l, dict_has rs l = true <-> In l (dict_keys LLM_CONFIGS)).
Proof.
  intros Hrun Hd Hnew Hnd. unfold process_method in Hrun.
  rewrite bind_ok with (a := results st) (st1 := st) in Hrun by reflexivity.
  destruct (results st) as [| | | | | |d] eqn:Hr; try discriminate Hd.
  cbn [top_keys] in Hnew.
  assert (Hhas : dict_has d (signature method) = false).
  { destruct (dict_has d (signature method)) eqn:E; [|reflexivity].
    apply dict_has_keys in E. contradiction. }
  cbn [py_contains] in Hrun. rewrite Hhas, bind_lift_ok in Hrun.
  rewrite bind_ok with (a := tt) (st1 := logged INFO st) in Hrun
    by reflexivity.
  destruct (now_isoformat (world st)) as [now w2] eqn:N.
  rewrite bind_ok with (a := now)
    (st1 := State w2 (EvLog INFO :: effects st) (results st)) in Hrun.
  2:{ unfold with_world. cbn [logged world effects results]. now rewrite N. }
  rewrite bind_ok with (a := results st)
    (st1 := State w2 (EvLog INFO :: effects st) (results st)) in Hrun
    by reflexivity.
  rewrite Hr in Hrun. cbn [py_setitem] in Hrun. rewrite bind_lift_ok in Hrun.
  set (s1 := State w2 (EvLog INFO :: effects st)
                   (VDict (dict_set d (signature method)
                                    (new_entry method now)))) in *.
  rewrite bind_ok with (a := tt) (st1 := s1) in Hrun by reflexivity.
  assert (H0 : holds (results s1) (signature method) [] []).
  { eexists. split; [cbn [s1 results entry]; apply dict_get_set_same|].
    split; reflexivity. }
  destruct (for_each_exact method (dict_keys LLM_CONFIGS) s1 [] [] Hnd H0)
    as (s2 & rs & ss & Hfor & Hh & Hinv & Hk).
  { reflexivity. }
  { intros l. split; [discriminate|intros (v & Hv & _); discriminate]. }
  rewrite (bind_ok _ _ _ _ _ Hfor) in Hrun.
  apply keeps_results_checkpoint in Hrun.
  exists rs, ss. rewrite Hrun. split; [exact Hh|]. split; [exact Hinv|].
  intros l. rewrite Hk. split; [intros [H|H]; [discriminate|exact H]|auto].
Qed.

(** X21.  When the main loop ends, every method it added has a response
    under exactly the configured backends, and a score under exactly those
    whose response has [success] true. *)
Theorem scores_follow_success out methods : forall idx st,
  storage_accepts ->
  PROGRESS_SAVE_INTERVAL <> 0%Z ->
  results_ok (results st) = true ->
  NoDup (dict_keys LLM_CONFIGS) ->
  exists st',
    evaluation_loop self out idx methods st = (Ok tt, st') /\
    forall m,
      In m methods ->
      ~ In (signature m) (top_keys (results st)) ->
      (forall l, dict_has (responses_of (results st') (signature m)) l = true
                 <-> In l (dict_keys LLM_CONFIGS)) /\
      (forall l, dict_has (scores_of (results st') (signature m)) l = true
                 <-> exists v,
                       dict_get (responses_of (results st') (signature m)) l
                         = Some v /\
                       py_get v "success" = Ok (VBool true)).
Proof.
  induction methods as [|m rest IH]; intros idx st Hs Hn Hok Hnd.
  - exists st. split; [reflexivity|]. intros m [].
  - destruct (evaluation_loop_run self out [m] idx st Hs Hn Hok)
      as (st1 & Hone & Hok1 & _ & _ & Hkeys1 & _).
    cbn [evaluation_loop] in Hone.
    apply bind_inv in Hone as [([] & st1' & Hp & Hret)|(e & _ & ?)];
      [|discriminate].
    apply ret_inv in Hret as [_ <-].
    destruct (IH (idx + 1)%Z st1 Hs Hn Hok1 Hnd) as (st' & Hrest & Hfacts).
    destruct (evaluation_loop_run self out rest (idx + 1)%Z st1 Hs Hn Hok1)
      as (st'' & Hrest' & _ & Hkeep & _).
    rewrite Hrest in Hrest'. inversion Hrest'; subst st''. clear Hrest'.
    exists st'. split.
    { cbn [evaluation_loop]. now rewrite (bind_ok _ _ _ _ _ Hp). }
    cbn [map final_keys] in Hkeys1.
    intros m0 Hin Hnew.
    destruct (list_eq_dec N.eq_dec (signature m0) (signature m)) as [E|D].
    + rewrite E in *.
      destruct (results_ok_dict _ Hok) as [d Hd].
      destruct (process_method_scores out idx m st _ _ Hp) as (rs & ss & Hh & Hinv & Hk).
      * now rewrite Hd.
      * exact Hnew.
      * exact Hnd.
      * assert (Hh' : holds (results st') (signature m) rs ss).
        { destruct Hh as (e & He & H). exists e. split; [|exact H].
          now apply Hkeep. }
        destruct (holds_maps _ _ _ _ Hh') as [-> ->]. split; [exact Hk|exact Hinv].
    + destruct Hin as [->|Hin]; [contradiction|].
      apply Hfacts; [exact Hin|]. rewrite Hkeys1.
      destruct (mem (signature m) (top_keys (results st))); [exact Hnew|].
      rewrite in_app_iff. intros [H|[H|[]]]; [contradiction|congruence].
Qed.

End Scores.

(** *** What is recorded for each request *)

Section Isolation.

Context {rt : Runtime} {cfg : Settings} (self : LLMInterface).
Local Open Scope m_scope.

Lemma extends_refl st : extends st st.
Proof. exists []. reflexivity. Qed.

Lemma extends_trans st1 st2 st3 :
  extends st1 st2 -> extends st2 st3 -> extends st1 st3.
Proof.
  intros [a A] [b B]. exists (b ++ a). rewrite B, A. apply app_assoc.
Qed.

Lemma extends_effects st st' :
  effects st' = effects st -> extends st st'.
Proof. intros H. exists []. exact H. Qed.

Lemma evaluate_with_records method llm_name st rs ss :
  holds (results st) (signature method) rs ss ->
  exists st' r st1 ss',
    evaluate_method self (signature method) llm_name (logged INFO st)
      = (r, st1) /\
    evaluate_with self method llm_name st = (Ok tt, st') /\
    holds (results st') (signature method)
          (dict_set rs llm_name (outcome_record llm_name r)) ss' /\
    extends st1 st'.
Proof.
  intros Hh. unfold evaluate_with.
  rewrite bind_ok with (a := tt) (st1 := logged INFO st) by reflexivity.
  unfold catch.
  destruct (evaluate_method self (signature method) llm_name (logged INFO st))
    as [[v|e] st1] eqn:Hev.
  - pose proof (frame_evaluate_method self _ _ _ _ _ Hev) as [R1 _].
    apply evaluate_method_shape in Hev as Hshape.
    apply is_attempt_result_facts in Hshape as (Hd & Hs & Hcase).
    rewrite bind_ok with (a := v) (st1 := st1) by exact Hev.
    cbn [logged results] in R1. rewrite <- R1 in Hh.
    destruct (record_under_exact (signature method) "llm_responses" llm_name
                v st1 rs ss (or_introl eq_refl) Hh) as (r2 & Hrec & Hh2).
    cbn [String.eqb Ascii.eqb Bool.eqb] in Hh2.
    rewrite bind_ok with (a := tt) (st1 := State (world st1) (effects st1) r2)
      by exact Hrec.
    destruct Hcase as [(parsed & Hsucc & Hparsed)|Hfail].
    + rewrite Hsucc, bind_lift_ok. cbn [py_truthy].
      rewrite Hparsed, bind_lift_ok.
      destruct (calculate_method_similarity_run (data method) parsed
                  (State (world st1) (effects st1) r2))
        as (scores & st3 & Hsim & Hsd & R3 & (n3 & E3 & _)).
      rewrite bind_ok with (a := scores) (st1 := st3) by exact Hsim.
      cbn [results] in R3. rewrite <- R3 in Hh2.
      destruct (record_under_exact (signature method) "similarities" llm_name
                  scores st3 _ _ (or_intror eq_refl) Hh2) as (r4 & Hrec4 & Hh4).
      cbn [String.eqb Ascii.eqb Bool.eqb] in Hh4.
      rewrite bind_ok with (a := tt) (st1 := State (world st3) (effects st3) r4)
        by exact Hrec4.
      destruct scores as [| | | | | |sd]; try discriminate.
      unfold py_dict_get.
      destruct (dict_get sd (str "overall_similarity"));
        rewrite bind_lift_ok;
        (eexists; exists (Ok v), st1; eexists;
         split; [reflexivity|]; split; [reflexivity|];
         split; [exact Hh4|]);
        exists (EvLog INFO :: n3); cbn [log emit effects];
        rewrite E3; reflexivity.
    + rewrite Hfail, bind_lift_ok. cbn [py_truthy].
      destruct v as [| | | | | |vd]; try discriminate.
      unfold py_dict_get.
      destruct (dict_get vd (str "error"));
        rewrite bind_lift_ok;
        (eexists; exists (Ok (VDict vd)), st1; eexists;
         split; [reflexivity|]; split; [reflexivity|];
         split; [exact Hh2|]);
        exists [EvLog WARNING]; reflexivity.
  - pose proof (frame_evaluate_method self _ _ _ _ _ Hev) as [R1 _].
    rewrite bind_err with (e := e) (st1 := st1) by exact Hev.
    rewrite bind_ok with (a := tt) (st1 := logged ERROR st1) by reflexivity.
    cbn [logged results] in R1.
    assert (Hh' : holds (results (logged ERROR st1)) (signature method) rs ss)
      by (cbn [logged results]; now rewrite R1).
    destruct (record_under_exact (signature method) "llm_responses" llm_name
                (VDict [ (str "success", VBool false);
                         (str "error", VStr (exn_text e));
                         (str "llm", VStr llm_name) ])
                (logged ERROR st1) rs ss (or_introl eq_refl) Hh')
      as (r2 & Hrec & Hh2).
    cbn [String.eqb Ascii.eqb Bool.eqb] in Hh2.
    eexists. exists (Err e), st1. eexists.
    split; [reflexivity|]. split; [exact Hrec|]. split; [exact Hh2|].
    exists [EvLog ERROR]. reflexivity.
Qed.

Lemma for_each_records method names : forall st rs ss,
  holds (results st) (signature method) rs ss ->
  exists st' rs' ss',
    for_each names (evaluate_with self method) st = (Ok tt, st') /\
    holds (results st') (signature method) rs' ss' /\
    extends st st' /\
    (forall l, ~ In l names -> dict_get rs' l = dict_get rs l) /\
    (forall l, In l names ->
       exists st0 r st1,
         evaluate_method self (signature method) l st0 = (r, st1) /\
         extends st st0 /\
         extends st1 st' /\
         dict_get rs' l = Some (outcome_record l r)).
Proof.
  induction names as [|l0 rest IH]; intros st rs ss Hh.
  - exists st, rs, ss. split; [reflexivity|]. split; [exact Hh|].
    split; [apply extends_refl|]. split; [reflexivity|intros l []].
  - destruct (evaluate_with_records method l0 st rs ss Hh)
      as (sa & r & s1 & ssa & Hev & Hrun & Hha & Hext).
    destruct (IH sa _ _ Hha) as (st' & rs' & ss' & Hfor & Hh' & Hx & Hother & Hin).
    assert (X0 : extends st (logged INFO st))
      by (exists [EvLog INFO]; reflexivity).
    assert (X1 : extends (logged INFO st) s1).
    { destruct (frame_evaluate_method self _ _ _ _ _ Hev) as [_ (n & E & _)].
      exists n. exact E. }
    assert (Xa : extends st sa)
      by (eapply extends_trans; [exact X0|];
          eapply extends_trans; [exact X1|exact Hext]).
    exists st', rs', ss'. split.
    { cbn [for_each]. rewrite (bind_ok _ _ _ _ _ Hrun). exact Hfor. }
    split; [exact Hh'|].
    split; [eapply extends_trans; [exact Xa|exact Hx]|]. split.
    + intros l Hl. rewrite Hother by (intros H; apply Hl; now right).
      apply dict_get_set_other. intros ->. apply Hl. now left.
    + assert (Hlater : forall l, In l rest ->
                exists st0 r0 st1,
                  evaluate_method self (signature method) l st0 = (r0, st1) /\
                  extends st st0 /\ extends st1 st' /\
                  dict_get rs' l = Some (outcome_record l r0)).
      { intros l Hl. destruct (Hin l Hl) as (st0 & r0 & s1' & E & A & B & C).
        exists st0, r0, s1'. split; [exact E|].
        split; [eapply extends_trans; [exact Xa|exact A]|]. auto. }
      intros l [<-|Hl]; [|now apply Hlater].
      destruct (in_dec (list_eq_dec N.eq_dec) l0 rest) as [Hi|Hn];
        [now apply Hlater|].
      exists (logged INFO st), r, s1. split; [exact Hev|].
      split; [exact X0|].
      split; [eapply extends_trans; [exact Hext|exact Hx]|].
      rewrite (Hother l0 Hn). apply dict_get_set_same.
Qed.

(** One method that the result set does not hold yet: each backend is
    asked, and what the result set holds for it afterwards is the record
    of that call, whether the check-point that follows succeeds or not. *)
Lemma process_method_records out idx method st r st' :
  process_method self out idx method st = (r, st') ->
  is_dict (results st) = true ->
  ~ In (signature method) (top_keys (results st)) ->
  forall l, In l (dict_keys LLM_CONFIGS) ->
            records_call self st st' (signature method) l.
Proof.
  intros Hrun Hd Hnew l Hl. unfold process_method in Hrun.
  rewrite bind_ok with (a := results st) (st1 := st) in Hrun by reflexivity.
  destruct (results st) as [| | | | | |d] eqn:Hr; try discriminate Hd.
  cbn [top_keys] in Hnew.
  assert (Hhas : dict_has d (signature method) = false).
  { destruct (dict_has d (signature method)) eqn:E; [|reflexivity].
    apply dict_has_keys in E. contradiction. }
  cbn [py_contains] in Hrun. rewrite Hhas, bind_lift_ok in Hrun.
  rewrite bind_ok with (a := tt) (st1 := logged INFO st) in Hrun
    by reflexivity.
  destruct (now_isoformat (world st)) as [now w2] eqn:N.
  rewrite bind_ok with (a := now)
    (st1 := State w2 (EvLog INFO :: effects st) (results st)) in Hrun.
  2:{ unfold with_world. cbn [logged world effects results]. now rewrite N. }
  rewrite bind_ok with (a := results st)
    (st1 := State w2 (EvLog INFO :: effects st) (results st)) in Hrun
    by reflexivity.
  rewrite Hr in Hrun. cbn [py_setitem] in Hrun. rewrite bind_lift_ok in Hrun.
  set (s1 := State w2 (EvLog INFO :: effects st)
                   (VDict (dict_set d (signature method)
                                    (new_entry method now)))) in *.
  rewrite bind_ok with (a := tt) (st1 := s1) in Hrun by reflexivity.
  assert (H0 : holds (results s1) (signature method) [] []).
  { eexists. split; [cbn [s1 results entry]; apply dict_get_set_same|].
    split; reflexivity. }
  destruct (for_each_records method (dict_keys LLM_CONFIGS) s1 [] [] H0)
    as (s2 & rs & ss & Hfor & Hh & _ & _ & Hin).
  rewrite (bind_ok _ _ _ _ _ Hfor) in Hrun.
  destruct (Hin l Hl) as (st0 & r0 & st1 & E & A & B & C).
  assert (X1 : extends st s1) by (exists [EvLog INFO]; reflexivity).
  assert (X2 : extends s2 st').
  { destruct (sends_nothing_checkpoint out idx _ _ _ Hrun) as (n & En & _).
    exists n. exact En. }
  apply keeps_results_checkpoint in Hrun.
  exists st0, r0, st1. split; [exact E|].
  split; [eapply extends_trans; [exact X1|exact A]|].
  split; [eapply extends_trans; [exact B|exact X2]|].
  rewrite Hrun. destruct (holds_maps _ _ _ _ Hh) as [-> _]. exact C.
Qed.

Lemma records_call_later st st1 st' sig l :
  records_call self st st1 sig l ->
  extends st1 st' ->
  (forall v, entry (results st1) sig = Some v ->
             entry (results st') sig = Some v) ->
  records_call self st st' sig l.
Proof.
  intros (st0 & r & s1 & E & A & B & C) X K.
  exists st0, r, s1. split; [exact E|]. split; [exact A|].
  split; [eapply extends_trans; [exact B|exact X]|].
  unfold responses_of in *.
  destruct (entry (results st1) sig) as [v|] eqn:Ev; [|discriminate C].
  now rewrite (K v eq_refl).
Qed.

Lemma records_call_from st st1 st' sig l :
  extends st st1 ->
  records_call self st1 st' sig l ->
  records_call self st st' sig l.
Proof.
  intros X (st0 & r & s1 & E & A & B & C).
  exists st0, r, s1. split; [exact E|].
  split; [eapply extends_trans; [exact X|exact A]|]. auto.
Qed.

(** X26.  On a storage that takes every write, with an interval that is
    not zero and a result set the progress summary can read, the main loop
    ends without raising, whatever the backends do; and for every method
    it added and every configured backend, [evaluate_method] was called in
    the course of the loop and the result set holds the record of that
    call: the result the call returned, or the failure record with the
    text of the exception it raised. *)
Theorem outcomes_are_recorded out methods : forall idx st,
  storage_accepts ->
  PROGRESS_SAVE_INTERVAL <> 0%Z ->
  results_ok (results st) = true ->
  exists st',
    evaluation_loop self out idx methods st = (Ok tt, st') /\
    forall m,
      In m methods ->
      ~ In (signature m) (top_keys (results st)) ->
      forall llm_name,
        In llm_name (dict_keys LLM_CONFIGS) ->
        records_call self st st' (signature m) llm_name.
Proof.
  induction methods as [|m rest IH]; intros idx st Hs Hn Hok.
  - exists st. split; [reflexivity|]. intros m [].
  - destruct (evaluation_loop_run self out [m] idx st Hs Hn Hok)
      as (st1 & Hone & Hok1 & _ & _ & Hkeys1 & (n1 & E1 & _)).
    cbn [evaluation_loop] in Hone.
    apply bind_inv in Hone as [([] & st1' & Hp & Hret)|(e & _ & ?)];
      [|discriminate].
    apply ret_inv in Hret as [_ <-].
    destruct (IH (idx + 1)%Z st1 Hs Hn Hok1) as (st' & Hrest & Hfacts).
    destruct (evaluation_loop_run self out rest (idx + 1)%Z st1 Hs Hn Hok1)
      as (st'' & Hrest' & _ & Hkeep & _ & _ & (n2 & E2 & _)).
    rewrite Hrest in Hrest'. inversion Hrest'; subst st''. clear Hrest'.
    exists st'. split.
    { cbn [evaluation_loop]. now rewrite (bind_ok _ _ _ _ _ Hp). }
    cbn [map final_keys] in Hkeys1.
    intros m0 Hin Hnew l Hl.
    destruct (list_eq_dec N.eq_dec (signature m0) (signature m)) as [E|D].
    + rewrite E in *.
      destruct (results_ok_dict _ Hok) as [d Hd].
      apply records_call_later with (st1 := st1).
      * apply (process_method_records out idx m st _ _ Hp);
          [now rewrite Hd|exact Hnew|exact Hl].
      * exists n2. exact E2.
      * intros v. apply Hkeep.
    + destruct Hin as [->|Hin]; [contradiction|].
      apply records_call_from with (st1 := st1); [exists n1; exact E1|].
      apply Hfacts; [exact Hin| |exact Hl]. rewrite Hkeys1.
      destruct (mem (signature m) (top_keys (results st))); [exact Hnew|].
      rewrite in_app_iff. intros [H|[H|[]]]; [contradiction|congruence].
Qed.

End Isolation.

(** *** White space; the requests of a resumed run *)

Section ResumedRuns.

Context {rt : Runtime} {cfg : Settings} (self : LLMInterface).
Local Open Scope m_scope.

Lemma lstrip_spaces ws s :
  forallb is_space ws = true -> lstrip (ws ++ s) = lstrip s.
Proof.
  induction ws as [|c ws IH]; [reflexivity|]. cbn [forallb app lstrip].
  intros H. apply andb_true_iff in H as [H1 H2]. now rewrite H1, IH.
Qed.

Lemma lstrip_app_spaces s ws :
  forallb is_space ws = true ->
  lstrip (rev (lstrip (s ++ ws))) = lstrip (rev (lstrip s)).
Proof.
  intros H. induction s as [|c s IH]; cbn [app lstrip].
  - rewrite <- (app_nil_r ws) at 1. rewrite lstrip_spaces by exact H.
    reflexivity.
  - destruct (is_space c); [exact IH|].
    change (c :: s ++ ws) with ((c :: s) ++ ws).
    rewrite rev_app_distr. apply lstrip_spaces.
    rewrite forallb_forall in *. intros x Hx. apply H. now apply in_rev.
Qed.

Lemma strip_padding ws s ws' :
  forallb is_space ws = true -> forallb is_space ws' = true ->
  strip (ws ++ s ++ ws') = strip s.
Proof.
  intros H H'. unfold strip.
  now rewrite lstrip_spaces, lstrip_app_spaces.
Qed.

(** X22.  White space around a response does not matter to the parser. *)
Theorem parser_ignores_surrounding_whitespace before raw after :
  forallb is_space before = true ->
  forallb is_space after = true ->
  parse_llm_response (VStr (before ++ raw ++ after))
  = parse_llm_response (VStr raw).
Proof.
  intros H H'.
  assert (C : clean_response (before ++ raw ++ after) = clean_response raw).
  { unfold clean_response. now rewrite strip_padding. }
  rewrite !parse_of_cleaned, C. reflexivity.
Qed.

(** *** Requests of a resumed run *)

Lemma absent_shrinks r r' methods :
  (forall k, In k (top_keys r) -> In k (top_keys r')) ->
  (length (absent r' methods) <= length (absent r methods))%nat.
Proof.
  intros H. unfold absent.
  induction methods as [|m rest IH]; [reflexivity|]. cbn [filter].
  destruct (mem (signature m) (top_keys r)) eqn:E.
  - apply mem_In in E. apply H in E. apply mem_In in E. rewrite E.
    cbn [negb]. exact IH.
  - cbn [negb]. destruct (negb (mem (signature m) (top_keys r')));
      cbn [length]; lia.
Qed.

Lemma evaluation_loop_resumed_budget out methods : forall idx st,
  storage_accepts ->
  PROGRESS_SAVE_INTERVAL <> 0%Z ->
  results_ok (results st) = true ->
  exists st' new,
    evaluation_loop self out idx methods st = (Ok tt, st') /\
    effects st' = new ++ effects st /\
    (posts new <= length (absent (results st) methods)
                  * (length LLM_CONFIGS * Z.to_nat MAX_RETRIES))%nat.
Proof.
  induction methods as [|m rest IH]; intros idx st Hs Hn Hok.
  - exists st, []. split; [reflexivity|]. split; [reflexivity|]. cbn. lia.
  - destruct (evaluation_loop_run self out [m] idx st Hs Hn Hok)
      as (st1 & Hone & Hok1 & _ & _ & Hkeys1 & _).
    cbn [evaluation_loop] in Hone.
    apply bind_inv in Hone as [([] & st1' & Hp & Hret)|(e & _ & ?)];
      [|discriminate].
    apply ret_inv in Hret as [_ <-].
    destruct (IH (idx + 1)%Z st1 Hs Hn Hok1) as (st' & new & Hrest & E & P).
    cbn [map final_keys] in Hkeys1.
    assert (Hmono : (length (absent (results st1) rest)
                     <= length (absent (results st) rest))%nat).
    { apply absent_shrinks. intros k Hk. rewrite Hkeys1.
      destruct (mem (signature m) (top_keys (results st))); [exact Hk|].
      apply in_or_app. now left. }
    destruct (process_method_run self out idx m st Hok)
      as [[Hin Hskip]|(Hnew & _)].
    + rewrite Hskip in Hp. inversion Hp; subst st1.
      exists st', (new ++ [EvLog INFO]).
      split; [cbn [evaluation_loop]; now rewrite (bind_ok _ _ _ _ _ Hskip)|].
      split; [rewrite E; cbn [logged effects]; now rewrite <- app_assoc|].
      rewrite posts_app. cbn [posts filter is_post length]. rewrite Nat.add_0_r.
      assert (A : absent (results st) (m :: rest) = absent (results st) rest).
      { unfold absent. cbn [filter]. apply mem_In in Hin. now rewrite Hin. }
      rewrite A. cbn [logged results] in Hmono, P. nia.
    + destruct (process_method_budget self out idx m st _ _ Hp)
        as (n1 & E1 & P1).
      exists st', (new ++ n1).
      split; [cbn [evaluation_loop]; now rewrite (bind_ok _ _ _ _ _ Hp)|].
      split; [rewrite E, E1; now rewrite app_assoc|].
      rewrite posts_app.
      assert (A : absent (results st) (m :: rest)
                  = m :: absent (results st) rest).
      { unfold absent. cbn [filter]. apply mem_not_In in Hnew.
        now rewrite Hnew. }
      rewrite A. cbn [length]. nia.
Qed.

(** X23.  A run resumed from a well-formed result set sends requests only
    for the methods whose signature the result set does not hold: at most
    their number times backends times [MAX_RETRIES]. *)
Theorem resumed_run_budget gt out path doc v st w' :
  path <> [] ->
  read_text path (world (started st)) = (Ok doc, w') ->
  json_loads doc = Some v ->
  results_ok v = true ->
  storage_accepts ->
  PROGRESS_SAVE_INTERVAL <> 0%Z ->
  exists r st' new,
    run_full_evaluation self gt out (Some path) st = (r, st') /\
    effects st' = new ++ effects st /\
    (posts new <= length (absent v (get_method_list gt))
                  * length LLM_CONFIGS * Z.to_nat MAX_RETRIES)%nat.
Proof.
  intros Hp Hr Hdoc Hok Hs Hn.
  rewrite (run_resumed self gt out path doc v st w' Hp Hr Hdoc).
  unfold evaluate_all.
  set (s0 := logged INFO
               (State w' (EvLog INFO :: EvLog INFO :: EvRead path :: effects st)
                      v)).
  rewrite bind_ok with (a := tt) (st1 := s0) by reflexivity.
  destruct (evaluation_loop_resumed_budget out (get_method_list gt) 0 s0 Hs Hn Hok)
    as (st1 & new & Hl & E & P).
  rewrite (bind_ok _ _ _ _ _ Hl).
  destruct (finish_run out st1) as [r st'] eqn:F.
  destruct (sends_nothing_finish_run out _ _ _ F) as (n2 & E2 & P2).
  exists r, st', (n2 ++ new ++ [EvLog INFO; EvLog INFO; EvLog INFO; EvRead path]).
  split; [reflexivity|]. split.
  - rewrite E2, E. unfold s0. cbn [logged effects]. now rewrite <- !app_assoc.
  - rewrite !posts_app, P2. cbn [posts filter is_post length].
    unfold s0 in P. cbn [logged results] in P. lia.
Qed.

End ResumedRuns.

(** *** The final phase *)

Section FinalPhase.

Context {rt : Runtime} {cfg : Settings} (self : LLMInterface).
Local Open Scope m_scope.

(** X24.  When the summary statistics raise, the final phase raises that
    exception after it has written the full results, and does nothing
    more: no summary file, no report, no printed summary. *)
Theorem failed_summary_leaves_the_full_results out e st :
  storage_accepts ->
  generate_summary_stats (results st) = Err e ->
  exists w,
    finish_run out st
    = (Err e, State w (EvLog INFO
                         :: EvWrite (full_results_file out) (results st)
                         :: effects st) (results st)).
Proof.
  intros Hs Hsum.
  destruct (save_json_run (results st) (full_results_file out) st Hs)
    as (w1 & Hw1).
  exists w1. unfold finish_run, save_final_results.
  rewrite bind_assoc.
  erewrite bind_ok by reflexivity.
  rewrite bind_assoc.
  unfold full_results_file in Hw1 |- *.
  erewrite bind_ok by exact Hw1.
  rewrite bind_assoc.
  erewrite bind_ok by reflexivity.
  cbn [results]. rewrite bind_assoc, Hsum.
  erewrite bind_err by reflexivity. reflexivity.
Qed.

End FinalPhase.

(** *** Answers that are no text *)

Section HostedAnswers.

Context {rt : Runtime} {cfg : Settings} (self : LLMInterface).
Local Open Scope m_scope.



Section Retry.
Variables (llm_name method_signature prompt : pystr) (config : pyval).
Let body := attempt_body self llm_name method_signature prompt config.


End Retry.


End HostedAnswers.

(* ================================================================== *)
(** ** On concrete inputs *)

#[local] Existing Instance Script.runtime.
#[local] Existing Instance Config.settings.

(** C9 fails in the code.  The local backend answers each of the three
    attempts of one request with status 200 and the text [5].  The client
    returns that text each time, the parser raises on it, and
    [evaluate_method] returns a result with [success] false, after three
    requests. *)
Theorem answered_but_unparsed_is_a_failure :
  let answers := repeat (Ok (Response 200 (Demo.generate_body (str "5")))) 3 in
  exists result st',
    evaluate_method Script.interface Demo.parse_int_signature (str "deepseek")
                    (Demo.fresh answers []) = (Ok result, st') /\
    posts (effects st') = 3%nat /\
    Script.answers (world st') = [] /\
    py_get result "success" = Ok (VBool false) /\
    py_get result "attempt" = Ok (VInt 3) /\
    py_get result "error" = Ok (VStr (Script.fault_text TypeError (VInt 5))).
Proof.
  intros answers.
  destruct (evaluate_method Script.interface Demo.parse_int_signature
              (str "deepseek") (Demo.fresh answers [])) as [r st'] eqn:E.
  vm_compute in E. inversion E; subst.
  do 2 eexists. split; [reflexivity|]. repeat split.
Qed.

(** C4 fails in the code.  The hosted backend, configured with a
    [rate_limit_delay] of 1, answers a request at its first attempt.
    [evaluate_method] returns the successful result after one request and
    no wait at all: the wait written after the loop is never reached. *)
Theorem no_wait_after_an_answer :
  let answers := [Ok (Response 200 (Demo.chat_body (Demo.json_dumps (Demo.answer_with_type "int"))))] in
  exists result st',
    evaluate_method Script.interface Demo.parse_int_signature (str "gpt4o")
                    (Demo.fresh answers []) = (Ok result, st') /\
    py_get result "success" = Ok (VBool true) /\
    py_get Config.gpt4o_config "rate_limit_delay" = Ok (VInt 1) /\
    posts (effects st') = 1%nat /\
    sleeps (effects st') = [].
Proof.
  intros answers.
  destruct (evaluate_method Script.interface Demo.parse_int_signature
              (str "gpt4o") (Demo.fresh answers [])) as [r st'] eqn:E.
  vm_compute in E. inversion E; subst.
  do 2 eexists. split; [reflexivity|]. repeat split.
Qed.

Lemma distinct_NoDup l : Demo.distinct l = true -> NoDup l.
Proof.
  induction l as [|s l IH]; simpl; intros H; constructor.
  - apply andb_true_iff in H as [H _]. apply negb_true_iff in H.
    now apply mem_not_In.
  - apply andb_true_iff in H as [_ H]. now apply IH.
Qed.

Lemma script_storage_accepts : storage_accepts.
Proof. intros path data w. exists w. reflexivity. Qed.



(** C7 at a response of status 200 whose first message is [hello]. *)
Lemma hosted_status_classification_witness :
  let resp := Response 200 (Demo.chat_body (str "hello")) in
  let st := Demo.fresh [Ok resp] [] in
  py_get Config.gpt4o_config "model" = Ok (VStr (str "gpt-4o")) /\
  py_get Config.gpt4o_config "temperature" = Ok (VFloat (str "0.1")) /\
  py_get Config.gpt4o_config "max_tokens" = Ok (VInt 1000) /\
  exists r st',
    query_openai Script.interface (str "prompt") Config.gpt4o_config st
      = (r, st') /\
    r = Ok (VStr (str "hello")).
Proof.
  intros resp st.
  assert (H1 : py_get Config.gpt4o_config "model" = Ok (VStr (str "gpt-4o")))
    by reflexivity.
  assert (H2 : py_get Config.gpt4o_config "temperature"
               = Ok (VFloat (str "0.1"))) by reflexivity.
  assert (H3 : py_get Config.gpt4o_config "max_tokens" = Ok (VInt 1000))
    by reflexivity.
  split; [exact H1|]. split; [exact H2|]. split; [exact H3|].
  destruct (hosted_status_classification Script.interface (str "prompt")
              Config.gpt4o_config _ _ _ st resp (Script.World [] [])
              H1 H2 H3 eq_refl)
    as (r & st' & Hq & _ & _ & H200 & _).
  exists r, st'. split; [exact Hq|].
  rewrite (H200 eq_refl). vm_compute. reflexivity.
Defined.

(** C7 as stated fails at status 201: a 2xx status, with a body whose first
    message is [hello], raises the error of a failed request. *)
Lemma created_status_is_a_backend_error :
  let resp := Response 201 (Demo.chat_body (str "hello")) in
  is_2xx (status_code resp) = true /\
  first_message_content resp = Ok (VStr (str "hello")) /\
  fst (query_openai Script.interface (str "prompt") Config.gpt4o_config
                    (Demo.fresh [Ok resp] []))
  = Err (Raised PlainException
           (str "OpenAI API error: 201 - " ++ text resp)).
Proof. repeat split; vm_compute; reflexivity. Qed.

(** C8 on the ground truth of [parseIntInput]: the answers [int] and [Int]
    match its type [int], the answer [Integer] does not. *)
Lemma return_type_match_witness :
  let st := Demo.fresh [] [] in
  (exists scores,
     calculate_method_similarity Demo.parse_int_truth
                                 (Demo.answer_with_type "int") st
       = (Ok scores, st) /\
     py_get scores "return_type_match" = Ok (VBool true)) /\
  (exists scores,
     calculate_method_similarity Demo.parse_int_truth
                                 (Demo.answer_with_type "Int") st
       = (Ok scores, st) /\
     py_get scores "return_type_match" = Ok (VBool true)) /\
  (exists scores,
     calculate_method_similarity Demo.parse_int_truth
                                 (Demo.answer_with_type "Integer") st
       = (Ok scores, st) /\
     py_get scores "return_type_match" = Ok (VBool false)).
Proof.
  intros st.
  assert (Ht : text_record Demo.parse_int_truth
                 (str "Parses the text as a decimal integer.") (str "int")
                 (str "The integer the text denotes."))
    by (do 2 eexists; repeat split; reflexivity).
  assert (Ha : forall type,
             text_record (Demo.answer_with_type type)
               (str "Reads an integer.") (str type) (str "The value read."))
    by (intros type; do 2 eexists; repeat split; reflexivity).
  repeat split.
  - destruct (return_type_match_of_text_records _ _ _ _ _ _ _ _ st Ht (Ha "int"%string))
      as (scores & H1 & _ & H2 & _).
    exists scores. split; [exact H1|]. rewrite H2. vm_compute. reflexivity.
  - destruct (return_type_match_of_text_records _ _ _ _ _ _ _ _ st Ht (Ha "Int"%string))
      as (scores & H1 & _ & H2 & _).
    exists scores. split; [exact H1|]. rewrite H2. vm_compute. reflexivity.
  - destruct (return_type_match_of_text_records _ _ _ _ _ _ _ _ st Ht (Ha "Integer"%string))
      as (scores & H1 & _ & H2 & _).
    exists scores. split; [exact H1|]. rewrite H2. vm_compute. reflexivity.
Defined.

(** C8 as stated fails when a description is null: the answer passes the
    parser, both types are the text [void], and yet the adding of text to
    null raises in the scorer, whose failure record has
    [return_type_match] false. *)
Lemma null_description_defeats_the_match :
  let truth := Demo.record (VStr (str "Closes the stream."))
                           (VStr (str "void")) (VStr (str "Nothing.")) in
  let answer := Demo.record (VStr (str "Closes the stream."))
                            (VStr (str "void")) VNone in
  parse_llm_response (VStr (Demo.json_dumps answer)) = Ok answer /\
  lower_strip (VStr (str "void")) = lower_strip (VStr (str "void")) /\
  exists scores,
    fst (calculate_method_similarity truth answer (Demo.fresh [] []))
      = Ok scores /\
    py_get scores "return_type_match" = Ok (VBool false) /\
    py_get scores "success" = Ok (VBool false).
Proof.
  intros truth answer. split; [vm_compute; reflexivity|].
  split; [reflexivity|].
  eexists. split; [vm_compute; reflexivity|]. split; reflexivity.
Qed.

(** C10 when the file to resume from does not exist. *)
Lemma unreadable_resume_file_witness :
  let st := Demo.fresh [] [] in
  let gt := Demo.ground_truth_of 2 in
  str "old.json" <> [] /\
  (exists e w', read_text (str "old.json") (world (started st)) = (Err e, w')) /\
  exists st_w new,
    run_full_evaluation Script.interface gt (str "out")
                        (Some (str "old.json")) st
      = evaluate_all Script.interface gt (str "out") st_w /\
    run_full_evaluation Script.interface gt (str "out") None st
      = evaluate_all Script.interface gt (str "out") (started st) /\
    results st_w = VDict [] /\
    effects st_w = EvLog WARNING :: new ++ effects st /\
    posts new = 0%nat /\ writes new = [].
Proof.
  intros st gt.
  assert (H1 : str "old.json" <> []) by (vm_compute; discriminate).
  assert (H2 : exists e w',
             read_text (str "old.json") (world (started st)) = (Err e, w'))
    by (do 2 eexists; reflexivity).
  split; [exact H1|]. split; [exact H2|].
  destruct (unreadable_resume_file_is_ignored Script.interface gt (str "out")
              (str "old.json") st H1 (or_introl H2))
    as (st_w & new & A & B & C & D & E & F).
  exists st_w, new. repeat split; assumption.
Defined.

(** C5 fails in the code.  The catalogue has eleven methods and the
    interval is 10.  The hosted backend answers the first request with a
    completion whose message is one lone surrogate (the escape [\ud800]
    in the body); nothing answers after that.  The answer is taken as a
    response, recorded with [success] true, and the loop goes on through
    the first ten methods.  The check-point after the tenth then fails:
    the result set holds the surrogate, which the file, opened in utf-8,
    cannot encode.  [save_json] raises again and nothing above it is
    guarded, so [run_full_evaluation] raises: the eleventh method is never
    processed, and the one file the run began to write is the refused
    progress file. *)
Theorem unwritable_answer_aborts_the_batch :
  let gt := Demo.ground_truth_of 11 in
  let st : @state Sample.utf8_runtime :=
    @State Sample.utf8_runtime (Script.World [Ok Sample.lone_surrogate] [])
           [] (VDict []) in
  exists st' recorded_response,
    @run_full_evaluation Sample.utf8_runtime Config.settings
                         Script.interface gt (str "out") None st
      = (Err Sample.unencodable, st') /\
    @first_message_content Sample.utf8_runtime Sample.lone_surrogate
      = Ok (VStr [55296%N]) /\
    dict_get (responses_of (results st') (str "m1")) (str "gpt4o")
      = Some recorded_response /\
    py_get recorded_response "raw_response" = Ok (VStr [55296%N]) /\
    py_get recorded_response "success" = Ok (VBool true) /\
    top_keys (results st')
      = map signature (firstn 10 (get_method_list gt)) /\
    entry (results st') (str "m11") = None /\
    map fst (writes (effects st')) = [progress_file (str "out")] /\
    posts (effects st') = 148%nat.
Proof.
  intros gt st.
  destruct (@run_full_evaluation Sample.utf8_runtime Config.settings
              Script.interface gt (str "out") None st) as [r st'] eqn:E.
  vm_compute in E. inversion E; subst.
  do 2 eexists. split; [reflexivity|].
  repeat split; reflexivity.
Qed.



(** C2 on two methods: the first run, in which the hosted backend answers
    the first request, saves its result set, and the second run resumes
    from the saved text. *)
Lemma resume_is_idempotent_witness :
  let gt := Demo.ground_truth_of 2 in
  let out := str "out" in
  let path := str "out/full_results.json" in
  let st1 :=
    Demo.fresh [Ok (Response 200 (Demo.chat_body
                      (Demo.json_dumps (Demo.answer_with_type "int"))))] [] in
  let st1' := snd (run_full_evaluation Script.interface gt out None st1) in
  let doc := Demo.json_dumps (results st1') in
  let st2 := Demo.fresh [] [(path, doc)] in
  results_ok (results st1) = true /\
  run_full_evaluation Script.interface gt out None st1 = (Ok tt, st1') /\
  path <> [] /\
  read_text path (world (started st2)) = (Ok doc, world st2) /\
  json_loads doc = Some (results st1') /\
  exists r st2' new,
    run_full_evaluation Script.interface gt out (Some path) st2 = (r, st2') /\
    effects st2' = new ++ effects st2 /\
    posts new = 0%nat /\
    results st2' = results st1' /\
    length (top_keys (results st2')) = 2%nat.
Proof.
  intros gt out path st1 st1' doc st2.
  assert (H1 : results_ok (results st1) = true) by reflexivity.
  assert (H2 : run_full_evaluation Script.interface gt out None st1
               = (Ok tt, st1')) by (vm_compute; reflexivity).
  assert (H3 : path <> []) by (vm_compute; discriminate).
  assert (H4 : read_text path (world (started st2)) = (Ok doc, world st2))
    by (vm_compute; reflexivity).
  assert (H5 : json_loads doc = Some (results st1'))
    by (vm_compute; reflexivity).
  split; [exact H1|]. split; [exact H2|]. split; [exact H3|].
  split; [exact H4|]. split; [exact H5|].
  destruct (resume_is_idempotent Script.interface gt out path doc st1 st1'
              st2 (world st2) H1 H2 H3 H4 H5)
    as (r & st2' & new & A & B & C & D & _).
  exists r, st2', new. repeat split; try assumption.
  rewrite D. vm_compute. reflexivity.
Defined.

(* ================================================================== *)
(** ** Further properties, on concrete inputs *)

(** X1 on an answer in plain words. *)
Lemma parsed_response_has_its_fields_witness :
  exists parsed fields return_values,
    parse_llm_response (VStr (str "I cannot answer that.")) = Ok parsed /\
    parsed = VDict fields /\
    dict_has fields (str "purpose_behavior") = true /\
    dict_get fields (str "return_values") = Some return_values /\
    py_contains return_values (str "type") = Ok true /\
    py_contains return_values (str "description") = Ok true.
Proof.
  destruct (parse_llm_response (VStr (str "I cannot answer that.")))
    as [parsed|e] eqn:E; [|vm_compute in E; discriminate].
  destruct (parsed_response_has_its_fields _ _ E) as (fields & rv & H).
  exists parsed, fields, rv. split; [reflexivity|exact H].
Defined.

(** X2 on a list that names the two fields. *)
Lemma parser_raises_exactly_on_broken_documents_witness :
  let raw := txt "['purpose_behavior', 'return_values']" in
  let v := VList [VStr (str "purpose_behavior"); VStr (str "return_values")] in
  json_loads (clean_response raw) = Some v /\
  exists e,
    parse_llm_response (VStr raw) = Err e /\
    exn_kind_of e = TypeError.
Proof.
  intros raw v.
  assert (Hv : json_loads (clean_response raw) = Some v)
    by (vm_compute; reflexivity).
  split; [exact Hv|].
  destruct (parser_raises_exactly_on_broken_documents raw v Hv)
    as [[_ B] [K _]].
  destruct (B eq_refl) as [e He].
  exists e. split; [exact He|exact (K e He)].
Defined.

(** X3 on a complete answer. *)
Lemma parser_accepts_exactly_complete_objects_witness :
  let raw := Demo.json_dumps (Demo.answer_with_type "int") in
  exists fields,
    json_loads (clean_response raw) = Some (VDict fields) /\
    has_all_fields fields = true /\
    parse_llm_response (VStr raw) = Ok (VDict fields).
Proof.
  intros raw.
  destruct (json_loads (clean_response raw)) as [[| | | | | |fields]|] eqn:E;
    try (vm_compute in E; discriminate).
  assert (R : forall rv, dict_get fields (str "return_values") = Some rv ->
                         is_dict rv = true).
  { vm_compute in E. inversion E; subst fields. intros rv H.
    vm_compute in H. inversion H. reflexivity. }
  assert (C : has_all_fields fields = true).
  { vm_compute in E. inversion E; subst fields. reflexivity. }
  exists fields. split; [reflexivity|]. split; [exact C|].
  exact (proj1 (parser_accepts_exactly_complete_objects raw fields E R) C).
Defined.

(** X4 on an answer that describes its return value in a sentence. *)
Lemma text_return_values_pass_validation_witness :
  let raw := txt "{'purpose_behavior': 'Reads a value.', 'return_values': 'type int, description: the value'}" in
  exists fields,
    parse_llm_response (VStr raw) = Ok (VDict fields) /\
    exists e,
      calculate_method_similarity Demo.parse_int_truth (VDict fields)
                                  (Demo.fresh [] [])
      = (Ok (failed_similarity e), logged ERROR (Demo.fresh [] [])).
Proof.
  intros raw.
  destruct (json_loads (clean_response raw)) as [[| | | | | |fields]|] eqn:E;
    try (vm_compute in E; discriminate).
  assert (F : fields =
              [ (str "purpose_behavior", VStr (str "Reads a value."));
                (str "return_values",
                 VStr (str "type int, description: the value")) ])
    by (vm_compute in E; inversion E; reflexivity).
  assert (H1 : dict_has fields (str "purpose_behavior") = true)
    by (rewrite F; reflexivity).
  assert (H2 : dict_get fields (str "return_values")
               = Some (VStr (str "type int, description: the value")))
    by (rewrite F; reflexivity).
  assert (H3 : str_contains (str "type")
                 (str "type int, description: the value") = true)
    by (vm_compute; reflexivity).
  assert (H4 : str_contains (str "description")
                 (str "type int, description: the value") = true)
    by (vm_compute; reflexivity).
  destruct (text_return_values_pass_validation raw fields
              (str "type int, description: the value") E H1 H2 H3 H4)
    as [P S].
  exists fields. split; [exact P|].
  exact (S Demo.parse_int_truth (Demo.fresh [] [])).
Defined.

(** X5 on an object between fences, each on a line of its own. *)
Lemma closed_fences_are_unwrapped_witness :
  let body := txt "
{'a': 1}
" in
  clean_response (str "```json" ++ body ++ str "```") = txt "{'a': 1}" /\
  clean_response (str "```" ++ body ++ str "```") = txt "{'a': 1}" /\
  parse_llm_response (VStr (str "```json" ++ body ++ str "```"))
  = parse_llm_response (VStr body).
Proof.
  intros body.
  destruct (closed_fences_are_unwrapped body) as (A & B & C).
  split; [rewrite A; vm_compute; reflexivity|].
  split; [rewrite B by (vm_compute; reflexivity); vm_compute; reflexivity|].
  apply C. vm_compute. reflexivity.
Defined.

(** X6 on an object behind an opening fence. *)
Lemma unclosed_fence_cuts_three_characters_witness :
  is_space 125 = false /\
  clean_response (str "```json" ++ txt "{'a': 1" ++ [125%N]) = txt "{'a':".
Proof.
  assert (H : is_space 125 = false) by reflexivity.
  split; [exact H|].
  rewrite (unclosed_fence_cuts_three_characters (txt "{'a': 1") 125 H).
  vm_compute. reflexivity.
Defined.

(** X8 on an answer in plain words, against the ground truth of
    [parseIntInput]. *)
Lemma placeholder_records_are_scored_witness :
  let raw := str "I cannot answer that." in
  let st := Demo.fresh [] [] in
  json_loads (clean_response raw) = None /\
  exists parsed scores,
    parse_llm_response (VStr raw) = Ok parsed /\
    calculate_method_similarity Demo.parse_int_truth parsed st
      = (Ok scores, st) /\
    py_get scores "success" = Ok (VBool true) /\
    py_get scores "return_type_match" = Ok (VBool false).
Proof.
  intros raw st.
  assert (N : json_loads (clean_response raw) = None)
    by (vm_compute; reflexivity).
  assert (T : text_record Demo.parse_int_truth
                (str "Parses the text as a decimal integer.") (str "int")
                (str "The integer the text denotes."))
    by (do 2 eexists; repeat split; reflexivity).
  split; [exact N|].
  destruct (placeholder_records_are_scored raw _ _ _ _ st T (or_introl N))
    as (parsed & tag & scores & P & Tg & _ & S & Ok1 & M).
  exists parsed, scores. split; [exact P|]. split; [exact S|].
  split; [exact Ok1|]. rewrite M.
  destruct Tg as [-> | ->]; vm_compute; reflexivity.
Defined.

(** X9 on status 503. *)
Lemma local_status_classification_witness :
  let config := Config.ollama_config "deepseek-coder:6.7b" in
  let resp := Response 503 (str "overloaded") in
  let st := Demo.fresh [Ok resp] [] in
  fst (query_ollama Script.interface (str "prompt") config st)
  = Err (Raised PlainException (str "Ollama API error: 503 - overloaded")).
Proof.
  intros config resp st.
  destruct (local_status_classification Script.interface (str "prompt") config
              (VStr (str "deepseek-coder:6.7b")) (VFloat (str "0.1")) st
              (Ok resp) (Script.World [] []) eq_refl eq_refl eq_refl)
    as (r & Hq & _ & _ & H & _).
  rewrite Hq. cbn [fst]. rewrite (H resp eq_refl) by (vm_compute; discriminate).
  vm_compute. reflexivity.
Defined.




(** X13 on an answer in plain words: it is a success, and its parsed
    response is the placeholder. *)
Lemma first_answer_is_returned_at_once_witness :
  let resp := Response 200 (Demo.generate_body (str "I cannot answer that.")) in
  let st := Demo.fresh [Ok resp] [] in
  exists result st',
    evaluate_method Script.interface Demo.parse_int_signature (str "deepseek") st
      = (Ok result, st') /\
    py_get result "success" = Ok (VBool true) /\
    py_get result "attempt" = Ok (VInt 1) /\
    py_get result "raw_response" = Ok (VStr (str "I cannot answer that.")) /\
    posts (effects st') = 1%nat /\ sleeps (effects st') = [] /\
    exists parsed return_values,
      py_get result "parsed_response" = Ok parsed /\
      py_get parsed "return_values" = Ok return_values /\
      py_get return_values "type" = Ok (VStr (str "PARSE_ERROR")).
Proof.
  intros resp st.
  assert (P : exists parsed,
             parse_llm_response (VStr (str "I cannot answer that.")) = Ok parsed /\
             exists return_values,
               py_get parsed "return_values" = Ok return_values /\
               py_get return_values "type" = Ok (VStr (str "PARSE_ERROR"))).
  { eexists. split; [vm_compute; reflexivity|].
    eexists. split; reflexivity. }
  destruct P as (parsed & Hp & rv & Hrv & Hty).
  pose proof (first_answer_is_returned_at_once Script.interface
                Demo.parse_int_signature (str "deepseek")
                (Config.ollama_config "deepseek-coder:6.7b")
                (VStr (str "ollama")) (VStr (str "deepseek-coder:6.7b"))
                (VFloat (str "0.1")) resp
                [ (str "response", VStr (str "I cannot answer that.")) ]
                (VStr (str "I cannot answer that.")) parsed st
                (Script.World [] [])) as H.
  cbv zeta in H. rewrite H; try reflexivity; try exact Hp;
    [|vm_compute; discriminate].
  do 2 eexists. split; [reflexivity|].
  split; [reflexivity|]. split; [reflexivity|]. split; [reflexivity|].
  split; [reflexivity|]. split; [reflexivity|].
  exists parsed, rv. split; [reflexivity|]. split; assumption.
Defined.

(** X14 on a resume file that holds an empty list. *)
Lemma misshapen_resume_file_aborts_the_run_witness :
  let path := str "old.json" in
  let st := Demo.fresh [] [(path, str "[]")] in
  let gt := Demo.ground_truth_of 2 in
  exists e st' new,
    run_full_evaluation Script.interface gt (str "out") (Some path) st
      = (Err e, st') /\
    exn_kind_of e = TypeError /\
    results st' = VList [] /\
    effects st' = new ++ effects st /\
    posts new = 0%nat /\ writes new = [].
Proof.
  intros path st gt.
  apply (misshapen_resume_file_aborts_the_run Script.interface gt (str "out")
           path (str "[]") (VList []) st (world st)
           {| signature := str "m1"; category := str "parsing";
              data := Demo.parse_int_truth |}
           [ {| signature := str "m2"; category := str "parsing";
                data := Demo.parse_int_truth |} ]).
  - vm_compute. discriminate.
  - reflexivity.
  - reflexivity.
  - reflexivity.
  - vm_compute. reflexivity.
  - vm_compute. discriminate.
Defined.

(** X15 on twelve methods and a storage that takes no write. *)
Lemma failed_checkpoint_aborts_the_run_witness :
  let gt := Demo.ground_truth_of 12 in
  let st := @State Sample.read_only_runtime (Script.World [] []) [] (VDict []) in
  exists st' new,
    @run_full_evaluation Sample.read_only_runtime Config.settings
                         Script.interface gt (str "out") None st
      = (Err Sample.read_only, st') /\
    effects st' = new ++ effects st /\
    map fst (writes new) = [progress_file (str "out")].
Proof.
  intros gt st.
  apply (@failed_checkpoint_aborts_the_run Sample.read_only_runtime
           Config.settings Script.interface gt (str "out") Sample.read_only st).
  - reflexivity.
  - apply distinct_NoDup. vm_compute. reflexivity.
  - vm_compute. split; [reflexivity|discriminate].
  - intros data w. exists w. reflexivity.
Defined.

(** X16 on three methods, the second of which the result set holds. *)
Lemma existing_entries_are_kept_witness :
  let kept := VDict [ (str "category", VStr (str "parsing"));
                      (str "llm_responses", VDict []) ] in
  let st := @State Script.runtime (Script.World [] []) []
                   (VDict [ (str "m2", kept) ]) in
  let methods := get_method_list (Demo.ground_truth_of 3) in
  exists st',
    evaluation_loop Script.interface (str "out") 0 methods st = (Ok tt, st') /\
    top_keys (results st') = [str "m2"; str "m1"; str "m3"] /\
    entry (results st') (str "m2") = Some kept.
Proof.
  intros kept st methods.
  destruct (existing_entries_are_kept Script.interface (str "out") methods 0 st
              script_storage_accepts)
    as (st' & added & Hrun & Hk & _ & _ & Hkeep);
    [vm_compute; discriminate|reflexivity|].
  exists st'. split; [exact Hrun|]. split.
  - clear Hk Hkeep. vm_compute in Hrun. inversion Hrun. reflexivity.
  - apply Hkeep. reflexivity.
Defined.

(** X18 on three records in two categories. *)
Lemma typed_method_list_is_the_documents_witness :
  Document.signed Sample.signed_ground_truth /\
  Document.get_method_list (Document.of_ground_truth Sample.signed_ground_truth)
    = Ok (map Document.of_method_info
              (get_method_list Sample.signed_ground_truth)) /\
  Document.count_total_methods
    (Document.of_ground_truth Sample.signed_ground_truth) = Ok 3%Z.
Proof.
  assert (S : Document.signed Sample.signed_ground_truth).
  { intros c ms e Hc He.
    destruct Hc as [Hc|[Hc|[]]]; inversion Hc; subst; clear Hc;
      repeat (destruct He as [<-|He]; [eexists; split; reflexivity|]);
      destruct He. }
  split; [exact S|].
  exact (typed_method_list_is_the_documents Sample.signed_ground_truth S).
Defined.

(** X19 on a ground truth of three records and on an empty category. *)
Lemma validation_accepts_non_empty_catalogues_witness :
  let st := Demo.fresh [] [] in
  Document.validate_ground_truth
    (Document.of_ground_truth Sample.signed_ground_truth) st
  = (Ok tt, logged INFO st) /\
  Document.validate_ground_truth
    (Document.of_ground_truth [ (str "io", []) ]) st
  = (Err (Raised ValueError (str "No methods found in ground truth")), st).
Proof.
  intros st. split.
  - apply (validation_accepts_non_empty_catalogues Sample.signed_ground_truth st).
    vm_compute. discriminate.
  - apply (validation_accepts_non_empty_catalogues [ (str "io", []) ] st).
    reflexivity.
Defined.

(** X20 on a record without signature. *)
Lemma validation_does_not_read_the_records_witness :
  let st := Demo.fresh [] [] in
  let document :=
    VDict [ (str "framework_methods",
             VDict [ (str "io", VList [ Demo.parse_int_truth ]) ]) ] in
  py_get Demo.parse_int_truth "signature"
    = Err (fault KeyError (VStr (str "signature"))) /\
  Document.validate_ground_truth document st = (Ok tt, logged INFO st) /\
  Document.get_method_list document
    = Err (fault KeyError (VStr (str "signature"))).
Proof.
  intros st document.
  assert (H : py_get Demo.parse_int_truth "signature"
              = Err (fault KeyError (VStr (str "signature")))) by reflexivity.
  split; [exact H|].
  exact (validation_does_not_read_the_records (str "io") Demo.parse_int_truth
           [] _ st H).
Defined.

(** X21 on one method, when only the hosted backend answers. *)
Lemma scores_follow_success_witness :
  let answers :=
    [ Ok (Response 200 (Demo.chat_body
                          (Demo.json_dumps (Demo.answer_with_type "int")))) ] in
  let st := Demo.fresh answers [] in
  let methods := get_method_list (Demo.ground_truth_of 1) in
  exists st',
    evaluation_loop Script.interface (str "out") 0 methods st = (Ok tt, st') /\
    dict_keys (responses_of (results st') (str "m1")) = dict_keys LLM_CONFIGS /\
    dict_keys (scores_of (results st') (str "m1")) = [str "gpt4o"] /\
    (forall l, dict_has (scores_of (results st') (str "m1")) l = true
               <-> exists v,
                     dict_get (responses_of (results st') (str "m1")) l
                       = Some v /\
                     py_get v "success" = Ok (VBool true)).
Proof.
  intros answers st methods.
  destruct (scores_follow_success Script.interface (str "out") methods 0 st
              script_storage_accepts)
    as (st' & Hrun & Hfacts);
    [vm_compute; discriminate|reflexivity
    |apply distinct_NoDup; vm_compute; reflexivity|].
  exists st'. split; [exact Hrun|].
  destruct (Hfacts {| signature := str "m1"; category := str "parsing";
                      data := Demo.parse_int_truth |}) as [_ H];
    [now left|intros []|].
  cbn [signature] in H.
  split; [|split; [|exact H]];
    clear H Hfacts; vm_compute in Hrun; inversion Hrun; reflexivity.
Defined.

(** X22 on an object between blank lines. *)
Lemma parser_ignores_surrounding_whitespace_witness :
  parse_llm_response
    (VStr (txt "
  {'purpose_behavior': 'x'}  
"))
  = parse_llm_response (VStr (txt "{'purpose_behavior': 'x'}")).
Proof.
  apply (parser_ignores_surrounding_whitespace
           [10; 32; 32]%N (txt "{'purpose_behavior': 'x'}") [32; 32; 10]%N);
    reflexivity.
Defined.

(** X23 on four methods, two of which an earlier run has evaluated. *)
Lemma resumed_run_budget_witness :
  let gt := Demo.ground_truth_of 4 in
  let out := str "out" in
  let path := str "resume.json" in
  let earlier :=
    results (snd (run_full_evaluation Script.interface
                    (Demo.ground_truth_with [2; 3]%nat)
                    (str "earlier") None (Demo.fresh [] []))) in
  let st := Demo.fresh [] [(path, Demo.json_dumps earlier)] in
  length (absent earlier (get_method_list gt)) = 2%nat /\
  exists r st' new,
    run_full_evaluation Script.interface gt out (Some path) st = (r, st') /\
    effects st' = new ++ effects st /\
    (posts new <= 2 * 5 * 3)%nat.
Proof.
  intros gt out path earlier st.
  split; [vm_compute; reflexivity|].
  destruct (resumed_run_budget Script.interface gt out path
              (Demo.json_dumps earlier) earlier st (world st))
    as (r & st' & new & Hrun & E & P).
  - vm_compute. discriminate.
  - reflexivity.
  - vm_compute. reflexivity.
  - vm_compute. reflexivity.
  - exact script_storage_accepts.
  - vm_compute. discriminate.
  - exists r, st', new. split; [exact Hrun|]. split; [exact E|].
    replace (length (absent earlier (get_method_list gt))) with 2%nat in P
      by (vm_compute; reflexivity).
    exact P.
Defined.

(** X24 in a world where the statistics divide by zero. *)
Lemma failed_summary_leaves_the_full_results_witness :
  let st := @State Sample.no_statistics_runtime (Script.World [] []) []
                   (VDict []) in
  exists w,
    @finish_run Sample.no_statistics_runtime (str "out") st
    = (Err Sample.no_statistics,
       @State Sample.no_statistics_runtime w
              [EvLog INFO; EvWrite (str "out/full_results.json") (VDict [])]
              (VDict [])).
Proof.
  intros st.
  apply (@failed_summary_leaves_the_full_results
           Sample.no_statistics_runtime (str "out") Sample.no_statistics st).
  - intros path data w. exists w. reflexivity.
  - reflexivity.
Defined.


(** X26 on two methods, where the backends answer with a page that is no
    completion, a refusal, plain words, nothing at all, and a list. *)
Lemma outcomes_are_recorded_witness :
  let answers :=
    [ Ok (Response 200 (str "<html>not a completion</html>"));
      Ok (Response 429 []);
      Ok (Response 200 (Demo.chat_body (str "no JSON here")));
      Err Script.unreachable;
      Ok (Response 200 (Demo.generate_body (str "[1, 2]"))) ] in
  let st := Demo.fresh answers [] in
  let methods := get_method_list (Demo.ground_truth_of 2) in
  storage_accepts /\
  PROGRESS_SAVE_INTERVAL <> 0%Z /\
  results_ok (results st) = true /\
  exists st',
    evaluation_loop Script.interface (str "out") 0 methods st = (Ok tt, st') /\
    forall m,
      In m methods ->
      ~ In (signature m) (top_keys (results st)) ->
      forall llm_name,
        In llm_name (dict_keys LLM_CONFIGS) ->
        records_call Script.interface st st' (signature m) llm_name.
Proof.
  intros answers st methods.
  assert (H2 : PROGRESS_SAVE_INTERVAL <> 0%Z) by (vm_compute; discriminate).
  assert (H3 : results_ok (results st) = true) by reflexivity.
  split; [exact script_storage_accepts|]. split; [exact H2|].
  split; [exact H3|].
  exact (outcomes_are_recorded Script.interface (str "out") methods 0%Z st
           script_storage_accepts H2 H3).
Defined.
